(** * anthill-message: groups, participations and message history

    A shallow embedding of [src/model/group.py] and [src/model/history.py].

    The two models talk to a MySQL storage through SQL text.  The tables are
    modelled as lists of typed rows (insertion order), every SQL statement of
    the source is transcribed into a function over those lists (the statement
    is quoted next to it), and the coroutines become computations in a small
    state-and-exception monad over a [World] that holds the tables, a
    schedule of storage faults and the external collaborators (cluster
    service, message queue, presence registry).

    Conventions of the storage model, which the source leaves to MySQL:
    - [=] on text columns is exact equality and [LIKE] is the wildcard match
      of [sql_like] (binary collation);
    - an integer column compared with the decimal text of an integer
      ([str(account_id)]) is compared by value;
    - a SELECT without ORDER BY returns rows in table order, and ORDER BY
      is a stable sort;
    - the arguments of LIMIT must be non-negative integers: a statement
      that carries a negative one is refused with a [DatabaseError]
      (a syntax error) and reads nothing. *)

From Stdlib Require Import ZArith List String Ascii Bool Lia.
From Stdlib Require Import DecimalString DecimalZ DecimalPos Permutation Sorted.
Import ListNotations.

Open Scope string_scope.
Open Scope Z_scope.

(* ================================================================== *)
(** * Python strings and values *)
(* ================================================================== *)

(** [str(n)] for a Python integer: its decimal text. *)
Definition str (n : Z) : string := NilZero.string_of_int (Z.to_int n).

(** One character of [s.lower()]. *)
Definition lower_ascii (c : ascii) : ascii :=
  let n := nat_of_ascii c in
  if (Nat.leb 65 n && Nat.leb n 90)%bool then ascii_of_nat (n + 32) else c.

(** [s.lower()] *)
Fixpoint lower (s : string) : string :=
  match s with
  | EmptyString => EmptyString
  | String c rest => String (lower_ascii c) (lower rest)
  end.

(** [s.split(sep)] for a one-character separator: never an empty list,
    [''.split(',') == ['']]. *)
Fixpoint split (sep : ascii) (s : string) : list string :=
  match s with
  | EmptyString => [EmptyString]
  | String c rest =>
      if Ascii.eqb c sep then EmptyString :: split sep rest
      else match split sep rest with
           | h :: t => String c h :: t
           | [] => [String c EmptyString]
           end
  end.

(** The values a row dictionary holds in the code modelled here. *)
Inductive PyVal : Type :=
| PyNone
| PyInt (n : Z)
| PyStr (s : string).

(** A Python [dict] with text keys, as an association list. *)
Definition PyDict := list (string * PyVal).

(** [data.get(key)]: [None] when the key is absent. *)
Fixpoint dict_get (data : PyDict) (key : string) : PyVal :=
  match data with
  | [] => PyNone
  | (k, v) :: rest => if String.eqb k key then v else dict_get rest key
  end.

(** [str(v)] *)
Definition py_str (v : PyVal) : string :=
  match v with
  | PyNone => "None"
  | PyInt n => str n
  | PyStr s => s
  end.

(** [int(v)]: [None] stands for the TypeError of [int(None)] and the
    ValueError of a text that is not a decimal number. *)
Definition py_int (v : PyVal) : option Z :=
  match v with
  | PyNone => None
  | PyInt n => Some n
  | PyStr s => option_map Z.of_int (NilZero.int_of_string s)
  end.

(** Truth value of an optional text ([if self.message_type:]). *)
Definition truthy_str (o : option string) : bool :=
  match o with
  | Some (String _ _) => true
  | _ => false
  end.

(** Truth value of an optional integer ([if self.message_sender:]). *)
Definition truthy_int (o : option Z) : bool :=
  match o with
  | Some n => negb (n =? 0)
  | None => false
  end.

(* ================================================================== *)
(** * SQL comparison operators *)
(* ================================================================== *)

(** [s LIKE pat]: [%] matches any run of characters, [_] any one
    character, a backslash takes the next pattern character literally. *)
Fixpoint sql_like (pat s : string) {struct pat} : bool :=
  match pat with
  | EmptyString =>
      match s with EmptyString => true | _ => false end
  | String "%"%char p' =>
      (fix star (t : string) : bool :=
         (sql_like p' t ||
          match t with
          | EmptyString => false
          | String _ t' => star t'
          end)%bool) s
  | String "_"%char p' =>
      match s with
      | EmptyString => false
      | String _ s' => sql_like p' s'
      end
  | String "\"%char (String c p'') =>
      match s with
      | EmptyString => false
      | String d s' => (Ascii.eqb c d && sql_like p'' s')%bool
      end
  | String c p' =>
      match s with
      | EmptyString => false
      | String d s' => (Ascii.eqb c d && sql_like p' s')%bool
      end
  end.

(** ORDER BY [key] DESC as a stable insertion sort. *)
Fixpoint insert_desc {A : Type} (key : A -> Z) (x : A) (l : list A) : list A :=
  match l with
  | [] => [x]
  | y :: rest =>
      if key y <? key x then x :: l else y :: insert_desc key x rest
  end.

Definition order_by_desc {A : Type} (key : A -> Z) (l : list A) : list A :=
  fold_right (insert_desc key) [] l.

(** LIMIT [offset], [count]: the rows of a statement whose LIMIT
    arguments the storage accepts.  It is only applied to such
    arguments, see [db_select_limit]. *)
Definition sql_limit {A : Type} (offset count : Z) (l : list A) : list A :=
  firstn (Z.to_nat count) (skipn (Z.to_nat offset) l).

(** MySQL accepts only non-negative integers after LIMIT. *)
Definition limit_accepted (offset count : Z) : bool :=
  ((0 <=? offset) && (0 <=? count))%bool.

(** What the storage answers to a LIMIT argument it does not accept. *)
Definition limit_syntax_error : string :=
  "You have an error in your SQL syntax".

(* ================================================================== *)
(** * Tables *)
(* ================================================================== *)

(** A row of [`groups`]. *)
Module groups_t.
Record row : Type := mk {
  gamespace_id : Z;
  group_id : Z;
  group_class : string;
  group_key : string;
  group_clustered : Z;
  group_cluster_size : Z
}.
End groups_t.

(** A row of [`group_participants`]. *)
Module participants_t.
Record row : Type := mk {
  gamespace_id : Z;
  participation_id : Z;
  group_id : Z;
  group_class : string;
  group_key : string;
  participation_account : Z;
  participation_role : string;
  cluster_id : Z
}.

(** The row as the dictionary a [SELECT *] hands to the adaptor. *)
Definition columns (r : row) : PyDict :=
  [ ("gamespace_id", PyInt (gamespace_id r));
    ("participation_id", PyInt (participation_id r));
    ("group_id", PyInt (group_id r));
    ("group_class", PyStr (group_class r));
    ("group_key", PyStr (group_key r));
    ("participation_account", PyInt (participation_account r));
    ("participation_role", PyStr (participation_role r));
    ("cluster_id", PyInt (cluster_id r)) ].
End participants_t.

(** A row of [`messages`]. *)
Module messages_t.
Record row : Type := mk {
  gamespace_id : Z;
  message_id : Z;
  message_uuid : string;
  message_recipient_class : string;
  message_sender : Z;
  message_recipient : string;
  message_time : Z;
  message_type : string;
  message_payload : string;
  message_delivered : Z;
  message_flags : string
}.

Definition eq_dec (a b : row) : {a = b} + {a <> b}.
Proof.
  decide equality; auto using Z.eq_dec, string_dec.
Defined.

(** [SET `message_delivered`=1] *)
Definition set_delivered (r : row) : row :=
  mk (gamespace_id r) (message_id r) (message_uuid r)
     (message_recipient_class r) (message_sender r) (message_recipient r)
     (message_time r) (message_type r) (message_payload r) 1
     (message_flags r).
End messages_t.

(** The three tables and their AUTO_INCREMENT counters. *)
Record Database : Type := mkDatabase {
  groups : list groups_t.row;
  group_participants : list participants_t.row;
  messages : list messages_t.row;
  next_group_id : Z;
  next_participation_id : Z;
  next_message_id : Z
}.

(* ================================================================== *)
(** * Adaptors ([GroupAdapter], [GroupParticipationAdapter],
      [MessageAdapter]) *)
(* ================================================================== *)

(** [class GroupAdapter].  It is only ever built from a row of [`groups`],
    which carries every column, so the defaults of [data.get] never apply. *)
Module GroupAdapter.
Record t : Type := mk {
  group_id : Z;
  group_class : string;
  key : string;
  clustered : bool;
  cluster_size : Z
}.

Definition init (data : groups_t.row) : t :=
  mk (groups_t.group_id data)
     (groups_t.group_class data)
     (groups_t.group_key data)
     (negb (groups_t.group_clustered data =? 0))
     (groups_t.group_cluster_size data).
End GroupAdapter.

(** [class GroupParticipationAdapter].  [join_group] builds its argument
    by hand, so the adaptor is modelled on dictionaries. *)
Module GroupParticipationAdapter.
Record t : Type := mk {
  participation_id : string;
  group_id : string;
  group_class : string;
  group_key : string;
  cluster_id : Z;
  account : PyVal;
  role : PyVal
}.

(** [__init__]; [None] when [int(data.get("cluster_id"))] raises. *)
Definition init (data : PyDict) : option t :=
  match py_int (dict_get data "cluster_id") with
  | Some c =>
      Some (mk (py_str (dict_get data "participation_id"))
               (py_str (dict_get data "group_id"))
               (py_str (dict_get data "group_class"))
               (py_str (dict_get data "group_key"))
               c
               (dict_get data "participation_account")
               (dict_get data "participation_role"))
  | None => None
  end.

(** [calculate_recipient] *)
Definition calculate_recipient (self : t) : string :=
  if negb (cluster_id self =? 0)
  then group_key self ++ "-" ++ str (cluster_id self)
  else group_key self.
End GroupParticipationAdapter.

(** [class GroupAndParticipationAdapter(GroupAdapter,
    GroupParticipationAdapter)]: both initialisers run on the joined row.
    [group] holds what [GroupAdapter.__init__] assigns and
    [participation] what [GroupParticipationAdapter.__init__] assigns
    after it, so of an attribute both assign the object keeps the one in
    [participation].

    The joined row is kept as its two halves, and each initialiser reads
    the half of its own table.  The source hands both the one dictionary
    of the row, in which the column names the two tables share
    ([gamespace_id], [group_id], [group_class], [group_key]) have one
    value each; which half that value is taken from is the database
    driver's choice.  The two readings are the same whenever the halves
    agree on the shared columns: the joins make them agree on
    [group_id], and [join_group] writes the group's class and key into
    the participation row, which [update_group] does not follow.
    Properties of what the joined adaptor holds for [group_class] and
    [group_key] are therefore stated for rows whose halves agree. *)
Module GroupAndParticipationAdapter.
Record t : Type := mk {
  group : GroupAdapter.t;
  participation : GroupParticipationAdapter.t
}.

Definition init (g : groups_t.row) (p : participants_t.row) : option t :=
  match GroupParticipationAdapter.init (participants_t.columns p) with
  | Some a => Some (mk (GroupAdapter.init g) a)
  | None => None
  end.
End GroupAndParticipationAdapter.

(** [class MessageAdapter].  The flags column is lower-cased and split at
    commas; [DeliveryFlags] is the set of the resulting names. *)
Module MessageAdapter.
Record t : Type := mk {
  message_id : Z;
  message_uuid : string;
  recipient_class : string;
  sender : string;
  recipient : string;
  time : Z;
  message_type : string;
  payload : string;
  delivered : Z;
  flags : list string
}.

Definition init (data : messages_t.row) : t :=
  mk (messages_t.message_id data)
     (messages_t.message_uuid data)
     (messages_t.message_recipient_class data)
     (str (messages_t.message_sender data))
     (messages_t.message_recipient data)
     (messages_t.message_time data)
     (messages_t.message_type data)
     (messages_t.message_payload data)
     (messages_t.message_delivered data)
     (split "," (lower (messages_t.message_flags data))).
End MessageAdapter.

(** [flag in flags] for a [DeliveryFlags] set. *)
Definition flags_contain (flag : string) (flags : list string) : bool :=
  existsb (String.eqb flag) flags.

(* ================================================================== *)
(** * Exceptions and the computation monad *)
(* ================================================================== *)

Inductive Exn : Type :=
| DatabaseError (message : string)
| DuplicateError
| ClusterError
| TypeError
| MessageError (code : Z) (message : string)
| MessageQueryError (message : string)
| MessageNotFound
| GroupError (code : Z) (message : string)
| GroupNotFound
| GroupParticipantNotFound
| GroupExistsError
| UserAlreadyJoined.

Inductive Result (A : Type) : Type :=
| Ok (value : A)
| Raise (e : Exn).

Arguments Ok {A} value.
Arguments Raise {A} e.

(** A notification handed to the message queue dispatcher
    ([app.message_queue.add_message]). *)
Record Notification : Type := mkNotification {
  n_gamespace : Z;
  n_sender : Z;
  n_recipient_class : string;
  n_recipient : string;
  n_message_type : string;
  n_payload : PyDict;
  n_authoritative : bool
}.

(** The text of a storage error ([e.args[1]]); [DuplicateError] is a kind
    of [DatabaseError]. *)
Definition database_error (e : Exn) : option string :=
  match e with
  | DatabaseError msg => Some msg
  | DuplicateError => Some "Duplicate entry"
  | _ => None
  end.

Section Model.

(** The cluster assignment service ([common.cluster.Cluster]): an external
    collaborator with a state of its own; [None] and [false] stand for a
    [ClusterError]. *)
Variable ClusterState : Type.
Variable cluster_get_cluster :
  Z -> Z -> Z -> Z -> bool -> ClusterState -> option Z * ClusterState.
Variable cluster_leave_cluster :
  Z -> Z -> Z -> ClusterState -> bool * ClusterState.

(** Constants of the package's [__init__] module, which is not part of the
    two files modelled. *)
Variable CLASS_USER : string.
Variable REMOVE_DELIVERED : string.

(** Everything an operation can read or change.
    - [faults]: what the storage answers to the next calls ([Some msg]: the
      call raises a [DatabaseError] carrying [msg]); past its end, calls
      succeed;
    - [calls]: statements sent to the storage so far; [acquired]:
      connections taken from the pool so far;
    - [found_rows]: the connection's [FOUND_ROWS()] register;
    - [outbox], [bindings], [received]: what was handed, in order, to the
      message queue, to the presence registry and to receiver callbacks. *)
Record World : Type := mkWorld {
  db : Database;
  found_rows : Z;
  faults : list (option string);
  calls : nat;
  acquired : nat;
  cluster : ClusterState;
  outbox : list Notification;
  bindings : list (Z * GroupParticipationAdapter.t);
  received : list MessageAdapter.t
}.

Definition M (A : Type) : Type := World -> Result A * World.

Definition ret {A : Type} (a : A) : M A := fun w => (Ok a, w).

Definition raise {A : Type} (e : Exn) : M A := fun w => (Raise e, w).

Definition bind {A B : Type} (m : M A) (k : A -> M B) : M B :=
  fun w =>
    match m w with
    | (Ok a, w') => k a w'
    | (Raise e, w') => (Raise e, w')
    end.

(** [try: m except ...]: the handler picks the exceptions it catches. *)
Definition try_except {A : Type} (m : M A) (handler : Exn -> option (M A)) : M A :=
  fun w =>
    match m w with
    | (Ok a, w') => (Ok a, w')
    | (Raise e, w') =>
        match handler e with
        | Some h => h w'
        | None => (Raise e, w')
        end
    end.

(** [except DatabaseError as e: raise wrap(e.args[1])] *)
Definition on_database_error {A : Type} (wrap : string -> Exn) (e : Exn) : option (M A) :=
  option_map (fun msg => raise (wrap msg)) (database_error e).

Definition when (b : bool) (m : M unit) : M unit :=
  if b then m else ret tt.

(** The outcome of a data-changing statement. *)
Record Outcome : Type := mkOutcome {
  new_db : Database;
  rowcount : Z;
  lastrowid : Z
}.

Definition set_db (d : Database) (w : World) : World :=
  mkWorld d (found_rows w) (faults w) (calls w) (acquired w)
          (cluster w) (outbox w) (bindings w) (received w).

Definition set_found_rows (n : Z) (w : World) : World :=
  mkWorld (db w) n (faults w) (calls w) (acquired w)
          (cluster w) (outbox w) (bindings w) (received w).

(** One statement reaches the storage: it is counted, and the storage
    answers with a fault if one is scheduled. *)
Definition storage_call : M unit :=
  fun w =>
    let next rest :=
      mkWorld (db w) (found_rows w) rest (S (calls w)) (acquired w)
              (cluster w) (outbox w) (bindings w) (received w) in
    match faults w with
    | Some msg :: rest => (Raise (DatabaseError msg), next rest)
    | None :: rest => (Ok tt, next rest)
    | [] => (Ok tt, next [])
    end.

(** [db.query(SELECT ...)]: the rows, in order.  [found] is the number of
    rows [FOUND_ROWS()] reports afterwards. *)
Definition db_select {A : Type} (select : Database -> list A)
    (found : Database -> Z) : M (list A) :=
  bind storage_call (fun _ w =>
    (Ok (select (db w)), set_found_rows (found (db w)) w)).

Definition db_query {A : Type} (select : Database -> list A) : M (list A) :=
  db_select select (fun d => Z.of_nat (List.length (select d))).

(** [db.query(SELECT ... LIMIT %s, %s)] with the two arguments as the
    caller passed them: the statement reaches the storage, which refuses
    it when an argument is negative and otherwise answers the window
    [sql_limit offset count] of the rows of [select]. *)
Definition db_select_limit {A : Type} (offset count : Z)
    (select : Database -> list A) (found : Database -> Z) : M (list A) :=
  bind storage_call (fun _ w =>
    if limit_accepted offset count
    then (Ok (sql_limit offset count (select (db w))),
          set_found_rows (found (db w)) w)
    else (Raise (DatabaseError limit_syntax_error), w)).

(** [db.get(SELECT ...)]: the first row, or [None]. *)
Definition db_get {A : Type} (select : Database -> list A) : M (option A) :=
  bind (db_query select) (fun rows => ret (hd_error rows)).

(** [SELECT FOUND_ROWS() AS count] *)
Definition db_get_found_rows : M Z :=
  bind storage_call (fun _ w => (Ok (found_rows w), set_found_rows 1 w)).

(** A data-changing statement; a constraint violation leaves the tables
    as they were. *)
Definition db_statement (stmt : Database -> Result Outcome) : M Outcome :=
  bind storage_call (fun _ w =>
    match stmt (db w) with
    | Ok o => (Ok o, set_db (new_db o) w)
    | Raise e => (Raise e, w)
    end).

(** [db.execute(...)] answers with the number of rows affected. *)
Definition db_execute (stmt : Database -> Result Outcome) : M Z :=
  bind (db_statement stmt) (fun o => ret (rowcount o)).

(** [db.insert(...)] answers with the generated identifier. *)
Definition db_insert (stmt : Database -> Result Outcome) : M Z :=
  bind (db_statement stmt) (fun o => ret (lastrowid o)).

(** [with (yield db.acquire(auto_commit=...)) as db: body].  A connection
    is taken from the pool; without auto-commit, leaving the block by an
    exception discards what the block changed. *)
Definition with_acquire {A : Type} (auto_commit : bool) (body : M A) : M A :=
  fun w =>
    let w0 :=
      mkWorld (db w) (found_rows w) (faults w) (calls w) (S (acquired w))
              (cluster w) (outbox w) (bindings w) (received w) in
    match body w0 with
    | (Ok a, w') => (Ok a, w')
    | (Raise e, w') =>
        (Raise e, if auto_commit then w' else set_db (db w) w')
    end.

(** [db.commit()] *)
Definition db_commit : M unit := storage_call.

(** [self.online.bind_account_to_group(account, participation)] *)
Definition online_bind_account_to_group (account : Z)
    (participation : GroupParticipationAdapter.t) : M unit :=
  fun w =>
    (Ok tt,
     mkWorld (db w) (found_rows w) (faults w) (calls w) (acquired w)
             (cluster w) (outbox w) (bindings w ++ [(account, participation)])%list (received w)).

(** [self.app.message_queue.add_message(...)] *)
Definition message_queue_add_message (n : Notification) : M unit :=
  fun w =>
    (Ok tt,
     mkWorld (db w) (found_rows w) (faults w) (calls w) (acquired w)
             (cluster w) (outbox w ++ [n])%list (bindings w) (received w)).

(** [yield receiver(m)]: the callback is handed [m] and answers whether
    the message reached its destination. *)
Definition call_receiver (receiver : MessageAdapter.t -> bool) (m : MessageAdapter.t)
    : M bool :=
  fun w =>
    (Ok (receiver m),
     mkWorld (db w) (found_rows w) (faults w) (calls w) (acquired w)
             (cluster w) (outbox w) (bindings w) (received w ++ [m])%list).

(** [self.cluster.get_cluster(...)] *)
Definition cluster_get (gamespace account group_id cluster_size : Z)
    (auto_create : bool) : M Z :=
  fun w =>
    let '(r, c) :=
      cluster_get_cluster gamespace account group_id cluster_size
                          auto_create (cluster w) in
    let w' :=
      mkWorld (db w) (found_rows w) (faults w) (calls w) (acquired w)
              c (outbox w) (bindings w) (received w) in
    match r with
    | Some id => (Ok id, w')
    | None => (Raise ClusterError, w')
    end.

(** [self.cluster.leave_cluster(...)] *)
Definition cluster_leave (gamespace account group_id : Z) : M unit :=
  fun w =>
    let '(ok, c) := cluster_leave_cluster gamespace account group_id (cluster w) in
    let w' :=
      mkWorld (db w) (found_rows w) (faults w) (calls w) (acquired w)
              c (outbox w) (bindings w) (received w) in
    if ok then (Ok tt, w') else (Raise ClusterError, w').

Notation "x <- m ;; k" := (bind m (fun x => k))
  (at level 61, m at next level, right associativity).
Notation "m ;;; k" := (bind m (fun _ => k))
  (at level 61, right associativity).

(* ================================================================== *)
(** * Statements on the tables *)
(* ================================================================== *)

Definition set_groups (t : list groups_t.row) (d : Database) : Database :=
  mkDatabase t (group_participants d) (messages d)
             (next_group_id d) (next_participation_id d) (next_message_id d).

Definition set_group_participants (t : list participants_t.row) (d : Database) : Database :=
  mkDatabase (groups d) t (messages d)
             (next_group_id d) (next_participation_id d) (next_message_id d).

Definition set_messages (t : list messages_t.row) (d : Database) : Database :=
  mkDatabase (groups d) (group_participants d) t
             (next_group_id d) (next_participation_id d) (next_message_id d).

Definition count_rows {A : Type} (cond : A -> bool) (t : list A) : Z :=
  Z.of_nat (List.length (filter cond t)).

(** [DELETE FROM t WHERE cond] on one table. *)
Definition sql_delete {A : Type} (cond : A -> bool) (t : list A) : list A :=
  filter (fun r => negb (cond r)) t.

(** [UPDATE t SET ... WHERE cond] on one table. *)
Definition sql_update {A : Type} (cond : A -> bool) (set : A -> A) (t : list A) : list A :=
  map (fun r => if cond r then set r else r) t.

Definition delete_from_messages (cond : messages_t.row -> bool) (d : Database) : Result Outcome :=
  Ok (mkOutcome (set_messages (sql_delete cond (messages d)) d)
                (count_rows cond (messages d)) 0).

Definition update_messages (cond : messages_t.row -> bool)
    (set : messages_t.row -> messages_t.row) (d : Database) : Result Outcome :=
  Ok (mkOutcome (set_messages (sql_update cond set (messages d)) d)
                (count_rows cond (messages d)) 0).

Definition delete_from_groups (cond : groups_t.row -> bool) (d : Database) : Result Outcome :=
  Ok (mkOutcome (set_groups (sql_delete cond (groups d)) d)
                (count_rows cond (groups d)) 0).

Definition delete_from_group_participants (cond : participants_t.row -> bool)
    (d : Database) : Result Outcome :=
  Ok (mkOutcome (set_group_participants (sql_delete cond (group_participants d)) d)
                (count_rows cond (group_participants d)) 0).

Definition update_group_participants (cond : participants_t.row -> bool)
    (set : participants_t.row -> participants_t.row) (d : Database) : Result Outcome :=
  Ok (mkOutcome (set_group_participants (sql_update cond set (group_participants d)) d)
                (count_rows cond (group_participants d)) 0).

(** [x IN (ids)] *)
Definition sql_in (x : Z) (ids : list Z) : bool := existsb (Z.eqb x) ids.

(* ================================================================== *)
(** * history.py: [MessagesQuery] *)
(* ================================================================== *)

Record MessagesQuery : Type := mkMessagesQuery {
  gamespace_id : Z;
  message_sender : option Z;
  message_recipient_class : option string;
  message_recipient : option string;
  message_type : option string;
  message_delivered : option bool;
  offset : Z;
  limit : Z
}.


(** One entry of the [conditions] list together with its [data]. *)
Inductive Condition : Type :=
| gamespace_id_eq (v : Z)
| message_sender_eq (v : Z)
| message_recipient_class_eq (v : string)
| message_recipient_like (pattern : string)
| message_type_eq (v : string)
| message_delivered_eq (v : Z).

Definition holds (c : Condition) (r : messages_t.row) : bool :=
  match c with
  | gamespace_id_eq v => messages_t.gamespace_id r =? v
  | message_sender_eq v => messages_t.message_sender r =? v
  | message_recipient_class_eq v => String.eqb (messages_t.message_recipient_class r) v
  | message_recipient_like pattern => sql_like pattern (messages_t.message_recipient r)
  | message_type_eq v => String.eqb (messages_t.message_type r) v
  | message_delivered_eq v => messages_t.message_delivered r =? v
  end.

(** [MessagesQuery.__values__] *)
Definition MessagesQuery_values (self : MessagesQuery) : list Condition :=
  ([gamespace_id_eq (gamespace_id self)]
   ++ (if truthy_int (message_sender self)
       then match message_sender self with Some v => [message_sender_eq v] | None => [] end
       else [])
   ++ (if truthy_str (message_recipient_class self)
       then match message_recipient_class self with
            | Some v => [message_recipient_class_eq v] | None => [] end
       else [])
   ++ (if truthy_str (message_recipient self)
       then match message_recipient self with
            | Some v => [message_recipient_like v] | None => [] end
       else [])
   ++ (if truthy_str (message_type self)
       then match message_type self with Some v => [message_type_eq v] | None => [] end
       else [])
   ++ (match message_delivered self with
       | Some b => [message_delivered_eq (if b then 1 else 0)]
       | None => []
       end))%list.

(** [" AND ".join(conditions)] *)
Definition where_all (conditions : list Condition) (r : messages_t.row) : bool :=
  forallb (fun c => holds c r) conditions.

(** What [MessagesQuery.query] returns, by its [one] and [count] flags. *)
Inductive QueryResult : Type :=
| QueryOne (item : option MessageAdapter.t)
| QueryItems (items : list MessageAdapter.t)
| QueryItemsCount (items : list MessageAdapter.t) (count_result : Z).

(** The rows of
    [SELECT * FROM `messages` WHERE ... ORDER BY `message_time` DESC],
    before the LIMIT clause. *)
Definition MessagesQuery_matching (self : MessagesQuery) (d : Database) : list messages_t.row :=
  order_by_desc messages_t.message_time
    (filter (where_all (MessagesQuery_values self)) (messages d)).

(** The rows the statement returns once the storage accepts it:
    [LIMIT offset, limit] is added [if self.limit]. *)
Definition MessagesQuery_select (self : MessagesQuery) (d : Database) : list messages_t.row :=
  if negb (limit self =? 0)
  then sql_limit (offset self) (limit self) (MessagesQuery_matching self d)
  else MessagesQuery_matching self d.

(** The statement [query] builds, sent to the storage: with
    [LIMIT %s,%s] and [int(self.offset)], [int(self.limit)] appended to
    the data [if self.limit], without a LIMIT clause otherwise. *)
Definition MessagesQuery_statement (self : MessagesQuery) (count : bool)
    : M (list messages_t.row) :=
  let found d :=
    Z.of_nat (List.length (if count then MessagesQuery_matching self d
                           else MessagesQuery_select self d)) in
  if negb (limit self =? 0)
  then db_select_limit (offset self) (limit self) (MessagesQuery_matching self) found
  else db_select (MessagesQuery_matching self) found.

(** [MessagesQuery.query] *)
Definition MessagesQuery_query (self : MessagesQuery) (one count : bool) : M QueryResult :=
  let wrap msg := MessageQueryError ("Failed to add message: " ++ msg) in
  if one then
    result <- try_except
                (rows <- MessagesQuery_statement self count ;;
                 ret (hd_error rows))
                (on_database_error wrap) ;;
    match result with
    | None => ret (QueryOne None)
    | Some r => ret (QueryOne (Some (MessageAdapter.init r)))
    end
  else
    with_acquire true
      (result <- try_except (MessagesQuery_statement self count)
                            (on_database_error wrap) ;;
       count_result <- (if count then db_get_found_rows else ret 0) ;;
       let items := map MessageAdapter.init result in
       if count then ret (QueryItemsCount items count_result)
       else ret (QueryItems items)).

(* ================================================================== *)
(** * history.py: [MessagesHistoryModel] *)
(* ================================================================== *)

(** A payload as [add_message] sees it: a dictionary or some other JSON
    value, with its [ujson.dumps] text. *)
Inductive Payload : Type :=
| PayloadDict (text : string)
| PayloadOther (text : string).

(** [flags.dump()]: the names joined by commas. *)
Definition flags_dump (flags : list string) : string := String.concat "," flags.

(** [INSERT INTO `messages` (...) VALUES (...)] *)
Definition insert_message (gamespace : Z) (message_uuid recipient_class : string)
    (sender : Z) (recipient_key : string) (time : Z) (message_type payload : string)
    (delivered : Z) (flags : string) (d : Database) : Result Outcome :=
  let id := next_message_id d in
  let r := messages_t.mk gamespace id message_uuid recipient_class sender
                         recipient_key time message_type payload delivered flags in
  Ok (mkOutcome
        (mkDatabase (groups d) (group_participants d) (messages d ++ [r])%list
                    (next_group_id d) (next_participation_id d) (id + 1))
        1 id).

(** [add_message] *)
Definition add_message (gamespace sender : Z) (message_uuid recipient_class
    recipient_key : string) (time : Z) (message_type : string) (payload : Payload)
    (flags : list string) (delivered : bool) : M Z :=
  match payload with
  | PayloadOther _ => raise (MessageError 400 "payload should be a dict")
  | PayloadDict text =>
      try_except
        (db_insert (insert_message gamespace message_uuid recipient_class sender
                      recipient_key time message_type text
                      (if delivered then 1 else 0) (flags_dump flags)))
        (on_database_error (fun msg => MessageError 500 ("Failed to add message: " ++ msg)))
  end.

(** [SELECT * FROM `messages` WHERE `message_id`=%s AND `gamespace_id`=%s] *)
Definition select_message (message_id gamespace : Z) (d : Database) : list messages_t.row :=
  filter (fun r => (messages_t.message_id r =? message_id)
                   && (messages_t.gamespace_id r =? gamespace))%bool
         (messages d).

(** [get_message] *)
Definition get_message (gamespace message_id : Z) : M MessageAdapter.t :=
  message <- try_except (db_get (select_message message_id gamespace))
               (on_database_error (fun msg => MessageError 500 ("Failed to get a message: " ++ msg))) ;;
  match message with
  | None => raise MessageNotFound
  | Some r => ret (MessageAdapter.init r)
  end.

(** [WHERE `message_recipient_class`=%s AND `message_recipient`=%s
      AND `gamespace_id`=%s] *)
Definition for_recipient (recipient_class recipient : string) (gamespace : Z)
    (r : messages_t.row) : bool :=
  (String.eqb (messages_t.message_recipient_class r) recipient_class
   && String.eqb (messages_t.message_recipient r) recipient
   && (messages_t.gamespace_id r =? gamespace))%bool.

(** [SELECT * FROM `messages` WHERE <for_recipient>
     ORDER BY `message_time` DESC], before the LIMIT clause. *)
Definition select_incoming (recipient_class recipient : string) (gamespace : Z)
    (d : Database) : list messages_t.row :=
  order_by_desc messages_t.message_time
    (filter (for_recipient recipient_class recipient gamespace) (messages d)).

(** [list_incoming_messages]; its statement ends in [LIMIT %s] with
    [limit] as passed. *)
Definition list_incoming_messages (gamespace : Z) (recipient_class recipient : string)
    (limit : Z) : M (list MessageAdapter.t) :=
  messages <- try_except
                (db_select_limit 0 limit
                   (select_incoming recipient_class recipient gamespace)
                   (fun d => Z.of_nat (List.length
                      (sql_limit 0 limit
                         (select_incoming recipient_class recipient gamespace d)))))
                (on_database_error
                   (fun msg => MessageError 500 ("Failed to list incoming messages: " ++ msg))) ;;
  ret (map MessageAdapter.init messages).

(** The correlated sub-select of [list_messages_account]:
    [SELECT `groups`.`group_class`, `groups`.`group_key`
     FROM `groups`, `group_participants`
     WHERE `groups`.`group_class`=`messages`.`message_recipient_class`
       AND `groups`.`group_key`=`messages`.`message_recipient`
       AND `groups`.`group_id`=`group_participants`.`group_id`
       AND `group_participants`.`participation_account`=%s] *)
Definition account_groups_of_message (account_id : Z) (d : Database)
    (m : messages_t.row) : list (string * string) :=
  flat_map
    (fun g =>
       flat_map
         (fun p =>
            if (String.eqb (groups_t.group_class g) (messages_t.message_recipient_class m)
                && String.eqb (groups_t.group_key g) (messages_t.message_recipient m)
                && (groups_t.group_id g =? participants_t.group_id p)
                && (participants_t.participation_account p =? account_id))%bool
            then [(groups_t.group_class g, groups_t.group_key g)]
            else [])
         (group_participants d))
    (groups d).

(** [(a, b) IN (sub-select)] *)
Definition pair_in (x : string * string) (rows : list (string * string)) : bool :=
  existsb (fun y => String.eqb (fst x) (fst y) && String.eqb (snd x) (snd y))%bool rows.

(** First SELECT of the union: messages of the gamespace addressed to the
    class and key of a group the account has a participation row in. *)
Definition select_group_messages (gamespace account_id : Z) (d : Database) : list messages_t.row :=
  filter
    (fun m =>
       (messages_t.gamespace_id m =? gamespace)
       && pair_in (messages_t.message_recipient_class m, messages_t.message_recipient m)
                  (account_groups_of_message account_id d m))%bool
    (messages d).

(** Second SELECT: [`gamespace_id`=%s AND `message_recipient_class`=%s
    AND `message_recipient`=%s], with [CLASS_USER] and [str(account_id)]. *)
Definition select_direct_messages (gamespace account_id : Z) (d : Database) : list messages_t.row :=
  filter
    (fun m =>
       (messages_t.gamespace_id m =? gamespace)
       && String.eqb (messages_t.message_recipient_class m) CLASS_USER
       && String.eqb (messages_t.message_recipient m) (str account_id))%bool
    (messages d).

(** Third SELECT: [`gamespace_id`=%s AND `message_sender`=%s]. *)
Definition select_sent_messages (gamespace account_id : Z) (d : Database) : list messages_t.row :=
  filter
    (fun m =>
       (messages_t.gamespace_id m =? gamespace)
       && (messages_t.message_sender m =? account_id))%bool
    (messages d).

(** [... UNION DISTINCT (...) UNION DISTINCT (...) ORDER BY `message_id` DESC],
    before [LIMIT %s, %s]. *)
Definition select_account_union (gamespace account_id : Z) (d : Database) : list messages_t.row :=
  order_by_desc messages_t.message_id
    (nodup messages_t.eq_dec
       (select_group_messages gamespace account_id d
        ++ select_direct_messages gamespace account_id d
        ++ select_sent_messages gamespace account_id d)%list).

(** [list_messages_account].  The optional [db] argument only chooses the
    connection the statement is sent on. *)
Definition list_messages_account (gamespace account_id limit offset : Z)
    : M (list MessageAdapter.t) :=
  if ((limit <? 1) || (limit >? 10000) || (offset <? 0) || (offset >? 10000))%bool
  then raise (MessageError 400 "Bad limit/offset")
  else
    messages <- try_except
                  (db_select_limit offset limit
                     (select_account_union gamespace account_id)
                     (fun d => Z.of_nat (List.length (select_account_union gamespace account_id d))))
                  (on_database_error
                     (fun msg => MessageError 500
                        ("Failed to list incoming messages for account: " ++ msg))) ;;
    ret (map MessageAdapter.init messages).

(** [list_messages_account_with_count] *)
Definition list_messages_account_with_count (gamespace account_id limit offset : Z)
    : M (list MessageAdapter.t * Z) :=
  with_acquire true
    (messages <- list_messages_account gamespace account_id limit offset ;;
     count_result <- try_except db_get_found_rows
                       (on_database_error
                          (fun msg => MessageError 500
                             ("Failed to count found rows for account messages: " ++ msg))) ;;
     ret (messages, count_result)).

(** [SELECT * FROM `messages` WHERE `message_recipient_class`=%s
     AND `message_recipient`=%s AND `gamespace_id`=%s
     AND `message_delivered`=0 FOR UPDATE] *)
Definition select_undelivered (recipient_class recipient : string) (gamespace : Z)
    (d : Database) : list messages_t.row :=
  filter (fun r => for_recipient recipient_class recipient gamespace r
                   && (messages_t.message_delivered r =? 0))%bool
         (messages d).

(** The loop of [read_incoming_messages]: the receiver is asked once per
    message, in order; the result is [(mark_delivered_ids, remove_ids)]. *)
Fixpoint deliver (receiver : MessageAdapter.t -> bool) (batch : list MessageAdapter.t)
    : M (list Z * list Z) :=
  match batch with
  | [] => ret ([], [])
  | m :: rest =>
      recv <- call_receiver receiver m ;;
      ids <- deliver receiver rest ;;
      let '(mark_delivered_ids, remove_ids) := ids in
      if recv then
        if flags_contain REMOVE_DELIVERED (MessageAdapter.flags m)
        then ret (mark_delivered_ids, MessageAdapter.message_id m :: remove_ids)
        else ret (MessageAdapter.message_id m :: mark_delivered_ids, remove_ids)
      else ret (mark_delivered_ids, remove_ids)
  end.

(** Truth value of a list ([if remove_ids:]). *)
Definition truthy_list {A : Type} (l : list A) : bool :=
  match l with
  | [] => false
  | _ :: _ => true
  end.

(** [WHERE `gamespace_id`=%s AND `message_id` IN %s] *)
Definition id_in (gamespace : Z) (ids : list Z) (r : messages_t.row) : bool :=
  ((messages_t.gamespace_id r =? gamespace) && sql_in (messages_t.message_id r) ids)%bool.

(** [read_incoming_messages] *)
Definition read_incoming_messages (gamespace : Z) (recipient_class recipient : string)
    (receiver : MessageAdapter.t -> bool) : M unit :=
  try_except
    (with_acquire false
       (messages <- db_query (select_undelivered recipient_class recipient gamespace) ;;
        ids <- deliver receiver (map MessageAdapter.init messages) ;;
        let '(mark_delivered_ids, remove_ids) := ids in
        when (truthy_list mark_delivered_ids)
             (db_statement (update_messages (id_in gamespace mark_delivered_ids)
                                            messages_t.set_delivered) ;;; ret tt) ;;;
        when (truthy_list remove_ids)
             (db_statement (delete_from_messages (id_in gamespace remove_ids)) ;;; ret tt) ;;;
        db_commit))
    (on_database_error
       (fun msg => MessageError 500 ("Failed to read incoming messages: " ++ msg))).

(** [delete_messages] *)
Definition delete_messages (gamespace : Z) (recipient_class recipient : string) : M unit :=
  try_except
    (db_execute (delete_from_messages (for_recipient recipient_class recipient gamespace)) ;;; ret tt)
    (on_database_error (fun msg => MessageError 500 ("Failed to delete messages: " ++ msg))).

(** [DELETE FROM `messages` WHERE `message_recipient_class` LIKE %s
     AND `message_recipient`=%s AND `gamespace_id`=%s], with the arguments
    [recipient_class, recipient_like, gamespace] in this order. *)
Definition class_like_recipient_eq (recipient_class recipient_like : string)
    (gamespace : Z) (r : messages_t.row) : bool :=
  (sql_like recipient_class (messages_t.message_recipient_class r)
   && String.eqb (messages_t.message_recipient r) recipient_like
   && (messages_t.gamespace_id r =? gamespace))%bool.

(** [delete_messages_like] *)
Definition delete_messages_like (gamespace : Z) (recipient_class recipient_like : string)
    : M unit :=
  try_except
    (db_execute (delete_from_messages
                   (class_like_recipient_eq recipient_class recipient_like gamespace)) ;;; ret tt)
    (on_database_error (fun msg => MessageError 500 ("Failed to delete messages: " ++ msg))).

(** [delete_message] *)
Definition delete_message (gamespace message_id : Z) : M unit :=
  try_except
    (db_execute (delete_from_messages
                   (fun r => (messages_t.message_id r =? message_id)
                             && (messages_t.gamespace_id r =? gamespace))%bool) ;;; ret tt)
    (on_database_error (fun msg => MessageError 500 ("Failed to delete a message: " ++ msg))).

(* ================================================================== *)
(** * group.py: [GroupsModel] *)
(* ================================================================== *)

Definition MESSAGE_PLAYER_JOINED : string := "player_joined".
Definition MESSAGE_PLAYER_LEFT : string := "player_left".

(** Truth value of the optional [notify] dictionary. *)
Definition truthy_dict (o : option PyDict) : bool :=
  match o with
  | Some (_ :: _) => true
  | _ => false
  end.

Definition notify_payload (o : option PyDict) : PyDict :=
  match o with
  | Some d => d
  | None => []
  end.

(** [GroupParticipationAdapter(row)]; a failing [int()] is a [TypeError]. *)
Definition adapt_participation (data : PyDict) : M GroupParticipationAdapter.t :=
  match GroupParticipationAdapter.init data with
  | Some a => ret a
  | None => raise TypeError
  end.

(** [map(Adapter, rows)] for an adaptor that can raise. *)
Fixpoint adapt_all {A B : Type} (adapt : A -> M B) (rows : list A) : M (list B) :=
  match rows with
  | [] => ret []
  | r :: rest =>
      a <- adapt r ;;
      others <- adapt_all adapt rest ;;
      ret (a :: others)
  end.

(** [accounts_deleted] *)
Definition accounts_deleted (gamespace : Z) (accounts : list Z) (gamespace_only : bool)
    : M unit :=
  try_except
    (if gamespace_only then
       (* DELETE FROM `group_participants`
          WHERE `gamespace_id`=%s AND `participation_account` IN %s *)
       db_execute (delete_from_group_participants
                     (fun p => (participants_t.gamespace_id p =? gamespace)
                               && sql_in (participants_t.participation_account p) accounts)%bool)
       ;;; ret tt
     else
       (* DELETE FROM `group_participants` WHERE `participation_account` IN %s *)
       db_execute (delete_from_group_participants
                     (fun p => sql_in (participants_t.participation_account p) accounts))
       ;;; ret tt)
    (on_database_error (fun msg => MessageError 500 ("Failed to delete messages: " ++ msg))).

(** The unique key of [`groups`]: gamespace, class and key. *)
Definition same_group_key (a b : groups_t.row) : bool :=
  ((groups_t.gamespace_id a =? groups_t.gamespace_id b)
   && String.eqb (groups_t.group_class a) (groups_t.group_class b)
   && String.eqb (groups_t.group_key a) (groups_t.group_key b))%bool.

Fixpoint groups_unique (t : list groups_t.row) : bool :=
  match t with
  | [] => true
  | r :: rest => (negb (existsb (same_group_key r) rest) && groups_unique rest)%bool
  end.

(** [INSERT INTO `groups` (...) VALUES (%s, %s, %s, %s, %s)] *)
Definition insert_group (gamespace : Z) (group_class key : string)
    (clustered cluster_size : Z) (d : Database) : Result Outcome :=
  let id := next_group_id d in
  let r := groups_t.mk gamespace id group_class key clustered cluster_size in
  if existsb (same_group_key r) (groups d) then Raise DuplicateError
  else Ok (mkOutcome
             (mkDatabase (groups d ++ [r])%list (group_participants d) (messages d)
                         (id + 1) (next_participation_id d) (next_message_id d))
             1 id).

(** [new_group] *)
Definition new_group (gamespace : Z) (group_class key : string) (clustered : bool)
    (cluster_size : Z) : M Z :=
  try_except
    (db_insert (insert_group gamespace group_class key
                  (if clustered then 1 else 0) cluster_size))
    (fun e =>
       match e with
       | DuplicateError => Some (raise GroupExistsError)
       | _ => on_database_error
                (fun msg => GroupError 500 ("Failed to add a group: " ++ msg)) e
       end).

(** [get_group] *)
Definition get_group (gamespace group_id : Z) : M GroupAdapter.t :=
  message <- try_except
               (* SELECT * FROM `groups` WHERE `group_id`=%s AND `gamespace_id`=%s *)
               (db_get (fun d =>
                          filter (fun g => (groups_t.group_id g =? group_id)
                                           && (groups_t.gamespace_id g =? gamespace))%bool
                                 (groups d)))
               (on_database_error (fun msg => GroupError 500 ("Failed to get a group: " ++ msg))) ;;
  match message with
  | None => raise GroupNotFound
  | Some g => ret (GroupAdapter.init g)
  end.

(** [WHERE `gamespace_id`=%s AND `group_class`=%s AND `group_key`=%s] *)
Definition group_named (gamespace : Z) (group_class key : string) (g : groups_t.row) : bool :=
  ((groups_t.gamespace_id g =? gamespace)
   && String.eqb (groups_t.group_class g) group_class
   && String.eqb (groups_t.group_key g) key)%bool.

(** [find_group] *)
Definition find_group (gamespace : Z) (group_class key : string) : M GroupAdapter.t :=
  group <- try_except
             (db_get (fun d => filter (group_named gamespace group_class key) (groups d)))
             (on_database_error (fun msg => GroupError 500 ("Failed to find a group: " ++ msg))) ;;
  match group with
  | None => raise GroupNotFound
  | Some g => ret (GroupAdapter.init g)
  end.

(** [SELECT * FROM `groups` LEFT JOIN `group_participants`
       ON `groups`.`group_id` = `group_participants`.`group_id`
       AND `groups`.`gamespace_id` = `group_participants`.`gamespace_id`
       AND `group_participants`.`participation_account`=%s
     WHERE `groups`.`gamespace_id`=%s AND `groups`.`group_class`=%s
       AND `groups`.`group_key`=%s] *)
Definition select_group_left_join_participation (account_id gamespace : Z)
    (group_class key : string) (d : Database)
    : list (groups_t.row * option participants_t.row) :=
  flat_map
    (fun g =>
       match filter (fun p => (groups_t.group_id g =? participants_t.group_id p)
                              && (groups_t.gamespace_id g =? participants_t.gamespace_id p)
                              && (participants_t.participation_account p =? account_id))%bool
                    (group_participants d) with
       | [] => [(g, None)]
       | ps => map (fun p => (g, Some p)) ps
       end)
    (filter (group_named gamespace group_class key) (groups d)).

(** [find_group_with_participation] *)
Definition find_group_with_participation (gamespace : Z) (group_class key : string)
    (account_id : Z) : M GroupAndParticipationAdapter.t :=
  group <- try_except
             (db_get (select_group_left_join_participation account_id gamespace group_class key))
             (on_database_error (fun msg => GroupError 500 ("Failed to find a group: " ++ msg))) ;;
  match group with
  | None => raise GroupNotFound
  | Some (g, None) => raise GroupParticipantNotFound
  | Some (g, Some p) =>
      if participants_t.participation_id p =? 0 then raise GroupParticipantNotFound
      else match GroupAndParticipationAdapter.init g p with
           | Some a => ret a
           | None => raise TypeError
           end
  end.

(** [list_groups] *)
Definition list_groups (gamespace : Z) (group_class : string) : M (list GroupAdapter.t) :=
  groups <- try_except
              (* SELECT * FROM `groups` WHERE `group_class`=%s AND `gamespace_id`=%s *)
              (db_query (fun d =>
                           filter (fun g => String.eqb (groups_t.group_class g) group_class
                                            && (groups_t.gamespace_id g =? gamespace))%bool
                                  (groups d)))
              (on_database_error (fun msg => GroupError 500 ("Failed to list groups: " ++ msg))) ;;
  ret (map GroupAdapter.init groups).

(** [delete_group] *)
Definition delete_group (gamespace_id : Z) (group : GroupAdapter.t) : M unit :=
  let group_id := GroupAdapter.group_id group in
  try_except
    (delete_messages_like gamespace_id (GroupAdapter.group_class group)
                          (GroupAdapter.key group ++ "-%"))
    (fun e =>
       match e with
       | MessageError _ message =>
           Some (raise (GroupError 500 ("Failed to delete group's messages: " ++ message)))
       | _ => None
       end) ;;;
  try_except
    (* DELETE FROM `groups` WHERE `group_id`=%s AND `gamespace_id`=%s *)
    (db_execute (delete_from_groups
                   (fun g => (groups_t.group_id g =? group_id)
                             && (groups_t.gamespace_id g =? gamespace_id))%bool) ;;; ret tt)
    (on_database_error (fun msg => GroupError 500 ("Failed to delete a group: " ++ msg))).

(** [UPDATE `groups` SET `group_class`=%s, `group_key`=%s,
     `group_cluster_size`=%s WHERE `gamespace_id`=%s AND `group_id`=%s];
    the unique key of the table is checked on the result. *)
Definition update_group_row (group_class key : string) (cluster_size gamespace group_id : Z)
    (d : Database) : Result Outcome :=
  let cond g := ((groups_t.gamespace_id g =? gamespace)
                 && (groups_t.group_id g =? group_id))%bool in
  let set g := groups_t.mk (groups_t.gamespace_id g) (groups_t.group_id g)
                           group_class key (groups_t.group_clustered g) cluster_size in
  let t := sql_update cond set (groups d) in
  if ((count_rows cond (groups d) =? 0) || groups_unique t)%bool
  then Ok (mkOutcome (set_groups t d) (count_rows cond (groups d)) 0)
  else Raise DuplicateError.

(** [update_group] *)
Definition update_group (gamespace group_id : Z) (group_class key : string)
    (cluster_size : Z) : M unit :=
  try_except
    (db_execute (update_group_row group_class key cluster_size gamespace group_id) ;;; ret tt)
    (on_database_error (fun msg => GroupError 500 ("Failed to update a group: " ++ msg))).

(** [INSERT INTO `group_participants` (...) VALUES (%s, %s, %s, %s, %s, %s, %s)];
    a group and an account are unique together. *)
Definition insert_participant (gamespace group_id : Z) (group_class group_key : string)
    (account : Z) (role : string) (cluster_id : Z) (d : Database) : Result Outcome :=
  let id := next_participation_id d in
  let r := participants_t.mk gamespace id group_id group_class group_key
                             account role cluster_id in
  if existsb (fun p => (participants_t.group_id p =? group_id)
                       && (participants_t.participation_account p =? account))%bool
             (group_participants d)
  then Raise DuplicateError
  else Ok (mkOutcome
             (mkDatabase (groups d) (group_participants d ++ [r])%list (messages d)
                         (next_group_id d) (id + 1) (next_message_id d))
             1 id).

(** [join_group] *)
Definition join_group (gamespace : Z) (group : GroupAdapter.t) (account : Z)
    (role : string) (notify : option PyDict) (authoritative : bool)
    : M GroupParticipationAdapter.t :=
  let group_id := GroupAdapter.group_id group in
  cluster_id <- (if GroupAdapter.clustered group
                 then cluster_get gamespace account group_id
                                  (GroupAdapter.cluster_size group) true
                 else ret 0) ;;
  participation_id <-
    try_except
      (db_execute (insert_participant gamespace group_id (GroupAdapter.group_class group)
                     (GroupAdapter.key group) account role cluster_id))
      (fun e =>
         match e with
         | DuplicateError => Some (raise UserAlreadyJoined)
         | _ => on_database_error
                  (fun msg => GroupError 500 ("Failed to join a group: " ++ msg)) e
         end) ;;
  participation <-
    adapt_participation
      [ ("participation_id", PyInt participation_id);
        ("group_id", PyInt group_id);
        ("group_class", PyStr (GroupAdapter.group_class group));
        ("group_key", PyStr (GroupAdapter.key group));
        ("cluster_id", PyInt cluster_id);
        ("account", PyInt account);
        ("role", PyStr role) ] ;;
  online_bind_account_to_group account participation ;;;
  when (truthy_dict notify)
       (message_queue_add_message
          (mkNotification gamespace account (GroupAdapter.group_class group)
             (GroupParticipationAdapter.calculate_recipient participation)
             MESSAGE_PLAYER_JOINED (notify_payload notify) authoritative)) ;;;
  ret participation.

(** [get_group_participation] *)
Definition get_group_participation (gamespace participation_id : Z)
    : M GroupParticipationAdapter.t :=
  participant <-
    try_except
      (* SELECT * FROM `group_participants`
         WHERE `participation_id`=%s AND `gamespace_id`=%s *)
      (db_get (fun d =>
                 filter (fun p => (participants_t.participation_id p =? participation_id)
                                  && (participants_t.gamespace_id p =? gamespace))%bool
                        (group_participants d)))
      (on_database_error
         (fun msg => GroupError 500 ("Failed to get group participant: " ++ msg))) ;;
  match participant with
  | None => raise GroupParticipantNotFound
  | Some p => adapt_participation (participants_t.columns p)
  end.

(** [updated_group_participation] *)
Definition updated_group_participation (gamespace participation_id : Z) (role : string)
    : M unit :=
  try_except
    (* UPDATE `group_participants` SET `participation_role`=%s
       WHERE `gamespace_id`=%s AND `participation_id`=%s *)
    (db_execute
       (update_group_participants
          (fun p => (participants_t.gamespace_id p =? gamespace)
                    && (participants_t.participation_id p =? participation_id))%bool
          (fun p => participants_t.mk
                      (participants_t.gamespace_id p) (participants_t.participation_id p)
                      (participants_t.group_id p) (participants_t.group_class p)
                      (participants_t.group_key p) (participants_t.participation_account p)
                      role (participants_t.cluster_id p))) ;;; ret tt)
    (on_database_error
       (fun msg => GroupError 500 ("Failed to update a group participation: " ++ msg))).

(** [SELECT * FROM `group_participants`
     WHERE `group_id`=%s AND `participation_account`=%s AND `gamespace_id`=%s] *)
Definition select_participant (group_id account gamespace : Z) (d : Database)
    : list participants_t.row :=
  filter (fun p => (participants_t.group_id p =? group_id)
                   && (participants_t.participation_account p =? account)
                   && (participants_t.gamespace_id p =? gamespace))%bool
         (group_participants d).

(** [find_group_participant] *)
Definition find_group_participant (gamespace group_id account : Z)
    : M GroupParticipationAdapter.t :=
  participant <-
    try_except
      (db_get (select_participant group_id account gamespace))
      (on_database_error
         (fun msg => GroupError 500 ("Failed to get group participant: " ++ msg))) ;;
  match participant with
  | None => raise GroupParticipantNotFound
  | Some p => adapt_participation (participants_t.columns p)
  end.

(** [leave_group] *)
Definition leave_group (gamespace : Z) (group : GroupAdapter.t) (account : Z)
    (notify : option PyDict) (authoritative : bool) : M unit :=
  participation <- find_group_participant gamespace (GroupAdapter.group_id group) account ;;
  try_except
    (* DELETE FROM `group_participants`
       WHERE `gamespace_id`=%s AND `participation_id`=%s;
       the adaptor holds the identifier as text, compared by value *)
    (db_execute
       (delete_from_group_participants
          (fun p => (participants_t.gamespace_id p =? gamespace)
                    && String.eqb (str (participants_t.participation_id p))
                                  (GroupParticipationAdapter.participation_id participation))%bool)
     ;;; ret tt)
    (on_database_error (fun msg => GroupError 500 ("Failed to leave a group: " ++ msg))) ;;;
  when (negb (GroupParticipationAdapter.cluster_id participation =? 0))
       (try_except
          (cluster_leave gamespace account (GroupAdapter.group_id group))
          (fun e => match e with ClusterError => Some (ret tt) | _ => None end)) ;;;
  when (truthy_dict notify)
       (message_queue_add_message
          (mkNotification gamespace account (GroupAdapter.group_class group)
             (GroupParticipationAdapter.calculate_recipient participation)
             MESSAGE_PLAYER_LEFT (notify_payload notify) authoritative)).

(** [list_group_participants] *)
Definition list_group_participants (gamespace group_id : Z)
    : M (list GroupParticipationAdapter.t) :=
  participants <-
    try_except
      (* SELECT * FROM `group_participants` WHERE `group_id`=%s AND `gamespace_id`=%s *)
      (db_query (fun d =>
                   filter (fun p => (participants_t.group_id p =? group_id)
                                    && (participants_t.gamespace_id p =? gamespace))%bool
                          (group_participants d)))
      (on_database_error
         (fun msg => GroupError 500 ("Failed to list group participants: " ++ msg))) ;;
  adapt_all (fun p => adapt_participation (participants_t.columns p)) participants.

(** [SELECT g.*, p.* FROM `group_participants` AS p
       INNER JOIN `groups` AS g ON p.`group_id`=`g`.`group_id`
     WHERE p.`participation_account`=%s AND p.`gamespace_id`=%s] *)
Definition select_groups_of_account (account_id gamespace : Z) (d : Database)
    : list (groups_t.row * participants_t.row) :=
  flat_map
    (fun p =>
       map (fun g => (g, p))
           (filter (fun g => participants_t.group_id p =? groups_t.group_id g) (groups d)))
    (filter (fun p => (participants_t.participation_account p =? account_id)
                      && (participants_t.gamespace_id p =? gamespace))%bool
            (group_participants d)).

(** [list_groups_account_participates] *)
Definition list_groups_account_participates (gamespace account_id : Z)
    : M (list GroupAndParticipationAdapter.t) :=
  groups <-
    try_except
      (db_query (select_groups_of_account account_id gamespace))
      (on_database_error
         (fun msg => GroupError 500 ("Failed to list group account participate: " ++ msg))) ;;
  adapt_all (fun gp => match GroupAndParticipationAdapter.init (fst gp) (snd gp) with
                       | Some a => ret a
                       | None => raise TypeError
                       end) groups.

(** [list_participants_by_account] *)
Definition list_participants_by_account (gamespace account_id : Z)
    : M (list GroupParticipationAdapter.t) :=
  participants <-
    try_except
      (* SELECT * FROM `group_participants`
         WHERE `participation_account`=%s AND `gamespace_id`=%s *)
      (db_query (fun d =>
                   filter (fun p => (participants_t.participation_account p =? account_id)
                                    && (participants_t.gamespace_id p =? gamespace))%bool
                          (group_participants d)))
      (on_database_error
         (fun msg => GroupError 500 ("Failed to list group account participate: " ++ msg))) ;;
  adapt_all (fun p => adapt_participation (participants_t.columns p)) participants.

End Model.

Arguments mkWorld {ClusterState}.
Arguments db {ClusterState}.
Arguments found_rows {ClusterState}.
Arguments faults {ClusterState}.
Arguments calls {ClusterState}.
Arguments acquired {ClusterState}.
Arguments cluster {ClusterState}.
Arguments outbox {ClusterState}.
Arguments bindings {ClusterState}.
Arguments received {ClusterState}.
Arguments ret {ClusterState A}.
Arguments raise {ClusterState A}.
Arguments bind {ClusterState A B}.
Arguments try_except {ClusterState A}.
Arguments on_database_error {ClusterState A}.
Arguments when {ClusterState}.
Arguments set_db {ClusterState}.
Arguments set_found_rows {ClusterState}.
Arguments storage_call {ClusterState}.
Arguments db_select {ClusterState A}.
Arguments db_query {ClusterState A}.
Arguments db_select_limit {ClusterState A}.
Arguments db_get {ClusterState A}.
Arguments db_get_found_rows {ClusterState}.
Arguments db_statement {ClusterState}.
Arguments db_execute {ClusterState}.
Arguments db_insert {ClusterState}.
Arguments with_acquire {ClusterState A}.
Arguments db_commit {ClusterState}.
Arguments online_bind_account_to_group {ClusterState}.
Arguments message_queue_add_message {ClusterState}.
Arguments call_receiver {ClusterState}.
Arguments cluster_get {ClusterState}.
Arguments cluster_leave {ClusterState}.
Arguments MessagesQuery_statement {ClusterState}.
Arguments MessagesQuery_query {ClusterState}.
Arguments add_message {ClusterState}.
Arguments get_message {ClusterState}.
Arguments list_incoming_messages {ClusterState}.
Arguments list_messages_account {ClusterState}.
Arguments list_messages_account_with_count {ClusterState}.
Arguments deliver {ClusterState}.
Arguments read_incoming_messages {ClusterState}.
Arguments delete_messages {ClusterState}.
Arguments delete_messages_like {ClusterState}.
Arguments delete_message {ClusterState}.
Arguments adapt_participation {ClusterState}.
Arguments adapt_all {ClusterState A B}.
Arguments accounts_deleted {ClusterState}.
Arguments new_group {ClusterState}.
Arguments get_group {ClusterState}.
Arguments find_group {ClusterState}.
Arguments find_group_with_participation {ClusterState}.
Arguments list_groups {ClusterState}.
Arguments delete_group {ClusterState}.
Arguments update_group {ClusterState}.
Arguments join_group {ClusterState}.
Arguments get_group_participation {ClusterState}.
Arguments updated_group_participation {ClusterState}.
Arguments find_group_participant {ClusterState}.
Arguments leave_group {ClusterState}.
Arguments list_group_participants {ClusterState}.
Arguments list_groups_account_participates {ClusterState}.
Arguments list_participants_by_account {ClusterState}.

(* ================================================================== *)
(** * Sample data *)
(* ================================================================== *)

(** A cluster service without state that puts every account in cluster 7. *)
Definition sample_get_cluster (gamespace account group_id cluster_size : Z)
    (auto_create : bool) (c : unit) : option Z * unit := (Some 7, c).

Definition sample_leave_cluster (gamespace account group_id : Z) (c : unit)
    : bool * unit := (true, c).

(** A world around the tables [d] with the storage answering the next
    calls as [schedule] says. *)
Definition sample_world (d : Database) (schedule : list (option string)) : World unit :=
  mkWorld d 0 schedule 0 0 tt [] [] [].

(** A message of gamespace 1 sent by account 9. *)
Definition sample_message (id : Z) (recipient_class recipient : string)
    (delivered : Z) (flags : string) : messages_t.row :=
  messages_t.mk 1 id "uuid" recipient_class 9 recipient (100 + id) "chat" "{}"
                delivered flags.

(** The clustered group "guild" of class "guild_class" in gamespace 1. *)
Definition guild : groups_t.row := groups_t.mk 1 1 "guild_class" "guild" 1 1000.

(** Account 5 in cluster 7 of [guild]. *)
Definition guild_member : participants_t.row :=
  participants_t.mk 1 1 1 "guild_class" "guild" 5 "member" 7.

(** [guild] with messages to two of its clusters, to its bare key and to
    the text of the deletion pattern itself. *)
Definition guild_database : Database :=
  mkDatabase [guild] [guild_member]
    [ sample_message 1 "guild_class" "guild-1" 0 "";
      sample_message 2 "guild_class" "guild-7" 0 "";
      sample_message 3 "guild_class" "guild" 0 "";
      sample_message 4 "guild_class" "guild-%" 0 "" ]
    2 2 5.

(* ================================================================== *)
(** * Statements of the specification that the code is compared with *)
(* ================================================================== *)

(** A message is addressed to a group: to its class, and to its key or to
    the key of one of its clusters. *)
Definition addressed_to_group (g : GroupAdapter.t) (m : messages_t.row) : Prop :=
  messages_t.message_recipient_class m = GroupAdapter.group_class g
  /\ (messages_t.message_recipient m = GroupAdapter.key g
      \/ exists cluster_id,
           cluster_id <> 0
           /\ messages_t.message_recipient m
              = GroupAdapter.key g ++ "-" ++ str cluster_id).



(** The identifiers [read_incoming_messages] collects from a batch: those
    of the messages the receiver confirmed, with the remove-on-delivery
    flag ([remove = true]) or without it ([remove = false]). *)
Definition confirmed_ids (REMOVE_DELIVERED : string) (receiver : MessageAdapter.t -> bool)
    (remove : bool) (batch : list MessageAdapter.t) : list Z :=
  map MessageAdapter.message_id
      (filter (fun m => receiver m
                        && Bool.eqb (flags_contain REMOVE_DELIVERED (MessageAdapter.flags m))
                                    remove)%bool
              batch).

(** The primary key of [`messages`]: no identifier occurs twice. *)
Definition messages_keyed (d : Database) : Prop :=
  NoDup (map messages_t.message_id (messages d)).

(** The storage answers the next statement. *)
Definition storage_answers {ClusterState : Type} (w : World ClusterState) : Prop :=
  match faults w with
  | Some _ :: _ => False
  | _ => True
  end.

(** The account has a participation row in a group with this class and
    key: the row of [`groups`] and the row of [`group_participants`] agree
    on [group_id]. *)
Definition participates_in (d : Database) (account_id : Z)
    (group_class group_key : string) : Prop :=
  exists g p,
    In g (groups d) /\ In p (group_participants d)
    /\ groups_t.group_id g = participants_t.group_id p
    /\ participants_t.participation_account p = account_id
    /\ groups_t.group_class g = group_class
    /\ groups_t.group_key g = group_key.

(** The account's feed as the code selects it: a message of the gamespace
    addressed to the class and bare key of a group the account
    participates in, or to the account as a user, or sent by the account. *)
Definition in_account_feed (CLASS_USER : string) (d : Database)
    (gamespace account_id : Z) (m : messages_t.row) : Prop :=
  In m (messages d)
  /\ messages_t.gamespace_id m = gamespace
  /\ (participates_in d account_id (messages_t.message_recipient_class m)
                      (messages_t.message_recipient m)
      \/ (messages_t.message_recipient_class m = CLASS_USER
          /\ messages_t.message_recipient m = str account_id)
      \/ messages_t.message_sender m = account_id).




(** The mailbox of user 5 in gamespace 1: an undelivered message that asks
    to be removed once delivered, two plain undelivered messages and one
    delivered earlier. *)
Definition mailbox_database : Database :=
  mkDatabase [] []
    [ sample_message 1 "user" "5" 0 "Remove_Delivered";
      sample_message 2 "user" "5" 0 "";
      sample_message 3 "user" "5" 0 "";
      sample_message 4 "user" "5" 1 "" ]
    1 1 5.

(** A receiver that reaches its destination for every message but 3. *)
Definition sample_receiver (m : MessageAdapter.t) : bool :=
  negb (MessageAdapter.message_id m =? 3).

(* ================================================================== *)
(** * Tenant isolation: the operations of both models, run in a gamespace *)
(* ================================================================== *)

(** Every operation of [GroupsModel], [MessagesHistoryModel] and
    [MessagesQuery] that is given a gamespace, with its other arguments.
    [accounts_deleted] is the gamespace-only variant. *)
Inductive Operation : Type :=
| call_accounts_deleted (accounts : list Z)
| call_new_group (group_class key : string) (clustered : bool) (cluster_size : Z)
| call_get_group (group_id : Z)
| call_find_group (group_class key : string)
| call_find_group_with_participation (group_class key : string) (account_id : Z)
| call_list_groups (group_class : string)
| call_delete_group (group : GroupAdapter.t)
| call_update_group (group_id : Z) (group_class key : string) (cluster_size : Z)
| call_join_group (group : GroupAdapter.t) (account : Z) (role : string)
                  (notify : option PyDict) (authoritative : bool)
| call_get_group_participation (participation_id : Z)
| call_updated_group_participation (participation_id : Z) (role : string)
| call_leave_group (group : GroupAdapter.t) (account : Z)
                   (notify : option PyDict) (authoritative : bool)
| call_find_group_participant (group_id account : Z)
| call_list_group_participants (group_id : Z)
| call_list_groups_account_participates (account_id : Z)
| call_list_participants_by_account (account_id : Z)
| call_add_message (sender : Z) (message_uuid recipient_class recipient_key : string)
                   (time : Z) (message_type : string) (payload : Payload)
                   (flags : list string) (delivered : bool)
| call_get_message (message_id : Z)
| call_list_incoming_messages (recipient_class recipient : string) (limit : Z)
| call_list_messages_account_with_count (account_id limit offset : Z)
| call_list_messages_account (account_id limit offset : Z)
| call_read_incoming_messages (recipient_class recipient : string)
                              (receiver : MessageAdapter.t -> bool)
| call_delete_messages (recipient_class recipient : string)
| call_delete_messages_like (recipient_class recipient_like : string)
| call_delete_message (message_id : Z)
| call_query (sender : option Z) (recipient_class recipient message_type : option string)
             (delivered : option bool) (offset limit : Z) (one count : bool).

(** What an operation returns. *)
Inductive Answer : Type :=
| nothing
| generated_id (id : Z)
| a_group (g : GroupAdapter.t)
| some_groups (gs : list GroupAdapter.t)
| a_participation (p : GroupParticipationAdapter.t)
| new_participation (p : GroupParticipationAdapter.t)
| some_participations (ps : list GroupParticipationAdapter.t)
| a_group_and_participation (gp : GroupAndParticipationAdapter.t)
| some_groups_and_participations (gps : list GroupAndParticipationAdapter.t)
| a_message (m : MessageAdapter.t)
| some_messages (ms : list MessageAdapter.t)
| some_messages_counted (ms : list MessageAdapter.t) (count : Z)
| query_result (r : QueryResult).

Definition run {ClusterState : Type}
    (cluster_get_cluster :
       Z -> Z -> Z -> Z -> bool -> ClusterState -> option Z * ClusterState)
    (cluster_leave_cluster : Z -> Z -> Z -> ClusterState -> bool * ClusterState)
    (CLASS_USER REMOVE_DELIVERED : string) (gamespace : Z) (op : Operation)
    : M ClusterState Answer :=
  match op with
  | call_accounts_deleted accounts =>
      bind (accounts_deleted gamespace accounts true) (fun _ => ret nothing)
  | call_new_group group_class key clustered cluster_size =>
      bind (new_group gamespace group_class key clustered cluster_size)
           (fun id => ret (generated_id id))
  | call_get_group group_id =>
      bind (get_group gamespace group_id) (fun g => ret (a_group g))
  | call_find_group group_class key =>
      bind (find_group gamespace group_class key) (fun g => ret (a_group g))
  | call_find_group_with_participation group_class key account_id =>
      bind (find_group_with_participation gamespace group_class key account_id)
           (fun gp => ret (a_group_and_participation gp))
  | call_list_groups group_class =>
      bind (list_groups gamespace group_class) (fun gs => ret (some_groups gs))
  | call_delete_group group =>
      bind (delete_group gamespace group) (fun _ => ret nothing)
  | call_update_group group_id group_class key cluster_size =>
      bind (update_group gamespace group_id group_class key cluster_size)
           (fun _ => ret nothing)
  | call_join_group group account role notify authoritative =>
      bind (join_group cluster_get_cluster gamespace group account role notify authoritative)
           (fun p => ret (new_participation p))
  | call_get_group_participation participation_id =>
      bind (get_group_participation gamespace participation_id)
           (fun p => ret (a_participation p))
  | call_updated_group_participation participation_id role =>
      bind (updated_group_participation gamespace participation_id role)
           (fun _ => ret nothing)
  | call_leave_group group account notify authoritative =>
      bind (leave_group cluster_leave_cluster gamespace group account notify authoritative)
           (fun _ => ret nothing)
  | call_find_group_participant group_id account =>
      bind (find_group_participant gamespace group_id account)
           (fun p => ret (a_participation p))
  | call_list_group_participants group_id =>
      bind (list_group_participants gamespace group_id)
           (fun ps => ret (some_participations ps))
  | call_list_groups_account_participates account_id =>
      bind (list_groups_account_participates gamespace account_id)
           (fun gps => ret (some_groups_and_participations gps))
  | call_list_participants_by_account account_id =>
      bind (list_participants_by_account gamespace account_id)
           (fun ps => ret (some_participations ps))
  | call_add_message sender message_uuid recipient_class recipient_key time
                     message_type payload flags delivered =>
      bind (add_message gamespace sender message_uuid recipient_class recipient_key
                        time message_type payload flags delivered)
           (fun id => ret (generated_id id))
  | call_get_message message_id =>
      bind (get_message gamespace message_id) (fun m => ret (a_message m))
  | call_list_incoming_messages recipient_class recipient limit =>
      bind (list_incoming_messages gamespace recipient_class recipient limit)
           (fun ms => ret (some_messages ms))
  | call_list_messages_account_with_count account_id limit offset =>
      bind (list_messages_account_with_count CLASS_USER gamespace account_id limit offset)
           (fun r => ret (some_messages_counted (fst r) (snd r)))
  | call_list_messages_account account_id limit offset =>
      bind (list_messages_account CLASS_USER gamespace account_id limit offset)
           (fun ms => ret (some_messages ms))
  | call_read_incoming_messages recipient_class recipient receiver =>
      bind (read_incoming_messages REMOVE_DELIVERED gamespace recipient_class recipient
                                   receiver)
           (fun _ => ret nothing)
  | call_delete_messages recipient_class recipient =>
      bind (delete_messages gamespace recipient_class recipient) (fun _ => ret nothing)
  | call_delete_messages_like recipient_class recipient_like =>
      bind (delete_messages_like gamespace recipient_class recipient_like)
           (fun _ => ret nothing)
  | call_delete_message message_id =>
      bind (delete_message gamespace message_id) (fun _ => ret nothing)
  | call_query sender recipient_class recipient message_type delivered offset limit
               one count =>
      bind (MessagesQuery_query
              (mkMessagesQuery gamespace sender recipient_class recipient message_type
                               delivered offset limit)
              one count)
           (fun r => ret (query_result r))
  end.

(** The rows of a table that belong to other gamespaces. *)
Definition foreign_rows {A : Type} (gamespace_of : A -> Z) (gamespace : Z)
    (table : list A) : list A :=
  filter (fun r => negb (gamespace_of r =? gamespace)) table.

(** The rows of other gamespaces are the same, and in the same order, in
    the three tables. *)
Definition foreign_unchanged (gamespace : Z) (d d' : Database) : Prop :=
  foreign_rows groups_t.gamespace_id gamespace (groups d')
    = foreign_rows groups_t.gamespace_id gamespace (groups d)
  /\ foreign_rows participants_t.gamespace_id gamespace (group_participants d')
     = foreign_rows participants_t.gamespace_id gamespace (group_participants d)
  /\ foreign_rows messages_t.gamespace_id gamespace (messages d')
     = foreign_rows messages_t.gamespace_id gamespace (messages d).

Definition group_from (gamespace : Z) (d : Database) (g : GroupAdapter.t) : Prop :=
  exists r, In r (groups d) /\ groups_t.gamespace_id r = gamespace
            /\ g = GroupAdapter.init r.

Definition participation_from (gamespace : Z) (d : Database)
    (p : GroupParticipationAdapter.t) : Prop :=
  exists r, In r (group_participants d) /\ participants_t.gamespace_id r = gamespace
            /\ GroupParticipationAdapter.init (participants_t.columns r) = Some p.

Definition message_from (gamespace : Z) (d : Database) (m : MessageAdapter.t) : Prop :=
  exists r, In r (messages d) /\ messages_t.gamespace_id r = gamespace
            /\ m = MessageAdapter.init r.

(** Everything the answer carries was read from a row of the gamespace.
    The participation [join_group] returns is built from its arguments,
    not read. *)
Definition answer_from (gamespace : Z) (d : Database) (a : Answer) : Prop :=
  match a with
  | nothing => True
  | generated_id _ => True
  | new_participation _ => True
  | a_group g => group_from gamespace d g
  | some_groups gs => Forall (group_from gamespace d) gs
  | a_participation p => participation_from gamespace d p
  | some_participations ps => Forall (participation_from gamespace d) ps
  | a_group_and_participation gp =>
      group_from gamespace d (GroupAndParticipationAdapter.group gp)
      /\ participation_from gamespace d (GroupAndParticipationAdapter.participation gp)
  | some_groups_and_participations gps =>
      Forall (fun gp =>
                group_from gamespace d (GroupAndParticipationAdapter.group gp)
                /\ participation_from gamespace d
                     (GroupAndParticipationAdapter.participation gp)) gps
  | a_message m => message_from gamespace d m
  | some_messages ms => Forall (message_from gamespace d) ms
  | some_messages_counted ms _ => Forall (message_from gamespace d) ms
  | query_result (QueryOne None) => True
  | query_result (QueryOne (Some m)) => message_from gamespace d m
  | query_result (QueryItems ms) => Forall (message_from gamespace d) ms
  | query_result (QueryItemsCount ms _) => Forall (message_from gamespace d) ms
  end.

(** Tenant isolation as the specification states it, for one run. *)
Definition tenant_isolated {ClusterState : Type}
    (cluster_get_cluster :
       Z -> Z -> Z -> Z -> bool -> ClusterState -> option Z * ClusterState)
    (cluster_leave_cluster : Z -> Z -> Z -> ClusterState -> bool * ClusterState)
    (CLASS_USER REMOVE_DELIVERED : string) (gamespace : Z) (op : Operation)
    (w : World ClusterState) : Prop :=
  forall r w',
    run cluster_get_cluster cluster_leave_cluster CLASS_USER REMOVE_DELIVERED
        gamespace op w = (r, w') ->
    foreign_unchanged gamespace (db w) (db w')
    /\ forall a, r = Ok a -> answer_from gamespace (db w) a.

(** Every participation row of the gamespace refers to groups of the
    gamespace. *)
Definition participations_within (gamespace : Z) (d : Database) : Prop :=
  forall p g,
    In p (group_participants d) -> In g (groups d) ->
    participants_t.gamespace_id p = gamespace ->
    participants_t.group_id p = groups_t.group_id g ->
    groups_t.gamespace_id g = gamespace.

(** Account 5 holds, in gamespace 1, a participation row that points at a
    group of gamespace 2. *)
Definition crossed_database : Database :=
  mkDatabase
    [ groups_t.mk 2 7 "clan_class" "clan" 0 1000 ]
    [ participants_t.mk 1 1 7 "clan_class" "clan" 5 "member" 0 ]
    [] 8 2 1.

(** A computation leaves the rows of other gamespaces as they are,
    whatever it returns or raises. *)
Definition frames {ClusterState A : Type} (gamespace : Z) (m : M ClusterState A) : Prop :=
  forall w r w', m w = (r, w') -> foreign_unchanged gamespace (db w) (db w').

(** A data-changing statement leaves the rows of other gamespaces as they
    are. *)
Definition statement_frames (gamespace : Z) (stmt : Database -> Result Outcome) : Prop :=
  forall d o, stmt d = Ok o -> foreign_unchanged gamespace d (new_db o).

(** Empty tables whose next group identifier is 7. *)
Definition seed_database : Database := mkDatabase [] [] [] 7 1 1.

(** The storage answers the next [n] statements. *)
Fixpoint answers_next (n : nat) (schedule : list (option string)) : Prop :=
  match n with
  | O => True
  | S n' =>
      match schedule with
      | Some _ :: _ => False
      | None :: rest => answers_next n' rest
      | [] => True
      end
  end.


(* ================================================================== *)
(** * More sample data *)
(* ================================================================== *)

(** A cluster service that refuses every request. *)
Definition refusing_get_cluster (gamespace account group_id cluster_size : Z)
    (auto_create : bool) (c : unit) : option Z * unit := (None, c).

Definition refusing_leave_cluster (gamespace account group_id : Z) (c : unit)
    : bool * unit := (false, c).

(** The unclustered group "lobby" of class "room" in gamespace 1. *)
Definition lobby : groups_t.row := groups_t.mk 1 3 "room" "lobby" 0 50.

(** Account 5 as a guest of [lobby]. *)
Definition lobby_guest : participants_t.row :=
  participants_t.mk 1 4 3 "room" "lobby" 5 "guest" 0.

(** [lobby] with its guest, a message to the lobby and two direct messages
    to user 5, the older one delivered. *)
Definition rooms_database : Database :=
  mkDatabase [lobby] [lobby_guest]
    [ sample_message 1 "room" "lobby" 0 "";
      sample_message 2 "user" "5" 1 "";
      sample_message 3 "user" "5" 0 "" ]
    4 5 4.

Definition rooms_world : World unit := sample_world rooms_database [].

(** The adaptor [GroupParticipationAdapter] builds from a row of
    [`group_participants`]. *)
Definition row_participation (p : participants_t.row) : GroupParticipationAdapter.t :=
  GroupParticipationAdapter.mk
    (str (participants_t.participation_id p))
    (str (participants_t.group_id p))
    (participants_t.group_class p)
    (participants_t.group_key p)
    (participants_t.cluster_id p)
    (PyInt (participants_t.participation_account p))
    (PyStr (participants_t.participation_role p)).

(* ================================================================== *)
(** * Properties *)
(* ================================================================== *)

Section Properties.

Set Default Proof Using "Type".

Context {ClusterState : Type}.
Variable cluster_get_cluster :
  Z -> Z -> Z -> Z -> bool -> ClusterState -> option Z * ClusterState.
Variable cluster_leave_cluster :
  Z -> Z -> Z -> ClusterState -> bool * ClusterState.
Variable CLASS_USER : string.
Variable REMOVE_DELIVERED : string.

Implicit Types (w : World ClusterState) (d : Database).

(** ** Lists *)

Lemma filter_none {A : Type} (f : A -> bool) (l : list A) :
  (forall x, In x l -> f x = false) -> filter f l = [].
Proof.
  induction l as [|a l IH]; intros H; simpl; [reflexivity|].
  rewrite (H a (or_introl eq_refl)). apply IH.
  intros x Hx. apply H. right. exact Hx.
Qed.

Lemma insert_desc_perm {A : Type} (key : A -> Z) (x : A) (l : list A) :
  Permutation (insert_desc key x l) (x :: l).
Proof.
  induction l as [|y l IH]; simpl; [apply Permutation_refl|].
  destruct (key y <? key x); [apply Permutation_refl|].
  apply Permutation_trans with (y :: x :: l).
  - apply perm_skip. exact IH.
  - apply perm_swap.
Qed.

Lemma order_by_desc_perm {A : Type} (key : A -> Z) (l : list A) :
  Permutation (order_by_desc key l) l.
Proof.
  unfold order_by_desc. induction l as [|x l IH]; simpl; [apply perm_nil|].
  apply Permutation_trans with (x :: fold_right (insert_desc key) [] l).
  - apply insert_desc_perm.
  - apply perm_skip. exact IH.
Qed.

Lemma order_by_desc_in {A : Type} (key : A -> Z) (l : list A) (x : A) :
  In x (order_by_desc key l) <-> In x l.
Proof.
  split; apply Permutation_in;
    [apply order_by_desc_perm | apply Permutation_sym, order_by_desc_perm].
Qed.

Lemma insert_desc_sorted {A : Type} (key : A -> Z) (x : A) (l : list A) :
  StronglySorted Z.ge (map key l) ->
  StronglySorted Z.ge (map key (insert_desc key x l)).
Proof.
  induction l as [|y l IH]; simpl; intros H.
  - constructor; constructor.
  - apply StronglySorted_inv in H. destruct H as [Hl Hy].
    destruct (Z.ltb_spec (key y) (key x)) as [Hlt|Hge]; simpl.
    + constructor.
      * constructor; assumption.
      * constructor; [lia|].
        rewrite Forall_forall in *. intros z Hz. specialize (Hy z Hz). lia.
    + constructor; [apply IH; exact Hl|].
      rewrite Forall_forall in *. intros z Hz.
      apply in_map_iff in Hz. destruct Hz as (a & <- & Ha).
      apply (Permutation_in _ (insert_desc_perm key x l)) in Ha.
      destruct Ha as [<-|Ha]; [lia|].
      apply Hy. apply in_map. exact Ha.
Qed.

Lemma order_by_desc_sorted {A : Type} (key : A -> Z) (l : list A) :
  StronglySorted Z.ge (map key (order_by_desc key l)).
Proof.
  unfold order_by_desc. induction l as [|x l IH]; simpl; [constructor|].
  apply insert_desc_sorted. exact IH.
Qed.


Lemma sorted_firstn {A : Type} (R : A -> A -> Prop) (n : nat) (l : list A) :
  StronglySorted R l -> StronglySorted R (firstn n l).
Proof.
  revert l. induction n as [|n IH]; intros l H; simpl; [constructor|].
  destruct l as [|x l]; [constructor|].
  apply StronglySorted_inv in H. destruct H as [Hl Hx].
  constructor; [apply IH; exact Hl|].
  rewrite Forall_forall in *. intros z Hz. apply Hx.
  rewrite <- (firstn_skipn n l). apply in_or_app. left. exact Hz.
Qed.


Lemma keyed_same_id (l : list messages_t.row) a b :
  NoDup (map messages_t.message_id l) ->
  In a l -> In b l -> messages_t.message_id a = messages_t.message_id b -> a = b.
Proof.
  induction l as [|x l IH]; simpl; intros Hnd Ha Hb E; [contradiction|].
  inversion Hnd as [|? ? Hx Hl]; subst.
  destruct Ha as [->|Ha], Hb as [->|Hb].
  - reflexivity.
  - exfalso. apply Hx. rewrite E. apply in_map. exact Hb.
  - exfalso. apply Hx. rewrite <- E. apply in_map. exact Ha.
  - apply IH; assumption.
Qed.


(** ** The storage primitives *)

Ltac unfold_storage :=
  unfold db_get, db_query, db_execute, db_insert, db_select, db_select_limit,
    db_statement,
    db_get_found_rows, db_commit, with_acquire, try_except, on_database_error,
    when, bind, ret, raise, storage_call, set_found_rows, set_db in *.

(** A statement with non-negative LIMIT arguments is a plain read of the
    window. *)
Lemma limit_accepted_true offset count :
  0 <= offset -> 0 <= count -> limit_accepted offset count = true.
Proof.
  intros Ho Hc. unfold limit_accepted.
  apply andb_true_intro. split; apply Z.leb_le; assumption.
Qed.

Lemma db_select_limit_accepted {A : Type} offset count
    (select : Database -> list A) found :
  limit_accepted offset count = true ->
  db_select_limit (ClusterState := ClusterState) offset count select found
  = db_select (fun d => sql_limit offset count (select d)) found.
Proof.
  intros H. unfold db_select_limit, db_select. rewrite H. reflexivity.
Qed.

(** A storage call either faults, leaving everything but the schedule and
    the counter alone, or answers. *)
Lemma storage_call_cases w :
  (exists msg rest,
      faults w = Some msg :: rest /\
      storage_call w =
        (Raise (DatabaseError msg),
         mkWorld (db w) (found_rows w) rest (S (calls w)) (acquired w)
                 (cluster w) (outbox w) (bindings w) (received w)))
  \/ (exists rest,
        (faults w = [] /\ rest = [] \/ faults w = None :: rest) /\
        storage_call w =
          (Ok tt,
           mkWorld (db w) (found_rows w) rest (S (calls w)) (acquired w)
                   (cluster w) (outbox w) (bindings w) (received w))).
Proof.
  unfold storage_call. destruct (faults w) as [|[msg|] rest].
  - right. exists []. split; [left; split; reflexivity | reflexivity].
  - left. exists msg, rest. split; reflexivity.
  - right. exists rest. split; [right; reflexivity | reflexivity].
Qed.

(** ** C9: the recipient key *)

(** C9.  For every participation the recipient key is [group_key] when
    [cluster_id] is 0 and [group_key + "-" + str(cluster_id)] otherwise;
    for the key "guild" it is "guild-7" in cluster 7 and "guild" in
    cluster 0, also when the participation is read from a row. *)
Theorem calculate_recipient_key :
  (forall p : GroupParticipationAdapter.t,
      (GroupParticipationAdapter.cluster_id p = 0 /\
       GroupParticipationAdapter.calculate_recipient p
         = GroupParticipationAdapter.group_key p)
      \/ (GroupParticipationAdapter.cluster_id p <> 0 /\
          GroupParticipationAdapter.calculate_recipient p
            = GroupParticipationAdapter.group_key p ++ "-"
                ++ str (GroupParticipationAdapter.cluster_id p)))
  /\ (forall gamespace id group_id group_class account role,
         option_map GroupParticipationAdapter.calculate_recipient
           (GroupParticipationAdapter.init
              (participants_t.columns
                 (participants_t.mk gamespace id group_id group_class "guild"
                                    account role 7)))
         = Some "guild-7")
  /\ (forall gamespace id group_id group_class account role,
         option_map GroupParticipationAdapter.calculate_recipient
           (GroupParticipationAdapter.init
              (participants_t.columns
                 (participants_t.mk gamespace id group_id group_class "guild"
                                    account role 0)))
         = Some "guild").
Proof.
  split; [|split].
  - intros p. unfold GroupParticipationAdapter.calculate_recipient.
    destruct (Z.eqb_spec (GroupParticipationAdapter.cluster_id p) 0) as [E|E]; simpl.
    + left. split; [exact E | reflexivity].
    + right. split; [exact E | reflexivity].
  - intros. reflexivity.
  - intros. reflexivity.
Qed.

(** ** C7: the pagination bounds of [list_messages_account] *)

Lemma bad_window_test limit offset :
  limit < 1 \/ limit > 10000 \/ offset < 0 \/ offset > 10000 ->
  ((limit <? 1) || (limit >? 10000) || (offset <? 0) || (offset >? 10000))%bool = true.
Proof.
  rewrite !orb_true_iff, !Z.ltb_lt, !Z.gtb_ltb, !Z.ltb_lt. lia.
Qed.

(** C7.  With [limit] outside [1, 10000] or [offset] outside [0, 10000],
    [list_messages_account] raises [MessageError(400, "Bad limit/offset")]
    and hands back the world exactly as it found it: no statement was
    sent to the storage and nothing stored has changed. *)
Theorem list_messages_account_bad_window :
  forall gamespace account_id limit offset w,
    limit < 1 \/ limit > 10000 \/ offset < 0 \/ offset > 10000 ->
    list_messages_account CLASS_USER gamespace account_id limit offset w
      = (Raise (MessageError 400 "Bad limit/offset"), w).
Proof.
  intros gamespace account_id limit offset w H.
  unfold list_messages_account.
  rewrite (bad_window_test limit offset H). reflexivity.
Qed.

(** The counting variant takes a connection from the pool first; the bad
    window is refused all the same before any statement is sent. *)
Lemma list_messages_account_with_count_bad_window :
  forall gamespace account_id limit offset w,
    limit < 1 \/ limit > 10000 \/ offset < 0 \/ offset > 10000 ->
    exists w',
      list_messages_account_with_count CLASS_USER gamespace account_id limit offset w
        = (Raise (MessageError 400 "Bad limit/offset"), w')
      /\ calls w' = calls w /\ db w' = db w /\ acquired w' = S (acquired w).
Proof.
  intros gamespace account_id limit offset w H.
  unfold list_messages_account_with_count, with_acquire, bind, list_messages_account.
  rewrite (bad_window_test limit offset H).
  eexists. split; [reflexivity|]. simpl. auto.
Qed.

(** ** C4: a failing message clean-up keeps the group *)

(** [delete_messages_like] sends one DELETE; it fails exactly when the
    storage faults on it, with a [MessageError] of code 500, and then the
    tables are as before. *)
Lemma delete_messages_like_raises gamespace recipient_class recipient_like w e w1 :
  delete_messages_like gamespace recipient_class recipient_like w = (Raise e, w1) ->
  exists msg,
    e = MessageError 500 ("Failed to delete messages: " ++ msg)
    /\ db w1 = db w /\ cluster w1 = cluster w /\ outbox w1 = outbox w.
Proof.
  unfold delete_messages_like, delete_from_messages. unfold_storage.
  destruct (faults w) as [|[msg|] rest]; simpl; intros H; inversion H; subst.
  exists msg. repeat split; reflexivity.
Qed.

(** C4.  If the message clean-up of [delete_group] fails, [delete_group]
    raises [GroupError] (code 500) without sending the DELETE on
    [`groups`]: the table of groups, hence the row of the group, is as it
    was. *)
Theorem delete_group_cleanup_failure :
  forall gamespace_id group w e w1,
    delete_messages_like gamespace_id (GroupAdapter.group_class group)
                         (GroupAdapter.key group ++ "-%") w = (Raise e, w1) ->
    exists message,
      delete_group gamespace_id group w = (Raise (GroupError 500 message), w1)
      /\ groups (db w1) = groups (db w)
      /\ calls w1 = S (calls w).
Proof.
  intros gamespace_id group w e w1 H.
  destruct (delete_messages_like_raises _ _ _ _ _ _ H) as (msg & He & Hdb & _).
  subst e.
  exists ("Failed to delete group's messages: " ++ "Failed to delete messages: " ++ msg).
  split; [|split].
  - unfold delete_group. unfold bind at 1. unfold try_except at 1.
    rewrite H. reflexivity.
  - rewrite Hdb. reflexivity.
  - revert H.
    unfold delete_messages_like, delete_from_messages. unfold_storage.
    destruct (faults w) as [|[m|] rest]; simpl; intros H; inversion H; subst.
    reflexivity.
Qed.

(** ** C8: leaving a group one has not joined *)

(** C8.  When no participation row links the group and the account,
    [leave_group] raises [GroupParticipantNotFound] ([GroupError] if the
    storage faults on the look-up) and changes nothing: the tables, the
    cluster service, the message queue and the presence registry are as
    before; the single statement sent is the look-up. *)
Theorem leave_group_not_joined :
  forall gamespace group account notify authoritative w,
    (forall p, In p (group_participants (db w)) ->
               ~ (participants_t.group_id p = GroupAdapter.group_id group
                  /\ participants_t.participation_account p = account)) ->
    exists e w',
      leave_group cluster_leave_cluster gamespace group account notify authoritative w
        = (Raise e, w')
      /\ match faults w with
         | Some msg :: _ => e = GroupError 500 ("Failed to get group participant: " ++ msg)
         | _ => e = GroupParticipantNotFound
         end
      /\ db w' = db w
      /\ cluster w' = cluster w
      /\ outbox w' = outbox w
      /\ bindings w' = bindings w
      /\ calls w' = S (calls w).
Proof.
  intros gamespace group account notify authoritative w Hnone.
  assert (Hsel : select_participant (GroupAdapter.group_id group) account gamespace (db w) = []).
  { unfold select_participant. apply filter_none. intros p Hp.
    destruct (Z.eqb_spec (participants_t.group_id p) (GroupAdapter.group_id group)) as [E1|E1];
      [|reflexivity].
    destruct (Z.eqb_spec (participants_t.participation_account p) account) as [E2|E2];
      [|reflexivity].
    exfalso. exact (Hnone p Hp (conj E1 E2)). }
  unfold leave_group, find_group_participant. unfold_storage.
  destruct (faults w) as [|[msg|] rest]; simpl; try rewrite Hsel; simpl;
    eexists; eexists; (split; [reflexivity|]); simpl; repeat split; reflexivity.
Qed.

(** ** C6: the query builder validates no bound *)


(** ** C3: the delivery protocol of [read_incoming_messages] *)

Lemma sql_in_spec x ids : sql_in x ids = true <-> In x ids.
Proof.
  unfold sql_in. rewrite existsb_exists. split.
  - intros (y & Hy & E). apply Z.eqb_eq in E. subst. exact Hy.
  - intros H. exists x. split; [exact H | apply Z.eqb_refl].
Qed.

Lemma sql_update_none {A : Type} (cond : A -> bool) (set : A -> A) (l : list A) :
  (forall x, In x l -> cond x = false) -> sql_update cond set l = l.
Proof.
  unfold sql_update. induction l as [|a l IH]; intros H; simpl; [reflexivity|].
  rewrite (H a (or_introl eq_refl)). f_equal. apply IH.
  intros x Hx. apply H. right. exact Hx.
Qed.

Lemma sql_delete_none {A : Type} (cond : A -> bool) (l : list A) :
  (forall x, In x l -> cond x = false) -> sql_delete cond l = l.
Proof.
  unfold sql_delete. induction l as [|a l IH]; intros H; simpl; [reflexivity|].
  rewrite (H a (or_introl eq_refl)). simpl. f_equal. apply IH.
  intros x Hx. apply H. right. exact Hx.
Qed.

Lemma id_in_nil gamespace r : id_in gamespace [] r = false.
Proof. unfold id_in. simpl. apply andb_false_r. Qed.

Lemma truthy_list_false {A : Type} (l : list A) : truthy_list l = false -> l = [].
Proof. destruct l; [reflexivity | discriminate]. Qed.

(** The loop asks the receiver about every message of the batch, in
    order, and touches nothing else. *)
Lemma deliver_run receiver (batch : list MessageAdapter.t) w :
  deliver REMOVE_DELIVERED receiver batch w
  = (Ok (confirmed_ids REMOVE_DELIVERED receiver false batch,
         confirmed_ids REMOVE_DELIVERED receiver true batch),
     mkWorld (db w) (found_rows w) (faults w) (calls w) (acquired w)
             (cluster w) (outbox w) (bindings w) (received w ++ batch)%list).
Proof.
  revert w. induction batch as [|m rest IH]; intros w.
  - simpl. unfold ret. rewrite app_nil_r. destruct w; reflexivity.
  - simpl. unfold bind, call_receiver. rewrite IH. simpl.
    rewrite <- app_assoc. simpl. unfold confirmed_ids. simpl.
    destruct (receiver m); simpl;
      [destruct (flags_contain REMOVE_DELIVERED (MessageAdapter.flags m)); simpl|];
      reflexivity.
Qed.

(** A run of [read_incoming_messages] that returns has marked and removed
    exactly the confirmed messages, and has handed the batch of
    undelivered messages to the receiver. *)
Lemma read_incoming_messages_returns gamespace recipient_class recipient receiver w w' :
  read_incoming_messages REMOVE_DELIVERED gamespace recipient_class recipient receiver w
    = (Ok tt, w') ->
  let batch := map MessageAdapter.init
                   (select_undelivered recipient_class recipient gamespace (db w)) in
  messages (db w')
    = sql_delete (id_in gamespace (confirmed_ids REMOVE_DELIVERED receiver true batch))
        (sql_update (id_in gamespace (confirmed_ids REMOVE_DELIVERED receiver false batch))
           messages_t.set_delivered (messages (db w)))
  /\ groups (db w') = groups (db w)
  /\ group_participants (db w') = group_participants (db w)
  /\ received w' = (received w ++ batch)%list
  /\ cluster w' = cluster w /\ outbox w' = outbox w /\ bindings w' = bindings w.
Proof.
  intros H batch. revert H.
  assert (Hup : truthy_list (confirmed_ids REMOVE_DELIVERED receiver false batch) = false ->
                sql_update (id_in gamespace (confirmed_ids REMOVE_DELIVERED receiver false batch))
                  messages_t.set_delivered (messages (db w)) = messages (db w)).
  { intros E. rewrite (truthy_list_false _ E). apply sql_update_none.
    intros x _. apply id_in_nil. }
  assert (Hdel : forall l,
             truthy_list (confirmed_ids REMOVE_DELIVERED receiver true batch) = false ->
             sql_delete (id_in gamespace (confirmed_ids REMOVE_DELIVERED receiver true batch)) l
             = l).
  { intros l E. rewrite (truthy_list_false _ E). apply sql_delete_none.
    intros x _. apply id_in_nil. }
  unfold read_incoming_messages, update_messages, delete_from_messages.
  unfold_storage.
  destruct (faults w) as [|[m1|] f1]; simpl; try discriminate;
    rewrite deliver_run; simpl; fold batch;
    destruct (truthy_list (confirmed_ids REMOVE_DELIVERED receiver false batch)) eqn:E1;
    destruct (truthy_list (confirmed_ids REMOVE_DELIVERED receiver true batch)) eqn:E2;
    simpl;
    try (destruct f1 as [|[m2|] f2]; simpl; try discriminate);
    try (destruct f2 as [|[m3|] f3]; simpl; try discriminate);
    try (destruct f3 as [|[m4|] f4]; simpl; try discriminate);
    intros H; inversion H; subst; clear H; simpl;
    rewrite ?Hup by reflexivity; rewrite ?Hdel by reflexivity;
    repeat split; reflexivity.
Qed.

Lemma confirmed_ids_in receiver (remove : bool) (rows : list messages_t.row) (i : Z) :
  In i (confirmed_ids REMOVE_DELIVERED receiver remove (map MessageAdapter.init rows))
  <-> exists r, In r rows /\ messages_t.message_id r = i
                /\ receiver (MessageAdapter.init r) = true
                /\ flags_contain REMOVE_DELIVERED (MessageAdapter.flags (MessageAdapter.init r))
                   = remove.
Proof.
  unfold confirmed_ids. rewrite in_map_iff. split.
  - intros (a & Hid & Ha). apply filter_In in Ha. destruct Ha as [Ha Hc].
    apply in_map_iff in Ha. destruct Ha as (r & <- & Hr).
    apply andb_true_iff in Hc. destruct Hc as [Hrecv Hflag].
    apply Bool.eqb_prop in Hflag.
    exists r. repeat split; assumption.
  - intros (r & Hr & Hid & Hrecv & Hflag).
    exists (MessageAdapter.init r). split; [exact Hid|].
    apply filter_In. split; [apply in_map; exact Hr|].
    rewrite Hrecv, Hflag. simpl. apply Bool.eqb_reflx.
Qed.







(** ** C2: the feed of an account *)

Lemma pair_in_spec (x : string * string) rows : pair_in x rows = true <-> In x rows.
Proof.
  unfold pair_in. rewrite existsb_exists. split.
  - intros (y & Hy & E). apply andb_true_iff in E. destruct E as [E1 E2].
    apply String.eqb_eq in E1. apply String.eqb_eq in E2.
    destruct x, y; simpl in *; subst. exact Hy.
  - intros H. exists x. split; [exact H|].
    rewrite !String.eqb_refl. reflexivity.
Qed.

(** The correlated sub-select finds a pair exactly when the account
    participates in a group with the class and recipient of the message. *)
Lemma account_groups_of_message_spec account_id d m :
  pair_in (messages_t.message_recipient_class m, messages_t.message_recipient m)
          (account_groups_of_message account_id d m) = true
  <-> participates_in d account_id (messages_t.message_recipient_class m)
                      (messages_t.message_recipient m).
Proof.
  rewrite pair_in_spec. unfold account_groups_of_message, participates_in.
  rewrite in_flat_map. split.
  - intros (g & Hg & Hin). apply in_flat_map in Hin. destruct Hin as (p & Hp & Hin).
    destruct (String.eqb_spec (groups_t.group_class g) (messages_t.message_recipient_class m))
      as [E1|E1]; simpl in Hin; [|contradiction].
    destruct (String.eqb_spec (groups_t.group_key g) (messages_t.message_recipient m))
      as [E2|E2]; simpl in Hin; [|contradiction].
    destruct (Z.eqb_spec (groups_t.group_id g) (participants_t.group_id p))
      as [E3|E3]; simpl in Hin; [|contradiction].
    destruct (Z.eqb_spec (participants_t.participation_account p) account_id)
      as [E4|E4]; simpl in Hin; [|contradiction].
    exists g, p. repeat split; assumption.
  - intros (g & p & Hg & Hp & E3 & E4 & E1 & E2).
    exists g. split; [exact Hg|]. apply in_flat_map. exists p. split; [exact Hp|].
    rewrite E1, E2, E3, E4, !String.eqb_refl, !Z.eqb_refl. simpl. left. reflexivity.
Qed.

(** The union of the three SELECTs holds the messages of the code's feed. *)
Lemma select_account_union_in gamespace account_id d m :
  In m (select_account_union CLASS_USER gamespace account_id d)
  <-> in_account_feed CLASS_USER d gamespace account_id m.
Proof.
  unfold select_account_union, in_account_feed.
  rewrite order_by_desc_in, nodup_In, !in_app_iff.
  unfold select_group_messages, select_direct_messages, select_sent_messages.
  rewrite !filter_In, !andb_true_iff, !Z.eqb_eq, !String.eqb_eq,
    account_groups_of_message_spec.
  clear cluster_get_cluster cluster_leave_cluster. tauto.
Qed.



(** ** C10: tenant isolation *)

(** *** Rows of other gamespaces under DELETE, UPDATE and INSERT *)

Lemma foreign_rows_delete {A : Type} (gamespace_of : A -> Z) gamespace cond (t : list A) :
  (forall r, cond r = true -> gamespace_of r = gamespace) ->
  foreign_rows gamespace_of gamespace (sql_delete cond t)
  = foreign_rows gamespace_of gamespace t.
Proof.
  intros Hcond. unfold foreign_rows, sql_delete.
  induction t as [|r t IH]; simpl; [reflexivity|].
  destruct (cond r) eqn:E; simpl.
  - rewrite (Hcond r E), Z.eqb_refl. simpl. exact IH.
  - destruct (negb (gamespace_of r =? gamespace)); [f_equal|]; exact IH.
Qed.

Lemma foreign_rows_update {A : Type} (gamespace_of : A -> Z) gamespace cond set (t : list A) :
  (forall r, cond r = true -> gamespace_of r = gamespace) ->
  (forall r, gamespace_of (set r) = gamespace_of r) ->
  foreign_rows gamespace_of gamespace (sql_update cond set t)
  = foreign_rows gamespace_of gamespace t.
Proof.
  intros Hcond Hset. unfold foreign_rows, sql_update.
  induction t as [|r t IH]; simpl; [reflexivity|].
  destruct (cond r) eqn:E; simpl.
  - rewrite Hset, (Hcond r E), Z.eqb_refl. simpl. exact IH.
  - destruct (negb (gamespace_of r =? gamespace)); [f_equal|]; exact IH.
Qed.

Lemma foreign_rows_insert {A : Type} (gamespace_of : A -> Z) gamespace (r : A) (t : list A) :
  gamespace_of r = gamespace ->
  foreign_rows gamespace_of gamespace (t ++ [r]) = foreign_rows gamespace_of gamespace t.
Proof.
  intros E. unfold foreign_rows. rewrite filter_app. simpl.
  rewrite E, Z.eqb_refl. simpl. apply app_nil_r.
Qed.

Lemma foreign_unchanged_refl gamespace d : foreign_unchanged gamespace d d.
Proof. repeat split. Qed.

Lemma foreign_unchanged_same gamespace d d' :
  d' = d -> foreign_unchanged gamespace d d'.
Proof. intros ->. apply foreign_unchanged_refl. Qed.

Lemma foreign_unchanged_trans gamespace d1 d2 d3 :
  foreign_unchanged gamespace d1 d2 -> foreign_unchanged gamespace d2 d3 ->
  foreign_unchanged gamespace d1 d3.
Proof.
  intros (A1 & B1 & C1) (A2 & B2 & C2).
  repeat split; etransitivity; eassumption.
Qed.

(** *** The frame through the monad *)

Lemma frames_ret {A : Type} gamespace (a : A) : frames (ClusterState := ClusterState) gamespace (ret a).
Proof. intros w r w' H. inversion H. apply foreign_unchanged_refl. Qed.

Lemma frames_raise {A : Type} gamespace e :
  frames (ClusterState := ClusterState) (A := A) gamespace (raise e).
Proof. intros w r w' H. inversion H. apply foreign_unchanged_refl. Qed.

Lemma frames_bind {A B : Type} gamespace (m : M ClusterState A) (k : A -> M ClusterState B) :
  frames gamespace m -> (forall a, frames gamespace (k a)) ->
  frames gamespace (bind m k).
Proof.
  intros Hm Hk w r w' H. unfold bind in H.
  destruct (m w) as [[a|e] w1] eqn:E.
  - eapply foreign_unchanged_trans; [exact (Hm _ _ _ E) | exact (Hk _ _ _ _ H)].
  - inversion H; subst. exact (Hm _ _ _ E).
Qed.

Lemma frames_try_except {A : Type} gamespace (m : M ClusterState A) handler :
  frames gamespace m ->
  (forall e h, handler e = Some h -> frames gamespace h) ->
  frames gamespace (try_except m handler).
Proof.
  intros Hm Hh w r w' H. unfold try_except in H.
  destruct (m w) as [[a|e] w1] eqn:E.
  - inversion H; subst. exact (Hm _ _ _ E).
  - destruct (handler e) as [h|] eqn:Eh.
    + eapply foreign_unchanged_trans; [exact (Hm _ _ _ E) | exact (Hh _ _ Eh _ _ _ H)].
    + inversion H; subst. exact (Hm _ _ _ E).
Qed.

Lemma frames_on_database_error {A : Type} gamespace wrap e (h : M ClusterState A) :
  on_database_error wrap e = Some h -> frames gamespace h.
Proof.
  unfold on_database_error. destruct (database_error e); simpl; intros H; inversion H.
  apply frames_raise.
Qed.

Lemma frames_when gamespace b (m : M ClusterState unit) :
  frames gamespace m -> frames gamespace (when b m).
Proof. intros H. destruct b; simpl; [exact H | apply frames_ret]. Qed.

Lemma frames_with_acquire {A : Type} gamespace auto_commit (body : M ClusterState A) :
  frames gamespace body -> frames gamespace (with_acquire auto_commit body).
Proof.
  intros Hb w r w' H. unfold with_acquire in H.
  match type of H with
  | context [body ?w0] => destruct (body w0) as [[a|e] w1] eqn:E
  end.
  - inversion H; subst. exact (Hb _ _ _ E).
  - inversion H; subst. destruct auto_commit.
    + exact (Hb _ _ _ E).
    + apply foreign_unchanged_refl.
Qed.

Lemma frames_storage_call gamespace : frames (ClusterState := ClusterState) gamespace storage_call.
Proof.
  intros w r w' H. unfold storage_call in H.
  destruct (faults w) as [|[msg|] rest]; inversion H; apply foreign_unchanged_refl.
Qed.

Lemma frames_db_select {A : Type} gamespace (select : Database -> list A) found :
  frames (ClusterState := ClusterState) gamespace (db_select select found).
Proof.
  apply frames_bind; [apply frames_storage_call|].
  intros _ w r w' H. inversion H. apply foreign_unchanged_refl.
Qed.

Lemma frames_db_select_limit {A : Type} gamespace offset count
    (select : Database -> list A) found :
  frames (ClusterState := ClusterState) gamespace
         (db_select_limit offset count select found).
Proof.
  apply frames_bind; [apply frames_storage_call|].
  intros _ w r w' H. destruct (limit_accepted offset count); inversion H;
    apply foreign_unchanged_refl.
Qed.

Lemma frames_db_query {A : Type} gamespace (select : Database -> list A) :
  frames (ClusterState := ClusterState) gamespace (db_query select).
Proof. apply frames_db_select. Qed.

Lemma frames_db_get {A : Type} gamespace (select : Database -> list A) :
  frames (ClusterState := ClusterState) gamespace (db_get select).
Proof.
  apply frames_bind; [apply frames_db_query | intros; apply frames_ret].
Qed.

Lemma frames_db_get_found_rows gamespace :
  frames (ClusterState := ClusterState) gamespace db_get_found_rows.
Proof.
  apply frames_bind; [apply frames_storage_call|].
  intros _ w r w' H. inversion H. apply foreign_unchanged_refl.
Qed.

Lemma frames_db_statement gamespace stmt :
  statement_frames gamespace stmt ->
  frames (ClusterState := ClusterState) gamespace (db_statement stmt).
Proof.
  intros Hs. apply frames_bind; [apply frames_storage_call|].
  intros _ w r w' H. destruct (stmt (db w)) as [o|e] eqn:E; inversion H; subst.
  - simpl. exact (Hs _ _ E).
  - apply foreign_unchanged_refl.
Qed.

Lemma frames_db_execute gamespace stmt :
  statement_frames gamespace stmt ->
  frames (ClusterState := ClusterState) gamespace (db_execute stmt).
Proof.
  intros Hs. apply frames_bind; [apply frames_db_statement; exact Hs|].
  intros; apply frames_ret.
Qed.

Lemma frames_db_insert gamespace stmt :
  statement_frames gamespace stmt ->
  frames (ClusterState := ClusterState) gamespace (db_insert stmt).
Proof.
  intros Hs. apply frames_bind; [apply frames_db_statement; exact Hs|].
  intros; apply frames_ret.
Qed.

Lemma frames_collaborator {A : Type} gamespace (m : M ClusterState A) :
  (forall w, db (snd (m w)) = db w) -> frames gamespace m.
Proof.
  intros Hm w r w' H. apply foreign_unchanged_same.
  rewrite <- (Hm w), H. reflexivity.
Qed.

Lemma frames_call_receiver gamespace receiver m :
  frames (ClusterState := ClusterState) gamespace (call_receiver receiver m).
Proof. apply frames_collaborator. reflexivity. Qed.

Lemma frames_online gamespace account p :
  frames (ClusterState := ClusterState) gamespace (online_bind_account_to_group account p).
Proof. apply frames_collaborator. reflexivity. Qed.

Lemma frames_message_queue gamespace n :
  frames (ClusterState := ClusterState) gamespace (message_queue_add_message n).
Proof. apply frames_collaborator. reflexivity. Qed.

Lemma frames_cluster_get gamespace g a gid size auto_create :
  frames gamespace (cluster_get cluster_get_cluster g a gid size auto_create).
Proof.
  apply frames_collaborator. intros w. unfold cluster_get.
  destruct (cluster_get_cluster g a gid size auto_create (cluster w)) as [[id|] c];
    reflexivity.
Qed.

Lemma frames_cluster_leave gamespace g a gid :
  frames gamespace (cluster_leave cluster_leave_cluster g a gid).
Proof.
  apply frames_collaborator. intros w. unfold cluster_leave.
  destruct (cluster_leave_cluster g a gid (cluster w)) as [[|] c]; reflexivity.
Qed.

Lemma frames_adapt_participation gamespace data :
  frames (ClusterState := ClusterState) gamespace (adapt_participation data).
Proof.
  unfold adapt_participation.
  destruct (GroupParticipationAdapter.init data); [apply frames_ret | apply frames_raise].
Qed.

Lemma frames_adapt_all {A B : Type} gamespace (adapt : A -> M ClusterState B) rows :
  (forall r, frames gamespace (adapt r)) -> frames gamespace (adapt_all adapt rows).
Proof.
  intros Ha. induction rows as [|r rows IH]; simpl; [apply frames_ret|].
  apply frames_bind; [apply Ha|]. intros a.
  apply frames_bind; [exact IH|]. intros; apply frames_ret.
Qed.

Lemma frames_deliver gamespace receiver batch :
  frames (ClusterState := ClusterState) gamespace (deliver REMOVE_DELIVERED receiver batch).
Proof.
  induction batch as [|m rest IH]; simpl; [apply frames_ret|].
  apply frames_bind; [apply frames_call_receiver|]. intros recv.
  apply frames_bind; [exact IH|]. intros [mark remove].
  destruct recv; [destruct (flags_contain _ _)|]; apply frames_ret.
Qed.

(** *** The statements *)

Lemma delete_from_messages_frames gamespace cond :
  (forall r, cond r = true -> messages_t.gamespace_id r = gamespace) ->
  statement_frames gamespace (delete_from_messages cond).
Proof.
  intros Hc d o H. inversion H; subst; simpl.
  repeat split. apply foreign_rows_delete. exact Hc.
Qed.

Lemma update_messages_frames gamespace cond :
  (forall r, cond r = true -> messages_t.gamespace_id r = gamespace) ->
  statement_frames gamespace (update_messages cond messages_t.set_delivered).
Proof.
  intros Hc d o H. inversion H; subst; simpl.
  repeat split. apply foreign_rows_update; [exact Hc | reflexivity].
Qed.

Lemma delete_from_groups_frames gamespace cond :
  (forall r, cond r = true -> groups_t.gamespace_id r = gamespace) ->
  statement_frames gamespace (delete_from_groups cond).
Proof.
  intros Hc d o H. inversion H; subst; simpl.
  repeat split. apply foreign_rows_delete. exact Hc.
Qed.

Lemma delete_from_group_participants_frames gamespace cond :
  (forall r, cond r = true -> participants_t.gamespace_id r = gamespace) ->
  statement_frames gamespace (delete_from_group_participants cond).
Proof.
  intros Hc d o H. inversion H; subst; simpl.
  repeat split. apply foreign_rows_delete. exact Hc.
Qed.

Lemma update_group_participants_frames gamespace cond set :
  (forall r, cond r = true -> participants_t.gamespace_id r = gamespace) ->
  (forall r, participants_t.gamespace_id (set r) = participants_t.gamespace_id r) ->
  statement_frames gamespace (update_group_participants cond set).
Proof.
  intros Hc Hs d o H. inversion H; subst; simpl.
  repeat split. apply foreign_rows_update; assumption.
Qed.

Lemma insert_message_frames gamespace uuid rc sender rk time type payload delivered flags :
  statement_frames gamespace
    (insert_message gamespace uuid rc sender rk time type payload delivered flags).
Proof.
  intros d o H. inversion H; subst; simpl.
  repeat split. apply foreign_rows_insert. reflexivity.
Qed.

Lemma insert_group_frames gamespace group_class key clustered cluster_size :
  statement_frames gamespace (insert_group gamespace group_class key clustered cluster_size).
Proof.
  intros d o H. unfold insert_group in H.
  destruct (existsb _ _); inversion H; subst; simpl.
  repeat split. apply foreign_rows_insert. reflexivity.
Qed.

Lemma insert_participant_frames gamespace group_id group_class key account role cluster_id :
  statement_frames gamespace
    (insert_participant gamespace group_id group_class key account role cluster_id).
Proof.
  intros d o H. unfold insert_participant in H.
  destruct (existsb _ _); inversion H; subst; simpl.
  repeat split. apply foreign_rows_insert. reflexivity.
Qed.

Lemma update_group_row_frames gamespace group_id group_class key cluster_size :
  statement_frames gamespace (update_group_row group_class key cluster_size gamespace group_id).
Proof.
  intros d o H. unfold update_group_row in H.
  destruct (_ || _)%bool; inversion H; subst; simpl.
  repeat split. apply foreign_rows_update; [|reflexivity].
  intros r Hr. apply andb_true_iff in Hr. destruct Hr as [Hr _].
  apply Z.eqb_eq. exact Hr.
Qed.

(** *** Every operation frames the other gamespaces *)

Ltac frame_step :=
  first
    [ apply frames_ret
    | apply frames_raise
    | apply frames_db_execute
    | apply frames_db_insert
    | apply frames_db_statement
    | apply frames_db_get
    | apply frames_db_query
    | apply frames_db_select
    | apply frames_db_select_limit
    | apply frames_db_get_found_rows
    | apply frames_storage_call
    | apply frames_call_receiver
    | apply frames_online
    | apply frames_message_queue
    | apply frames_cluster_get
    | apply frames_cluster_leave
    | apply frames_adapt_participation
    | apply frames_deliver
    | apply frames_when
    | apply frames_with_acquire
    | apply frames_adapt_all; intros
    | apply frames_bind; [|intros]
    | apply frames_try_except; [|intros ? ? ?]
    | eapply frames_on_database_error; eassumption ].

Ltac frame_handler :=
  match goal with
  | H : match ?e with _ => _ end = Some _ |- _ =>
      destruct e; try discriminate H;
      try (inversion H; subst; clear H);
      try (eapply frames_on_database_error; eassumption)
  end.

Ltac gamespace_of_cond :=
  let r := fresh "r" in
  let Hr := fresh "Hr" in
  intros r Hr; unfold id_in, for_recipient, class_like_recipient_eq in Hr;
  repeat (apply andb_true_iff in Hr; destruct Hr as [Hr ?]);
  repeat match goal with
         | H : (_ =? _) = true |- _ => apply Z.eqb_eq in H
         end;
  try assumption; try (apply Z.eqb_eq; assumption).

Lemma accounts_deleted_frames gamespace accounts :
  frames (ClusterState := ClusterState) gamespace (accounts_deleted gamespace accounts true).
Proof.
  unfold accounts_deleted. repeat frame_step.
  apply delete_from_group_participants_frames. gamespace_of_cond.
Qed.

Lemma new_group_frames gamespace group_class key clustered cluster_size :
  frames (ClusterState := ClusterState) gamespace
         (new_group gamespace group_class key clustered cluster_size).
Proof.
  unfold new_group. apply frames_try_except.
  - apply frames_db_insert, insert_group_frames.
  - intros e h H. destruct e; try (eapply frames_on_database_error; eassumption).
    inversion H. apply frames_raise.
Qed.

Lemma get_group_frames gamespace group_id :
  frames (ClusterState := ClusterState) gamespace (get_group gamespace group_id).
Proof. unfold get_group. repeat frame_step. destruct a; repeat frame_step. Qed.

Lemma find_group_frames gamespace group_class key :
  frames (ClusterState := ClusterState) gamespace (find_group gamespace group_class key).
Proof. unfold find_group. repeat frame_step. destruct a; repeat frame_step. Qed.

Lemma find_group_with_participation_frames gamespace group_class key account_id :
  frames (ClusterState := ClusterState) gamespace
         (find_group_with_participation gamespace group_class key account_id).
Proof.
  unfold find_group_with_participation. repeat frame_step.
  destruct a as [[g [p|]]|]; repeat frame_step.
  destruct (participants_t.participation_id p =? 0); repeat frame_step.
  all: destruct (GroupAndParticipationAdapter.init g p); repeat frame_step.
Qed.

Lemma list_groups_frames gamespace group_class :
  frames (ClusterState := ClusterState) gamespace (list_groups gamespace group_class).
Proof. unfold list_groups. repeat frame_step. Qed.

Lemma delete_messages_like_frames gamespace recipient_class recipient_like :
  frames (ClusterState := ClusterState) gamespace
         (delete_messages_like gamespace recipient_class recipient_like).
Proof.
  unfold delete_messages_like. repeat frame_step.
  apply delete_from_messages_frames. gamespace_of_cond.
Qed.

Lemma delete_group_frames gamespace group :
  frames (ClusterState := ClusterState) gamespace (delete_group gamespace group).
Proof.
  unfold delete_group. apply frames_bind.
  - apply frames_try_except; [apply delete_messages_like_frames|].
    intros e h H. destruct e; try discriminate H. inversion H. apply frames_raise.
  - intros _. repeat frame_step.
    apply delete_from_groups_frames. gamespace_of_cond.
Qed.

Lemma update_group_frames gamespace group_id group_class key cluster_size :
  frames (ClusterState := ClusterState) gamespace
         (update_group gamespace group_id group_class key cluster_size).
Proof.
  unfold update_group. repeat frame_step.
  apply update_group_row_frames.
Qed.

Lemma join_group_frames gamespace group account role notify authoritative :
  frames gamespace
         (join_group cluster_get_cluster gamespace group account role notify authoritative).
Proof.
  unfold join_group. apply frames_bind.
  - destruct (GroupAdapter.clustered group); repeat frame_step.
  - intros cluster_id. apply frames_bind.
    + apply frames_try_except.
      * apply frames_db_execute, insert_participant_frames.
      * intros e h H. destruct e; try (eapply frames_on_database_error; eassumption).
        inversion H. apply frames_raise.
    + intros participation_id. repeat frame_step.
Qed.

Lemma get_group_participation_frames gamespace participation_id :
  frames (ClusterState := ClusterState) gamespace
         (get_group_participation gamespace participation_id).
Proof. unfold get_group_participation. repeat frame_step. destruct a; repeat frame_step. Qed.

Lemma updated_group_participation_frames gamespace participation_id role :
  frames (ClusterState := ClusterState) gamespace
         (updated_group_participation gamespace participation_id role).
Proof.
  unfold updated_group_participation. repeat frame_step.
  apply update_group_participants_frames; [gamespace_of_cond | reflexivity].
Qed.

Lemma find_group_participant_frames gamespace group_id account :
  frames (ClusterState := ClusterState) gamespace
         (find_group_participant gamespace group_id account).
Proof. unfold find_group_participant. repeat frame_step. destruct a; repeat frame_step. Qed.

Lemma leave_group_frames gamespace group account notify authoritative :
  frames gamespace
         (leave_group cluster_leave_cluster gamespace group account notify authoritative).
Proof.
  unfold leave_group. apply frames_bind; [apply find_group_participant_frames|].
  intros participation. apply frames_bind.
  - repeat frame_step.
    apply delete_from_group_participants_frames. gamespace_of_cond.
  - intros _. apply frames_bind.
    + apply frames_when. apply frames_try_except; [apply frames_cluster_leave|].
      intros e h H. destruct e; try discriminate H. inversion H. apply frames_ret.
    + intros _. repeat frame_step.
Qed.

Lemma list_group_participants_frames gamespace group_id :
  frames (ClusterState := ClusterState) gamespace
         (list_group_participants gamespace group_id).
Proof. unfold list_group_participants. repeat frame_step. Qed.

Lemma list_groups_account_participates_frames gamespace account_id :
  frames (ClusterState := ClusterState) gamespace
         (list_groups_account_participates gamespace account_id).
Proof.
  unfold list_groups_account_participates. repeat frame_step.
  all: destruct (GroupAndParticipationAdapter.init _ _); repeat frame_step.
Qed.

Lemma list_participants_by_account_frames gamespace account_id :
  frames (ClusterState := ClusterState) gamespace
         (list_participants_by_account gamespace account_id).
Proof. unfold list_participants_by_account. repeat frame_step. Qed.

Lemma add_message_frames gamespace sender uuid rc rk time type payload flags delivered :
  frames (ClusterState := ClusterState) gamespace
         (add_message gamespace sender uuid rc rk time type payload flags delivered).
Proof.
  unfold add_message. destruct payload; repeat frame_step.
  apply insert_message_frames.
Qed.

Lemma get_message_frames gamespace message_id :
  frames (ClusterState := ClusterState) gamespace (get_message gamespace message_id).
Proof. unfold get_message. repeat frame_step. destruct a; repeat frame_step. Qed.

Lemma list_incoming_messages_frames gamespace recipient_class recipient limit :
  frames (ClusterState := ClusterState) gamespace
         (list_incoming_messages gamespace recipient_class recipient limit).
Proof. unfold list_incoming_messages. repeat frame_step. Qed.

Lemma list_messages_account_frames gamespace account_id limit offset :
  frames (ClusterState := ClusterState) gamespace
         (list_messages_account CLASS_USER gamespace account_id limit offset).
Proof.
  unfold list_messages_account. destruct (_ || _)%bool; repeat frame_step.
Qed.

Lemma list_messages_account_with_count_frames gamespace account_id limit offset :
  frames (ClusterState := ClusterState) gamespace
         (list_messages_account_with_count CLASS_USER gamespace account_id limit offset).
Proof.
  unfold list_messages_account_with_count.
  apply frames_with_acquire. apply frames_bind; [apply list_messages_account_frames|].
  intros messages. repeat frame_step.
Qed.

Lemma read_incoming_messages_frames gamespace recipient_class recipient receiver :
  frames (ClusterState := ClusterState) gamespace
         (read_incoming_messages REMOVE_DELIVERED gamespace recipient_class recipient receiver).
Proof.
  unfold read_incoming_messages, db_commit.
  apply frames_try_except; [|intros e h H; eapply frames_on_database_error; eassumption].
  apply frames_with_acquire.
  apply frames_bind; [apply frames_db_query|]. intros messages.
  apply frames_bind; [apply frames_deliver|]. intros [mark remove].
  apply frames_bind.
  - apply frames_when. apply frames_bind; [|intros; apply frames_ret].
    apply frames_db_statement, update_messages_frames. gamespace_of_cond.
  - intros _. apply frames_bind; [|intros; apply frames_storage_call].
    apply frames_when. apply frames_bind; [|intros; apply frames_ret].
    apply frames_db_statement, delete_from_messages_frames. gamespace_of_cond.
Qed.

Lemma delete_messages_frames gamespace recipient_class recipient :
  frames (ClusterState := ClusterState) gamespace
         (delete_messages gamespace recipient_class recipient).
Proof.
  unfold delete_messages. repeat frame_step.
  apply delete_from_messages_frames. gamespace_of_cond.
Qed.

Lemma delete_message_frames gamespace message_id :
  frames (ClusterState := ClusterState) gamespace (delete_message gamespace message_id).
Proof.
  unfold delete_message. repeat frame_step.
  apply delete_from_messages_frames. gamespace_of_cond.
Qed.

Lemma MessagesQuery_statement_frames gamespace (q : MessagesQuery) count :
  frames (ClusterState := ClusterState) gamespace (MessagesQuery_statement q count).
Proof.
  unfold MessagesQuery_statement.
  destruct (negb (limit q =? 0)); repeat frame_step.
Qed.

Lemma MessagesQuery_query_frames gamespace (q : MessagesQuery) one count :
  frames (ClusterState := ClusterState) gamespace (MessagesQuery_query q one count).
Proof.
  unfold MessagesQuery_query. destruct one.
  - apply frames_bind.
    + apply frames_try_except;
        [|intros e h H; eapply frames_on_database_error; eassumption].
      apply frames_bind; [apply MessagesQuery_statement_frames|].
      intros rows. apply frames_ret.
    + intros [r|]; apply frames_ret.
  - apply frames_with_acquire. apply frames_bind.
    + apply frames_try_except;
        [|intros e h H; eapply frames_on_database_error; eassumption].
      apply MessagesQuery_statement_frames.
    + intros result. destruct count; repeat frame_step.
Qed.

(** Every operation run in a gamespace leaves the rows of the other
    gamespaces as they are. *)
Lemma run_frames gamespace op :
  frames gamespace
         (run cluster_get_cluster cluster_leave_cluster CLASS_USER REMOVE_DELIVERED
              gamespace op).
Proof.
  destruct op; simpl; (apply frames_bind; [|intros; apply frames_ret]).
  - apply accounts_deleted_frames.
  - apply new_group_frames.
  - apply get_group_frames.
  - apply find_group_frames.
  - apply find_group_with_participation_frames.
  - apply list_groups_frames.
  - apply delete_group_frames.
  - apply update_group_frames.
  - apply join_group_frames.
  - apply get_group_participation_frames.
  - apply updated_group_participation_frames.
  - apply leave_group_frames.
  - apply find_group_participant_frames.
  - apply list_group_participants_frames.
  - apply list_groups_account_participates_frames.
  - apply list_participants_by_account_frames.
  - apply add_message_frames.
  - apply get_message_frames.
  - apply list_incoming_messages_frames.
  - apply list_messages_account_with_count_frames.
  - apply list_messages_account_frames.
  - apply read_incoming_messages_frames.
  - apply delete_messages_frames.
  - apply delete_messages_like_frames.
  - apply delete_message_frames.
  - apply MessagesQuery_query_frames.
Qed.

(** *** What the reading operations return *)

Lemma bind_ok {A B : Type} (m : M ClusterState A) (k : A -> M ClusterState B) w b w' :
  bind m k w = (Ok b, w') ->
  exists a w1, m w = (Ok a, w1) /\ k a w1 = (Ok b, w').
Proof.
  unfold bind. destruct (m w) as [[a|e] w1]; intros H; [|discriminate H].
  exists a, w1. split; [reflexivity | exact H].
Qed.

Lemma with_acquire_ok {A : Type} auto_commit (body : M ClusterState A) w a w' :
  with_acquire auto_commit body w = (Ok a, w') ->
  exists w0, db w0 = db w /\ body w0 = (Ok a, w').
Proof.
  unfold with_acquire.
  match goal with
  | |- context [body ?w0] => destruct (body w0) as [[x|e] w1] eqn:E; intros H;
                             [|discriminate H]; exists w0
  end.
  inversion H; subst. split; [reflexivity | exact E].
Qed.

Lemma try_db_select_ok {A : Type} (select : Database -> list A) found wrap w rows w' :
  try_except (db_select select found) (on_database_error wrap) w = (Ok rows, w') ->
  rows = select (db w) /\ db w' = db w.
Proof.
  unfold_storage. destruct (faults w) as [|[msg|] rest]; simpl; intros H;
    inversion H; subst; split; reflexivity.
Qed.

Lemma try_db_select_limit_ok {A : Type} offset count (select : Database -> list A)
    found wrap w rows w' :
  try_except (db_select_limit offset count select found) (on_database_error wrap) w
    = (Ok rows, w') ->
  rows = sql_limit offset count (select (db w)) /\ db w' = db w
  /\ limit_accepted offset count = true.
Proof.
  unfold db_select_limit. unfold_storage.
  destruct (limit_accepted offset count);
    destruct (faults w) as [|[msg|] rest]; simpl; intros H;
    inversion H; subst; repeat split; reflexivity.
Qed.

Lemma try_db_query_ok {A : Type} (select : Database -> list A) wrap w rows w' :
  try_except (db_query select) (on_database_error wrap) w = (Ok rows, w') ->
  rows = select (db w) /\ db w' = db w.
Proof. apply try_db_select_ok. Qed.

Lemma try_db_get_ok {A : Type} (select : Database -> list A) wrap w row w' :
  try_except (db_get select) (on_database_error wrap) w = (Ok row, w') ->
  row = hd_error (select (db w)) /\ db w' = db w.
Proof.
  unfold_storage. destruct (faults w) as [|[msg|] rest]; simpl; intros H;
    inversion H; subst; split; reflexivity.
Qed.

Lemma hd_error_in {A : Type} (l : list A) (x : A) : hd_error l = Some x -> In x l.
Proof. destruct l; simpl; intros H; inversion H. left. reflexivity. Qed.

Lemma sql_limit_in {A : Type} offset count (l : list A) (x : A) :
  In x (sql_limit offset count l) -> In x l.
Proof.
  unfold sql_limit. intros H.
  rewrite <- (firstn_skipn (Z.to_nat offset) l). apply in_or_app. right.
  rewrite <- (firstn_skipn (Z.to_nat count) (skipn (Z.to_nat offset) l)).
  apply in_or_app. left. exact H.
Qed.

(** [map(Adapter, rows)] for an adaptor that raises [TypeError] where its
    initialiser fails: every adaptor returned comes from one of the rows. *)
Lemma adapt_all_ok {A B : Type} (init : A -> option B) (rows : list A) w xs w' :
  adapt_all (fun r => match init r with
                      | Some a => ret a
                      | None => raise (ClusterState := ClusterState) TypeError
                      end) rows w = (Ok xs, w') ->
  Forall (fun x => exists r, In r rows /\ init r = Some x) xs.
Proof.
  revert w xs w'. induction rows as [|r rows IH]; simpl; intros w xs w' H.
  - inversion H. constructor.
  - apply bind_ok in H. destruct H as (a & w1 & Ha & H).
    apply bind_ok in H. destruct H as (others & w2 & Ho & H).
    inversion H; subst.
    destruct (init r) as [b|] eqn:E; inversion Ha; subst.
    constructor.
    + exists r. split; [left; reflexivity | exact E].
    + apply IH in Ho. rewrite Forall_forall in *. intros x Hx.
      destruct (Ho x Hx) as (r' & Hr' & Er'). exists r'. split; [right|]; assumption.
Qed.

Lemma get_group_answer gamespace group_id w x w' :
  get_group gamespace group_id w = (Ok x, w') -> group_from gamespace (db w) x.
Proof.
  unfold get_group. intros H. apply bind_ok in H. destruct H as (row & w1 & Hq & Hk).
  apply try_db_get_ok in Hq. destruct Hq as [Hq _].
  destruct row as [r|]; inversion Hk; subst.
  symmetry in Hq. apply hd_error_in, filter_In in Hq. destruct Hq as [Hin Hc].
  apply andb_true_iff in Hc. destruct Hc as [_ Hc]. apply Z.eqb_eq in Hc.
  exists r. auto.
Qed.

Lemma group_named_gamespace gamespace group_class key g :
  group_named gamespace group_class key g = true -> groups_t.gamespace_id g = gamespace.
Proof.
  unfold group_named. rewrite !andb_true_iff. intros [[H _] _]. apply Z.eqb_eq. exact H.
Qed.

Lemma find_group_answer gamespace group_class key w x w' :
  find_group gamespace group_class key w = (Ok x, w') -> group_from gamespace (db w) x.
Proof.
  unfold find_group. intros H. apply bind_ok in H. destruct H as (row & w1 & Hq & Hk).
  apply try_db_get_ok in Hq. destruct Hq as [Hq _].
  destruct row as [r|]; inversion Hk; subst.
  symmetry in Hq. apply hd_error_in, filter_In in Hq. destruct Hq as [Hin Hc].
  exists r. split; [exact Hin|]. split; [|reflexivity].
  eapply group_named_gamespace. exact Hc.
Qed.

Lemma find_group_with_participation_answer gamespace group_class key account_id w x w' :
  find_group_with_participation gamespace group_class key account_id w = (Ok x, w') ->
  group_from gamespace (db w) (GroupAndParticipationAdapter.group x)
  /\ participation_from gamespace (db w) (GroupAndParticipationAdapter.participation x).
Proof.
  unfold find_group_with_participation. intros H.
  apply bind_ok in H. destruct H as (row & w1 & Hq & Hk).
  apply try_db_get_ok in Hq. destruct Hq as [Hq _].
  destruct row as [[g [p|]]|]; try (inversion Hk; fail).
  destruct (participants_t.participation_id p =? 0); [inversion Hk|].
  unfold GroupAndParticipationAdapter.init in Hk.
  destruct (GroupParticipationAdapter.init (participants_t.columns p)) as [a|] eqn:Ea;
    inversion Hk; subst; simpl.
  symmetry in Hq. apply hd_error_in in Hq.
  unfold select_group_left_join_participation in Hq.
  apply in_flat_map in Hq. destruct Hq as (g' & Hg' & Hin).
  apply filter_In in Hg'. destruct Hg' as [Hg' Hnamed].
  assert (Hpair : g' = g /\ In p (filter
            (fun p0 => (groups_t.group_id g' =? participants_t.group_id p0)
                       && (groups_t.gamespace_id g' =? participants_t.gamespace_id p0)
                       && (participants_t.participation_account p0 =? account_id))%bool
            (group_participants (db w)))).
  { destruct (filter _ (group_participants (db w))) as [|p0 ps] eqn:Ef.
    - destruct Hin as [E|[]]. inversion E.
    - apply in_map_iff in Hin. destruct Hin as (p1 & E & Hp1). inversion E; subst.
      split; [reflexivity | exact Hp1]. }
  destruct Hpair as [-> Hp]. apply filter_In in Hp. destruct Hp as [Hp Hc].
  rewrite !andb_true_iff in Hc. destruct Hc as [[_ Hgs] _]. apply Z.eqb_eq in Hgs.
  pose proof (group_named_gamespace _ _ _ _ Hnamed) as Hg.
  split.
  - exists g. auto.
  - exists p. split; [exact Hp|]. split; [congruence | exact Ea].
Qed.

Lemma list_groups_answer gamespace group_class w xs w' :
  list_groups gamespace group_class w = (Ok xs, w') ->
  Forall (group_from gamespace (db w)) xs.
Proof.
  unfold list_groups. intros H. apply bind_ok in H. destruct H as (rows & w1 & Hq & Hk).
  apply try_db_query_ok in Hq. destruct Hq as [Hq _]. inversion Hk; subst.
  apply Forall_forall. intros x Hx. apply in_map_iff in Hx. destruct Hx as (r & <- & Hr).
  apply filter_In in Hr. destruct Hr as [Hin Hc].
  apply andb_true_iff in Hc. destruct Hc as [_ Hc]. apply Z.eqb_eq in Hc.
  exists r. auto.
Qed.

(** A participation read by a single-row look-up whose condition fixes
    the gamespace. *)
Lemma participation_lookup_answer gamespace cond wrap w x w' :
  (forall p, cond p = true -> participants_t.gamespace_id p = gamespace) ->
  bind (try_except (db_get (fun d => filter cond (group_participants d)))
                   (on_database_error wrap))
       (fun participant =>
          match participant with
          | None => raise GroupParticipantNotFound
          | Some p => adapt_participation (participants_t.columns p)
          end) w = (Ok x, w') ->
  participation_from gamespace (db w) x.
Proof.
  intros Hcond H. apply bind_ok in H. destruct H as (row & w1 & Hq & Hk).
  apply try_db_get_ok in Hq. destruct Hq as [Hq _].
  destruct row as [r|]; [|inversion Hk].
  unfold adapt_participation in Hk.
  destruct (GroupParticipationAdapter.init (participants_t.columns r)) as [a|] eqn:Ea;
    inversion Hk; subst.
  symmetry in Hq. apply hd_error_in, filter_In in Hq. destruct Hq as [Hin Hc].
  exists r. split; [exact Hin|]. split; [apply Hcond; exact Hc | exact Ea].
Qed.

(** Participations read by a listing whose condition fixes the
    gamespace. *)
Lemma participation_listing_answer gamespace cond wrap w xs w' :
  (forall p, cond p = true -> participants_t.gamespace_id p = gamespace) ->
  bind (try_except (db_query (fun d => filter cond (group_participants d)))
                   (on_database_error wrap))
       (adapt_all (fun p => adapt_participation (participants_t.columns p))) w
    = (Ok xs, w') ->
  Forall (participation_from gamespace (db w)) xs.
Proof.
  intros Hcond H. apply bind_ok in H. destruct H as (rows & w1 & Hq & Hk).
  apply try_db_query_ok in Hq. destruct Hq as [Hq _]. subst rows.
  apply (adapt_all_ok (fun p => GroupParticipationAdapter.init (participants_t.columns p)))
    in Hk.
  rewrite Forall_forall in *. intros x Hx. destruct (Hk x Hx) as (r & Hr & Er).
  apply filter_In in Hr. destruct Hr as [Hin Hc].
  exists r. split; [exact Hin|]. split; [apply Hcond; exact Hc | exact Er].
Qed.

Ltac last_is_gamespace :=
  let p := fresh "p" in
  let Hp := fresh "Hp" in
  intros p Hp; rewrite !andb_true_iff in Hp;
  repeat match goal with H : _ /\ _ |- _ => destruct H end;
  apply Z.eqb_eq; assumption.

Lemma get_group_participation_answer gamespace participation_id w x w' :
  get_group_participation gamespace participation_id w = (Ok x, w') ->
  participation_from gamespace (db w) x.
Proof. apply participation_lookup_answer. last_is_gamespace. Qed.

Lemma find_group_participant_answer gamespace group_id account w x w' :
  find_group_participant gamespace group_id account w = (Ok x, w') ->
  participation_from gamespace (db w) x.
Proof. apply participation_lookup_answer. last_is_gamespace. Qed.

Lemma list_group_participants_answer gamespace group_id w xs w' :
  list_group_participants gamespace group_id w = (Ok xs, w') ->
  Forall (participation_from gamespace (db w)) xs.
Proof. apply participation_listing_answer. last_is_gamespace. Qed.

Lemma list_participants_by_account_answer gamespace account_id w xs w' :
  list_participants_by_account gamespace account_id w = (Ok xs, w') ->
  Forall (participation_from gamespace (db w)) xs.
Proof. apply participation_listing_answer. last_is_gamespace. Qed.

(** The joined listing: the participation side is of the gamespace; the
    group side is any row of [`groups`] with the participation's
    [group_id]. *)
Lemma list_groups_account_participates_rows gamespace account_id w xs w' :
  list_groups_account_participates gamespace account_id w = (Ok xs, w') ->
  Forall (fun x =>
            exists g p,
              In g (groups (db w)) /\ In p (group_participants (db w))
              /\ participants_t.gamespace_id p = gamespace
              /\ participants_t.group_id p = groups_t.group_id g
              /\ GroupAndParticipationAdapter.init g p = Some x) xs.
Proof.
  unfold list_groups_account_participates. intros H.
  apply bind_ok in H. destruct H as (rows & w1 & Hq & Hk).
  apply try_db_query_ok in Hq. destruct Hq as [Hq _]. subst rows.
  apply (adapt_all_ok (fun gp => GroupAndParticipationAdapter.init (fst gp) (snd gp))) in Hk.
  rewrite Forall_forall in *. intros x Hx. destruct (Hk x Hx) as ([g p] & Hr & Er).
  simpl in Er. unfold select_groups_of_account in Hr.
  apply in_flat_map in Hr. destruct Hr as (p' & Hp' & Hin).
  apply in_map_iff in Hin. destruct Hin as (g' & E & Hg'). inversion E; subst.
  apply filter_In in Hp'. destruct Hp' as [Hp Hc].
  apply andb_true_iff in Hc. destruct Hc as [_ Hc]. apply Z.eqb_eq in Hc.
  apply filter_In in Hg'. destruct Hg' as [Hg Hid]. apply Z.eqb_eq in Hid.
  exists g, p. auto.
Qed.

Lemma list_groups_account_participates_answer gamespace account_id w xs w' :
  participations_within gamespace (db w) ->
  list_groups_account_participates gamespace account_id w = (Ok xs, w') ->
  Forall (fun gp =>
            group_from gamespace (db w) (GroupAndParticipationAdapter.group gp)
            /\ participation_from gamespace (db w)
                 (GroupAndParticipationAdapter.participation gp)) xs.
Proof.
  intros Hwithin H. apply list_groups_account_participates_rows in H.
  rewrite Forall_forall in *. intros x Hx.
  destruct (H x Hx) as (g & p & Hg & Hp & Hgs & Hid & Einit).
  unfold GroupAndParticipationAdapter.init in Einit.
  destruct (GroupParticipationAdapter.init (participants_t.columns p)) as [a|] eqn:Ea;
    [|discriminate Einit].
  injection Einit as <-. simpl.
  split.
  - exists g. split; [exact Hg|]. split; [|reflexivity].
    exact (Hwithin p g Hp Hg Hgs Hid).
  - exists p. auto.
Qed.

Lemma get_message_answer gamespace message_id w x w' :
  get_message gamespace message_id w = (Ok x, w') -> message_from gamespace (db w) x.
Proof.
  unfold get_message. intros H. apply bind_ok in H. destruct H as (row & w1 & Hq & Hk).
  apply try_db_get_ok in Hq. destruct Hq as [Hq _].
  destruct row as [r|]; inversion Hk; subst.
  symmetry in Hq. apply hd_error_in in Hq. unfold select_message in Hq.
  apply filter_In in Hq. destruct Hq as [Hin Hc].
  apply andb_true_iff in Hc. destruct Hc as [_ Hc]. apply Z.eqb_eq in Hc.
  exists r. auto.
Qed.

Lemma list_incoming_messages_answer gamespace recipient_class recipient limit w xs w' :
  list_incoming_messages gamespace recipient_class recipient limit w = (Ok xs, w') ->
  Forall (message_from gamespace (db w)) xs.
Proof.
  unfold list_incoming_messages. intros H.
  apply bind_ok in H. destruct H as (rows & w1 & Hq & Hk).
  apply try_db_select_limit_ok in Hq. destruct Hq as [Hq _]. inversion Hk; subst.
  apply Forall_forall. intros x Hx. apply in_map_iff in Hx. destruct Hx as (r & <- & Hr).
  apply sql_limit_in in Hr.
  unfold select_incoming in Hr. apply order_by_desc_in, filter_In in Hr.
  destruct Hr as [Hin Hc]. unfold for_recipient in Hc.
  apply andb_true_iff in Hc. destruct Hc as [_ Hc]. apply Z.eqb_eq in Hc.
  exists r. auto.
Qed.

Lemma list_messages_account_answer gamespace account_id limit offset w xs w' :
  list_messages_account CLASS_USER gamespace account_id limit offset w = (Ok xs, w') ->
  Forall (message_from gamespace (db w)) xs /\ db w' = db w.
Proof.
  unfold list_messages_account. destruct (_ || _)%bool; intros H; [inversion H|].
  apply bind_ok in H. destruct H as (rows & w1 & Hq & Hk).
  apply try_db_select_limit_ok in Hq. destruct Hq as (Hq & Hdb & _). inversion Hk; subst.
  split; [|exact Hdb].
  apply Forall_forall. intros x Hx. apply in_map_iff in Hx. destruct Hx as (r & <- & Hr).
  apply sql_limit_in, select_account_union_in in Hr.
  destruct Hr as (Hin & Hgs & _). exists r. auto.
Qed.

Lemma list_messages_account_with_count_answer gamespace account_id limit offset w x w' :
  list_messages_account_with_count CLASS_USER gamespace account_id limit offset w
    = (Ok x, w') ->
  Forall (message_from gamespace (db w)) (fst x).
Proof.
  unfold list_messages_account_with_count. intros H.
  apply with_acquire_ok in H. destruct H as (w0 & Hdb & H).
  apply bind_ok in H. destruct H as (ms & w1 & Hl & Hk).
  apply list_messages_account_answer in Hl. destruct Hl as [Hl _].
  apply bind_ok in Hk. destruct Hk as (c & w2 & _ & Hk). inversion Hk; subst.
  simpl. rewrite <- Hdb. exact Hl.
Qed.

Lemma MessagesQuery_select_in (q : MessagesQuery) d r :
  In r (MessagesQuery_select q d) ->
  In r (messages d) /\ messages_t.gamespace_id r = gamespace_id q.
Proof.
  unfold MessagesQuery_select. intros H.
  assert (Hm : In r (MessagesQuery_matching q d)).
  { destruct (negb (limit q =? 0)); [apply sql_limit_in in H|]; exact H. }
  unfold MessagesQuery_matching in Hm.
  apply order_by_desc_in, filter_In in Hm. destruct Hm as [Hin Hc].
  split; [exact Hin|].
  unfold where_all, MessagesQuery_values in Hc. simpl in Hc.
  apply andb_true_iff in Hc. destruct Hc as [Hc _]. apply Z.eqb_eq. exact Hc.
Qed.

(** When the statement of the builder is answered, the rows are those of
    [MessagesQuery_select]. *)
Lemma MessagesQuery_statement_ok (q : MessagesQuery) count wrap w rows w' :
  try_except (MessagesQuery_statement q count) (on_database_error wrap) w
    = (Ok rows, w') ->
  rows = MessagesQuery_select q (db w) /\ db w' = db w.
Proof.
  unfold MessagesQuery_statement, MessagesQuery_select.
  destruct (negb (limit q =? 0)); intros H.
  - apply try_db_select_limit_ok in H. destruct H as (Hr & Hdb & _). auto.
  - apply try_db_select_ok in H. exact H.
Qed.

Lemma MessagesQuery_query_answer (q : MessagesQuery) one count w x w' :
  MessagesQuery_query q one count w = (Ok x, w') ->
  answer_from (gamespace_id q) (db w) (query_result x).
Proof.
  unfold MessagesQuery_query. destruct one.
  - intros H. apply bind_ok in H. destruct H as (row & w1 & Hq & Hk).
    assert (Hrow : row = hd_error (MessagesQuery_select q (db w))).
    { revert Hq. unfold try_except at 1.
      destruct (bind (MessagesQuery_statement q count)
                     (fun rows => ret (hd_error rows)) w) as [[rows0|e0] w2] eqn:Eb.
      - intros Hq. inversion Hq; subst. apply bind_ok in Eb.
        destruct Eb as (rows & w3 & Hs & Hr).
        assert (Hs' : try_except (MessagesQuery_statement q count)
                        (on_database_error (fun msg => MessageQueryError msg)) w
                      = (Ok rows, w3)).
        { unfold try_except. rewrite Hs. reflexivity. }
        apply MessagesQuery_statement_ok in Hs'. destruct Hs' as [-> _].
        inversion Hr. reflexivity.
      - unfold on_database_error. destruct (database_error e0); simpl;
          intros Hq; inversion Hq. }
    destruct row as [r|]; inversion Hk; subst; simpl; [|exact I].
    symmetry in Hrow. apply hd_error_in, MessagesQuery_select_in in Hrow.
    destruct Hrow as [Hin Hgs]. exists r. auto.
  - intros H. apply with_acquire_ok in H. destruct H as (w0 & Hdb & H).
    apply bind_ok in H. destruct H as (rows & w1 & Hq & Hk).
    apply MessagesQuery_statement_ok in Hq. destruct Hq as [Hq _]. subst rows.
    apply bind_ok in Hk. destruct Hk as (c & w2 & _ & Hk).
    assert (Hall : Forall (message_from (gamespace_id q) (db w))
                          (map MessageAdapter.init (MessagesQuery_select q (db w0)))).
    { apply Forall_forall. intros a Ha. apply in_map_iff in Ha.
      destruct Ha as (r & <- & Hr). apply MessagesQuery_select_in in Hr.
      rewrite Hdb in Hr. destruct Hr as [Hin Hgs]. exists r. auto. }
    destruct count; inversion Hk; subst; simpl; exact Hall.
Qed.

(** What every operation returns was read from rows of its gamespace;
    for the joined listing of an account's groups this needs the
    participation rows of the gamespace to refer to groups of the
    gamespace. *)
Lemma run_answers gamespace op w a w' :
  run cluster_get_cluster cluster_leave_cluster CLASS_USER REMOVE_DELIVERED
      gamespace op w = (Ok a, w') ->
  participations_within gamespace (db w)
  \/ (forall account_id, op <> call_list_groups_account_participates account_id) ->
  answer_from gamespace (db w) a.
Proof.
  intros H Hside.
  destruct op; simpl in H; apply bind_ok in H; destruct H as (x & w1 & Hop & Hret);
    inversion Hret; subst; simpl; try exact I.
  - eapply get_group_answer; eassumption.
  - eapply find_group_answer; eassumption.
  - eapply find_group_with_participation_answer; eassumption.
  - eapply list_groups_answer; eassumption.
  - eapply get_group_participation_answer; eassumption.
  - eapply find_group_participant_answer; eassumption.
  - eapply list_group_participants_answer; eassumption.
  - destruct Hside as [Hwithin|Hother].
    + eapply list_groups_account_participates_answer; eassumption.
    + exfalso. exact (Hother account_id eq_refl).
  - eapply list_participants_by_account_answer; eassumption.
  - eapply get_message_answer; eassumption.
  - eapply list_incoming_messages_answer; eassumption.
  - eapply list_messages_account_with_count_answer; eassumption.
  - eapply list_messages_account_answer; eassumption.
  - exact (MessagesQuery_query_answer _ _ _ _ _ _ Hop).
Qed.

(** C10, as the code has it.  Whatever an operation run in gamespace [g]
    returns or raises, the rows of [`groups`], [`group_participants`] and
    [`messages`] of every other gamespace are left as they were; and what
    it returns was read from rows of [g] only -- for
    [list_groups_account_participates], which joins [`groups`] on
    [group_id] alone, provided the participation rows of [g] refer to
    groups of [g]; its participation side is of [g] in any case. *)
Theorem tenant_isolation :
  forall gamespace op w,
    exists r w',
      run cluster_get_cluster cluster_leave_cluster CLASS_USER REMOVE_DELIVERED
          gamespace op w = (r, w')
      /\ foreign_unchanged gamespace (db w) (db w')
      /\ (forall a, r = Ok a ->
          participations_within gamespace (db w)
          \/ (forall account_id, op <> call_list_groups_account_participates account_id) ->
          answer_from gamespace (db w) a)
      /\ (forall account_id gps,
          op = call_list_groups_account_participates account_id ->
          r = Ok (some_groups_and_participations gps) ->
          Forall (fun gp => participation_from gamespace (db w)
                              (GroupAndParticipationAdapter.participation gp)) gps).
Proof.
  intros gamespace op w.
  destruct (run cluster_get_cluster cluster_leave_cluster CLASS_USER REMOVE_DELIVERED
                gamespace op w) as [r w'] eqn:Hrun.
  exists r, w'. split; [reflexivity|]. split; [exact (run_frames gamespace op _ _ _ Hrun)|].
  split.
  - intros a -> Hside. exact (run_answers gamespace op w a w' Hrun Hside).
  - intros account_id gps -> ->. simpl in Hrun.
    apply bind_ok in Hrun. destruct Hrun as (x & w1 & Hop & Hret).
    inversion Hret; subst.
    apply list_groups_account_participates_rows in Hop.
    rewrite Forall_forall in *. intros gp Hgp.
    destruct (Hop gp Hgp) as (g & p & _ & Hp & Hgs & _ & Einit).
    unfold GroupAndParticipationAdapter.init in Einit.
    destruct (GroupParticipationAdapter.init (participants_t.columns p)) as [a|] eqn:Ea;
      [|discriminate Einit].
    injection Einit as <-. simpl.
    exists p. auto.
Qed.

(* ================================================================== *)
(** * Further properties of the two models *)
(* ================================================================== *)

(** ** Groups: creation and look-up *)

Lemma clustered_flag (clustered : bool) :
  negb ((if clustered then 1 else 0) =? 0) = clustered.
Proof. destruct clustered; reflexivity. Qed.

(** No row with the unique key of [r] means no row named like [r]. *)
Lemma group_named_none (r : groups_t.row) (t : list groups_t.row) :
  existsb (same_group_key r) t = false ->
  filter (group_named (groups_t.gamespace_id r) (groups_t.group_class r)
                      (groups_t.group_key r)) t = [].
Proof.
  intros H. apply filter_none. intros x Hx.
  apply not_true_is_false. intros Hn.
  assert (E : existsb (same_group_key r) t = true).
  { apply existsb_exists. exists x. split; [exact Hx|].
    unfold group_named in Hn. unfold same_group_key.
    rewrite !andb_true_iff in *. destruct Hn as [[H1 H2] H3].
    apply Z.eqb_eq in H1. apply String.eqb_eq in H2. apply String.eqb_eq in H3.
    rewrite H1, H2, H3, Z.eqb_refl, !String.eqb_refl. auto. }
  rewrite E in H. discriminate H.
Qed.

(** What a returning [new_group] has done. *)
Lemma new_group_returns gamespace group_class key clustered cluster_size w id w' :
  new_group gamespace group_class key clustered cluster_size w = (Ok id, w') ->
  let r := groups_t.mk gamespace id group_class key
                       (if clustered then 1 else 0) cluster_size in
  id = next_group_id (db w)
  /\ existsb (same_group_key r) (groups (db w)) = false
  /\ groups (db w') = (groups (db w) ++ [r])%list
  /\ group_participants (db w') = group_participants (db w)
  /\ messages (db w') = messages (db w)
  /\ next_group_id (db w') = id + 1.
Proof.
  unfold new_group, insert_group. unfold_storage.
  destruct (faults w) as [|[msg|] rest]; simpl;
    destruct (existsb _ (groups (db w))) eqn:E; simpl;
    intros H; inversion H; subst; simpl; repeat split; exact E.
Qed.

(** A group just created is found under its class and key, with the
    identifier [new_group] returned and the attributes it was given. *)
Theorem new_group_then_find_group :
  forall gamespace group_class key clustered cluster_size w id w',
    new_group gamespace group_class key clustered cluster_size w = (Ok id, w') ->
    storage_answers w' ->
    exists w'',
      find_group gamespace group_class key w'
        = (Ok (GroupAdapter.mk id group_class key clustered cluster_size), w'')
      /\ db w'' = db w'.
Proof.
  intros gamespace group_class key clustered cluster_size w id w' Hnew Hans.
  destruct (new_group_returns _ _ _ _ _ _ _ _ Hnew) as (_ & Hfresh & Hgroups & _).
  apply group_named_none in Hfresh. simpl in Hfresh.
  unfold find_group. unfold_storage. unfold storage_answers in Hans.
  destruct (faults w') as [|[msg|] rest]; [|contradiction|]; simpl;
    rewrite Hgroups, filter_app, Hfresh; simpl;
    unfold group_named; simpl; rewrite Z.eqb_refl, !String.eqb_refl; simpl;
    unfold GroupAdapter.init; simpl; rewrite clustered_flag;
    eexists; split; reflexivity.
Qed.

(** Creating a group whose gamespace, class and key are taken raises
    [GroupExistsError] and leaves the tables as they are. *)
Theorem new_group_duplicate :
  forall gamespace group_class key clustered cluster_size w r,
    In r (groups (db w)) ->
    groups_t.gamespace_id r = gamespace ->
    groups_t.group_class r = group_class ->
    groups_t.group_key r = key ->
    storage_answers w ->
    exists w',
      new_group gamespace group_class key clustered cluster_size w
        = (Raise GroupExistsError, w')
      /\ db w' = db w.
Proof.
  intros gamespace group_class key clustered cluster_size w r Hr Hg Hc Hk Hans.
  assert (E : existsb (same_group_key
                         (groups_t.mk gamespace (next_group_id (db w)) group_class key
                                      (if clustered then 1 else 0) cluster_size))
                      (groups (db w)) = true).
  { apply existsb_exists. exists r. split; [exact Hr|].
    unfold same_group_key. simpl.
    rewrite Hg, Hc, Hk, Z.eqb_refl, !String.eqb_refl. reflexivity. }
  unfold new_group, insert_group. unfold_storage. unfold storage_answers in Hans.
  destruct (faults w) as [|[msg|] rest]; [|contradiction|]; simpl;
    rewrite E; simpl; eexists; split; reflexivity.
Qed.

(** ** Decimal text *)

Lemma to_int_proper (n : Z) :
  Z.to_int n <> Decimal.Pos Decimal.Nil /\ Z.to_int n <> Decimal.Neg Decimal.Nil.
Proof.
  destruct n as [|p|p]; simpl; split; try discriminate;
    intros H; inversion H as [E]; exact (Unsigned.to_uint_nonnil p E).
Qed.

(** [int(str(n)) == n] *)
Lemma py_int_str (n : Z) : py_int (PyStr (str n)) = Some n.
Proof.
  unfold py_int, str. destruct (to_int_proper n) as [H1 H2].
  rewrite (NilZero.isi _ H1 H2). simpl. rewrite DecimalZ.of_to. reflexivity.
Qed.

Lemma str_inj (a b : Z) : str a = str b -> a = b.
Proof.
  intros E. pose proof (py_int_str a) as Ha. rewrite E, py_int_str in Ha.
  inversion Ha. reflexivity.
Qed.

Lemma str_eqb (a b : Z) : String.eqb (str a) (str b) = (a =? b).
Proof.
  destruct (Z.eqb_spec a b) as [->|Hne].
  - apply String.eqb_refl.
  - apply String.eqb_neq. intros E. apply Hne. apply str_inj. exact E.
Qed.

(** ** Participations: joining, finding, leaving *)

(** The adaptor of a row of [`group_participants`]. *)
Lemma participation_of_row (p : participants_t.row) :
  GroupParticipationAdapter.init (participants_t.columns p)
  = Some (GroupParticipationAdapter.mk
            (str (participants_t.participation_id p))
            (str (participants_t.group_id p))
            (participants_t.group_class p)
            (participants_t.group_key p)
            (participants_t.cluster_id p)
            (PyInt (participants_t.participation_account p))
            (PyStr (participants_t.participation_role p))).
Proof. reflexivity. Qed.

(** What a returning [join_group] has done: one row inserted for a pair of
    group and account that had none, the presence binding registered, and
    the notification, if any, queued for the recipient key of the
    participation. *)
Lemma join_group_returns gamespace group account role notify authoritative w p w' :
  join_group cluster_get_cluster gamespace group account role notify authoritative w
    = (Ok p, w') ->
  exists cluster_id,
    (if GroupAdapter.clustered group
     then cluster_get_cluster gamespace account (GroupAdapter.group_id group)
                              (GroupAdapter.cluster_size group) true (cluster w)
          = (Some cluster_id, cluster w')
     else cluster_id = 0 /\ cluster w' = cluster w)
    /\ existsb (fun r => (participants_t.group_id r =? GroupAdapter.group_id group)
                         && (participants_t.participation_account r =? account))%bool
               (group_participants (db w)) = false
    /\ group_participants (db w')
       = (group_participants (db w)
          ++ [participants_t.mk gamespace (next_participation_id (db w))
                (GroupAdapter.group_id group) (GroupAdapter.group_class group)
                (GroupAdapter.key group) account role cluster_id])%list
    /\ groups (db w') = groups (db w)
    /\ messages (db w') = messages (db w)
    /\ p = GroupParticipationAdapter.mk "1" (str (GroupAdapter.group_id group))
             (GroupAdapter.group_class group) (GroupAdapter.key group) cluster_id
             PyNone PyNone
    /\ bindings w' = (bindings w ++ [(account, p)])%list
    /\ outbox w'
       = (outbox w
          ++ (if truthy_dict notify
              then [mkNotification gamespace account (GroupAdapter.group_class group)
                      (GroupParticipationAdapter.calculate_recipient p)
                      MESSAGE_PLAYER_JOINED (notify_payload notify) authoritative]
              else []))%list.
Proof.
  unfold join_group, cluster_get, insert_participant, adapt_participation,
    online_bind_account_to_group, message_queue_add_message.
  unfold_storage.
  destruct (GroupAdapter.clustered group).
  - destruct (cluster_get_cluster gamespace account (GroupAdapter.group_id group)
                (GroupAdapter.cluster_size group) true (cluster w)) as [[c|] cs] eqn:Ec;
      simpl; [|discriminate].
    destruct (faults w) as [|[msg|] rest]; simpl; try discriminate;
      destruct (existsb _ (group_participants (db w))) eqn:Ex; simpl; try discriminate;
      destruct (truthy_dict notify); simpl; intros H; inversion H; subst; simpl;
      exists c; rewrite ?app_nil_r; repeat split; reflexivity.
  - destruct (faults w) as [|[msg|] rest]; simpl; try discriminate;
      destruct (existsb _ (group_participants (db w))) eqn:Ex; simpl; try discriminate;
      destruct (truthy_dict notify); simpl; intros H; inversion H; subst; simpl;
      exists 0; rewrite ?app_nil_r; repeat split; reflexivity.
Qed.

Lemma no_participant_selected group_id account gamespace (t : list participants_t.row) :
  existsb (fun r => (participants_t.group_id r =? group_id)
                    && (participants_t.participation_account r =? account))%bool t = false ->
  filter (fun p => (participants_t.group_id p =? group_id)
                   && (participants_t.participation_account p =? account)
                   && (participants_t.gamespace_id p =? gamespace))%bool t = [].
Proof.
  intros H. apply filter_none. intros x Hx.
  apply not_true_is_false. intros Hc. apply andb_true_iff in Hc. destruct Hc as [Hc _].
  assert (E : existsb (fun r => (participants_t.group_id r =? group_id)
                    && (participants_t.participation_account r =? account))%bool t = true).
  { apply existsb_exists. exists x. split; assumption. }
  rewrite E in H. discriminate H.
Qed.

(** After a successful [join_group] the participation is found for the
    group and the account, and it is the inserted row: the generated
    identifier, the account and the role of the call (which the value
    returned by [join_group] itself does not carry). *)
Theorem join_group_then_find_group_participant :
  forall gamespace group account role notify authoritative w p w',
    join_group cluster_get_cluster gamespace group account role notify authoritative w
      = (Ok p, w') ->
    storage_answers w' ->
    exists w'',
      find_group_participant gamespace (GroupAdapter.group_id group) account w'
        = (Ok (GroupParticipationAdapter.mk
                 (str (next_participation_id (db w)))
                 (str (GroupAdapter.group_id group))
                 (GroupAdapter.group_class group) (GroupAdapter.key group)
                 (GroupParticipationAdapter.cluster_id p)
                 (PyInt account) (PyStr role)), w'')
      /\ db w'' = db w'.
Proof.
  intros gamespace group account role notify authoritative w p w' Hjoin Hans.
  destruct (join_group_returns _ _ _ _ _ _ _ _ _ Hjoin)
    as (c & _ & Hnone & Hrows & _ & _ & Hp & _).
  apply (no_participant_selected _ _ gamespace) in Hnone.
  unfold find_group_participant, select_participant, adapt_participation.
  unfold_storage. unfold storage_answers in Hans.
  destruct (faults w') as [|[msg|] rest]; [|contradiction|]; simpl;
    rewrite Hrows, filter_app, Hnone; simpl; rewrite !Z.eqb_refl; simpl;
    subst p; simpl; eexists; split; reflexivity.
Qed.


(** When the cluster service refuses a clustered group, [join_group]
    raises [ClusterError] without sending anything to the storage. *)
Theorem join_group_cluster_refused :
  forall gamespace group account role notify authoritative w c,
    GroupAdapter.clustered group = true ->
    cluster_get_cluster gamespace account (GroupAdapter.group_id group)
                        (GroupAdapter.cluster_size group) true (cluster w) = (None, c) ->
    exists w',
      join_group cluster_get_cluster gamespace group account role notify authoritative w
        = (Raise ClusterError, w')
      /\ db w' = db w /\ calls w' = calls w
      /\ bindings w' = bindings w /\ outbox w' = outbox w.
Proof.
  intros gamespace group account role notify authoritative w c Hcl Hget.
  unfold join_group, cluster_get. unfold_storage. rewrite Hcl, Hget. simpl.
  eexists. split; [reflexivity|]. repeat split.
Qed.

(** A run of [leave_group] for an account that has joined. *)
Lemma leave_group_run :
  forall gamespace group account notify authoritative w r,
    hd_error (select_participant (GroupAdapter.group_id group) account gamespace (db w))
      = Some r ->
    answers_next 2 (faults w) ->
    exists w',
      leave_group cluster_leave_cluster gamespace group account notify authoritative w
        = (Ok tt, w')
      /\ group_participants (db w')
         = filter (fun p => negb ((participants_t.gamespace_id p =? gamespace)
                                  && (participants_t.participation_id p
                                      =? participants_t.participation_id r)))
                  (group_participants (db w))
      /\ groups (db w') = groups (db w)
      /\ messages (db w') = messages (db w)
      /\ cluster w'
         = (if participants_t.cluster_id r =? 0 then cluster w
            else snd (cluster_leave_cluster gamespace account (GroupAdapter.group_id group)
                                            (cluster w)))
      /\ outbox w'
         = (outbox w
            ++ (if truthy_dict notify
                then [mkNotification gamespace account (GroupAdapter.group_class group)
                        (if participants_t.cluster_id r =? 0
                         then participants_t.group_key r
                         else participants_t.group_key r ++ "-"
                                ++ str (participants_t.cluster_id r))
                        MESSAGE_PLAYER_LEFT (notify_payload notify) authoritative]
                else []))%list.
Proof.
  intros gamespace group account notify authoritative w r Hr Hans.
  assert (Hdel : forall t,
            sql_delete
              (fun p => (participants_t.gamespace_id p =? gamespace)
                        && String.eqb (str (participants_t.participation_id p))
                                      (str (participants_t.participation_id r)))%bool t
            = filter (fun p => negb ((participants_t.gamespace_id p =? gamespace)
                                     && (participants_t.participation_id p
                                         =? participants_t.participation_id r))) t).
  { intros t. unfold sql_delete. apply filter_ext. intros p. rewrite str_eqb. reflexivity. }
  unfold leave_group, find_group_participant, adapt_participation,
    delete_from_group_participants, cluster_leave, message_queue_add_message.
  unfold_storage.
  destruct (faults w) as [|[m1|] [|[m2|] rest]]; simpl in Hans; try contradiction;
    simpl; rewrite Hr; simpl; rewrite Hdel;
    unfold GroupParticipationAdapter.calculate_recipient; simpl;
    destruct (participants_t.cluster_id r =? 0); simpl;
    try (destruct (cluster_leave_cluster gamespace account (GroupAdapter.group_id group)
                     (cluster w)) as [[|] c]; simpl);
    destruct (truthy_dict notify); simpl;
    eexists; (split; [reflexivity|]); simpl; rewrite ?app_nil_r; repeat split.
Qed.

(** Leaving a group the account has joined: the participation found is
    deleted by its identifier, the cluster service is told when the
    participation sat in a cluster -- and its refusal is swallowed --, and
    the notification, if any, goes to the recipient key of the
    participation that was found. *)
Theorem leave_group_joined :
  forall gamespace group account notify authoritative w r,
    hd_error (select_participant (GroupAdapter.group_id group) account gamespace (db w))
      = Some r ->
    answers_next 2 (faults w) ->
    exists w',
      leave_group cluster_leave_cluster gamespace group account notify authoritative w
        = (Ok tt, w')
      /\ group_participants (db w')
         = filter (fun p => negb ((participants_t.gamespace_id p =? gamespace)
                                  && (participants_t.participation_id p
                                      =? participants_t.participation_id r)))
                  (group_participants (db w))
      /\ groups (db w') = groups (db w)
      /\ messages (db w') = messages (db w)
      /\ cluster w'
         = (if participants_t.cluster_id r =? 0 then cluster w
            else snd (cluster_leave_cluster gamespace account (GroupAdapter.group_id group)
                                            (cluster w)))
      /\ outbox w'
         = (outbox w
            ++ (if truthy_dict notify
                then [mkNotification gamespace account (GroupAdapter.group_class group)
                        (if participants_t.cluster_id r =? 0
                         then participants_t.group_key r
                         else participants_t.group_key r ++ "-"
                                ++ str (participants_t.cluster_id r))
                        MESSAGE_PLAYER_LEFT (notify_payload notify) authoritative]
                else []))%list.
Proof. exact leave_group_run. Qed.

(** Joining and then leaving puts [`group_participants`] back as it was,
    provided the identifier generated for the new row was not in use. *)
Theorem join_group_then_leave_group :
  forall gamespace group account role notify authoritative notify' authoritative' w p w1,
    (forall r, In r (group_participants (db w)) ->
               participants_t.participation_id r <> next_participation_id (db w)) ->
    join_group cluster_get_cluster gamespace group account role notify authoritative w
      = (Ok p, w1) ->
    answers_next 2 (faults w1) ->
    exists w2,
      leave_group cluster_leave_cluster gamespace group account notify' authoritative' w1
        = (Ok tt, w2)
      /\ group_participants (db w2) = group_participants (db w).
Proof.
  intros gamespace group account role notify authoritative notify' authoritative'
         w p w1 Hfresh Hjoin Hans.
  destruct (join_group_returns _ _ _ _ _ _ _ _ _ Hjoin)
    as (c & _ & Hnone & Hrows & _).
  apply (no_participant_selected _ _ gamespace) in Hnone.
  set (row := participants_t.mk gamespace (next_participation_id (db w))
                (GroupAdapter.group_id group) (GroupAdapter.group_class group)
                (GroupAdapter.key group) account role c) in *.
  assert (Hhd : hd_error (select_participant (GroupAdapter.group_id group) account
                            gamespace (db w1)) = Some row).
  { unfold select_participant. rewrite Hrows, filter_app, Hnone. simpl.
    rewrite !Z.eqb_refl. reflexivity. }
  destruct (leave_group_run gamespace group account notify' authoritative' w1 row
              Hhd Hans) as (w2 & Hleave & Hrows2 & _).
  exists w2. split; [exact Hleave|].
  rewrite Hrows2, Hrows, filter_app. simpl. rewrite !Z.eqb_refl. simpl.
  rewrite app_nil_r.
  clear - Hfresh. induction (group_participants (db w)) as [|x t IH]; [reflexivity|].
  simpl.
  assert (Hx : (participants_t.participation_id x =? next_participation_id (db w)) = false).
  { apply Z.eqb_neq. apply Hfresh. left. reflexivity. }
  rewrite Hx, andb_false_r. simpl. f_equal. apply IH.
  intros r Hr. apply Hfresh. right. exact Hr.
Qed.

(** ** Messages: adding, reading back, deleting *)

(** A returning [execute] wrapped in the models' error handler has run
    its statement. *)
Lemma try_execute_ok stmt wrap w w' :
  try_except (bind (db_execute stmt) (fun _ => ret tt)) (on_database_error wrap) w
    = (Ok tt, w') ->
  exists o, stmt (db w) = Ok o /\ db w' = new_db o.
Proof.
  unfold_storage.
  destruct (faults w) as [|[msg|] rest]; simpl; try discriminate;
    destruct (stmt (db w)) as [o|e] eqn:E; simpl;
    try (destruct (database_error e); simpl; discriminate);
    intros H; inversion H; subst; exists o; split; reflexivity.
Qed.

(** A message added with a dictionary payload is read back under the
    identifier [add_message] returned, with the sender as text, the
    payload text, the delivered flag as 0 or 1 and the flags split at
    commas; the identifier must not have been in use. *)
Theorem add_message_then_get_message :
  forall gamespace sender message_uuid recipient_class recipient_key time message_type
         text flags delivered w id w',
    (forall m, In m (messages (db w)) -> messages_t.message_id m <> next_message_id (db w)) ->
    add_message gamespace sender message_uuid recipient_class recipient_key time
                message_type (PayloadDict text) flags delivered w = (Ok id, w') ->
    storage_answers w' ->
    exists w'',
      get_message gamespace id w'
        = (Ok (MessageAdapter.mk id message_uuid recipient_class (str sender)
                 recipient_key time message_type text (if delivered then 1 else 0)
                 (split "," (lower (flags_dump flags)))), w'')
      /\ db w'' = db w'.
Proof.
  intros gamespace sender message_uuid recipient_class recipient_key time message_type
         text flags delivered w id w' Hfresh Hadd Hans.
  assert (Hrun : id = next_message_id (db w)
                 /\ messages (db w')
                    = (messages (db w)
                       ++ [messages_t.mk gamespace id message_uuid recipient_class sender
                             recipient_key time message_type text
                             (if delivered then 1 else 0) (flags_dump flags)])%list).
  { revert Hadd. unfold add_message, insert_message. unfold_storage.
    destruct (faults w) as [|[msg|] rest]; simpl; intros H; inversion H; subst;
      split; reflexivity. }
  destruct Hrun as [Hid Hmsgs].
  assert (Hold : filter (fun r => (messages_t.message_id r =? id)
                                  && (messages_t.gamespace_id r =? gamespace))%bool
                        (messages (db w)) = []).
  { apply filter_none. intros m Hm.
    assert (E : (messages_t.message_id m =? id) = false).
    { apply Z.eqb_neq. rewrite Hid. apply Hfresh. exact Hm. }
    rewrite E. reflexivity. }
  unfold get_message, select_message. unfold_storage. unfold storage_answers in Hans.
  destruct (faults w') as [|[msg|] rest]; [|contradiction|]; simpl;
    rewrite Hmsgs, filter_app, Hold; simpl; rewrite !Z.eqb_refl; simpl;
    eexists; split; reflexivity.
Qed.

(** After [delete_message] the message is not found any more, and the
    table holds the other rows, in order. *)
Theorem delete_message_then_get_message :
  forall gamespace message_id w w',
    delete_message gamespace message_id w = (Ok tt, w') ->
    storage_answers w' ->
    messages (db w')
      = filter (fun r => negb ((messages_t.message_id r =? message_id)
                               && (messages_t.gamespace_id r =? gamespace)))
               (messages (db w))
    /\ exists w'',
         get_message gamespace message_id w' = (Raise MessageNotFound, w'')
         /\ db w'' = db w'.
Proof.
  intros gamespace message_id w w' Hdel Hans.
  unfold delete_message in Hdel. apply try_execute_ok in Hdel.
  destruct Hdel as (o & Ho & Hdb). inversion Ho; subst o; clear Ho. simpl in Hdb.
  assert (Hmsgs : messages (db w')
      = filter (fun r => negb ((messages_t.message_id r =? message_id)
                               && (messages_t.gamespace_id r =? gamespace)))
               (messages (db w))).
  { rewrite Hdb. reflexivity. }
  split; [exact Hmsgs|].
  assert (Hnone : select_message message_id gamespace (db w') = []).
  { unfold select_message. rewrite Hmsgs. apply filter_none. intros m Hm.
    apply filter_In in Hm. destruct Hm as [_ Hm].
    apply negb_true_iff in Hm. exact Hm. }
  unfold get_message. unfold_storage. unfold storage_answers in Hans.
  destruct (faults w') as [|[msg|] rest]; [|contradiction|]; simpl;
    rewrite Hnone; simpl; eexists; split; reflexivity.
Qed.

(** After [delete_messages] the recipient's incoming list, asked for
    with a limit the storage accepts (a non-negative one), is empty, and
    the table holds the rows of the other recipients, in order. *)
Theorem delete_messages_then_list_incoming_messages :
  forall gamespace recipient_class recipient limit w w',
    delete_messages gamespace recipient_class recipient w = (Ok tt, w') ->
    storage_answers w' ->
    0 <= limit ->
    messages (db w')
      = filter (fun r => negb (for_recipient recipient_class recipient gamespace r))
               (messages (db w))
    /\ exists w'',
         list_incoming_messages gamespace recipient_class recipient limit w' = (Ok [], w'')
         /\ db w'' = db w'.
Proof.
  intros gamespace recipient_class recipient limit w w' Hdel Hans Hlimit.
  unfold delete_messages in Hdel. apply try_execute_ok in Hdel.
  destruct Hdel as (o & Ho & Hdb). inversion Ho; subst o; clear Ho. simpl in Hdb.
  assert (Hmsgs : messages (db w')
      = filter (fun r => negb (for_recipient recipient_class recipient gamespace r))
               (messages (db w))).
  { rewrite Hdb. reflexivity. }
  split; [exact Hmsgs|].
  assert (Hnone : filter (for_recipient recipient_class recipient gamespace)
                         (messages (db w')) = []).
  { rewrite Hmsgs. apply filter_none. intros m Hm.
    apply filter_In in Hm. destruct Hm as [_ Hm].
    apply negb_true_iff in Hm. exact Hm. }
  unfold list_incoming_messages.
  rewrite db_select_limit_accepted by (apply limit_accepted_true; lia).
  unfold select_incoming. unfold_storage.
  unfold storage_answers in Hans.
  destruct (faults w') as [|[msg|] rest]; [|contradiction|]; simpl;
    rewrite Hnone; simpl; unfold sql_limit; simpl; rewrite firstn_nil; simpl;
    eexists; split; reflexivity.
Qed.

(** A negative limit is not checked by [list_incoming_messages]: the
    statement is sent with it, the storage refuses it, and the refusal
    comes back as a [MessageError] of code 500. *)
Lemma list_incoming_messages_negative_limit gamespace recipient_class recipient limit w :
  limit < 0 ->
  storage_answers w ->
  exists w',
    list_incoming_messages gamespace recipient_class recipient limit w
      = (Raise (MessageError 500
                  ("Failed to list incoming messages: " ++ limit_syntax_error)), w')
    /\ db w' = db w
    /\ calls w' = S (calls w).
Proof.
  intros Hlimit Hans.
  assert (Hrefused : limit_accepted 0 limit = false).
  { unfold limit_accepted. simpl. apply Z.leb_gt. exact Hlimit. }
  unfold list_incoming_messages. unfold_storage. rewrite Hrefused.
  unfold storage_answers in Hans.
  destruct (faults w) as [|[msg|] rest]; [|contradiction|]; simpl;
    eexists; repeat split; reflexivity.
Qed.

(** ** Delivery: failure and what stays undelivered *)

(** Under the primary key, the identifier of a row was collected by
    [read_incoming_messages] exactly when the row is an undelivered
    message of the recipient that the receiver confirmed, with the flag
    asked for. *)
Lemma id_in_confirmed gamespace recipient_class recipient receiver d remove x :
  messages_keyed d ->
  In x (messages d) ->
  id_in gamespace
    (confirmed_ids REMOVE_DELIVERED receiver remove
       (map MessageAdapter.init (select_undelivered recipient_class recipient gamespace d))) x
  = true
  <-> (for_recipient recipient_class recipient gamespace x
       && (messages_t.message_delivered x =? 0))%bool = true
      /\ receiver (MessageAdapter.init x) = true
      /\ flags_contain REMOVE_DELIVERED (MessageAdapter.flags (MessageAdapter.init x)) = remove.
Proof.
  intros Hkey Hx. unfold id_in. rewrite andb_true_iff, sql_in_spec, confirmed_ids_in.
  split.
  - intros (_ & r & Hr & Hid & Hrecv & Hflag).
    unfold select_undelivered in Hr. apply filter_In in Hr. destruct Hr as [Hin Hu].
    assert (r = x) by (apply (keyed_same_id (messages d)); assumption).
    subst r. auto.
  - intros (Hu & Hrecv & Hflag). split.
    + apply andb_true_iff in Hu. destruct Hu as [Hu _].
      unfold for_recipient in Hu. apply andb_true_iff in Hu. apply Hu.
    + exists x. split; [|auto].
      unfold select_undelivered. apply filter_In. split; assumption.
Qed.

Lemma filter_update_pointwise {A : Type} (P Q R S : A -> bool) (h : A -> A) (l : list A) :
  (forall x, In x l ->
             if (Q (h x) && P (h x))%bool
             then h x = x /\ (S x && R x)%bool = true
             else (S x && R x)%bool = false) ->
  filter P (filter Q (map h l)) = filter R (filter S l).
Proof.
  induction l as [|x l IH]; intros H; [reflexivity|].
  simpl. specialize (IH (fun y Hy => H y (or_intror Hy))).
  specialize (H x (or_introl eq_refl)).
  destruct (Q (h x)) eqn:EQ; simpl in *.
  - destruct (P (h x)) eqn:EP.
    + destruct H as [Hh Hsr]. apply andb_true_iff in Hsr. destruct Hsr as [Hs Hr].
      rewrite Hs. simpl. rewrite Hr, Hh. f_equal. exact IH.
    + destruct (S x); simpl in *; [rewrite H|]; exact IH.
  - destruct (S x); simpl in *; [rewrite H|]; exact IH.
Qed.

(** After a returning [read_incoming_messages] the undelivered messages of
    the recipient are exactly those the receiver did not confirm, in
    order: a confirmed message is never read again, an unconfirmed one
    is read again by the next run. *)
Theorem read_incoming_messages_leaves_unconfirmed :
  forall gamespace recipient_class recipient receiver w w',
    messages_keyed (db w) ->
    read_incoming_messages REMOVE_DELIVERED gamespace recipient_class recipient receiver w
      = (Ok tt, w') ->
    select_undelivered recipient_class recipient gamespace (db w')
    = filter (fun m => negb (receiver (MessageAdapter.init m)))
             (select_undelivered recipient_class recipient gamespace (db w)).
Proof.
  intros gamespace recipient_class recipient receiver w w' Hkey Hrun.
  destruct (read_incoming_messages_returns _ _ _ _ _ _ Hrun) as (Hmsgs & _).
  unfold select_undelivered at 1. rewrite Hmsgs.
  unfold sql_delete, sql_update, select_undelivered at 3.
  apply filter_update_pointwise. intros x Hx.
  pose proof (id_in_confirmed gamespace recipient_class recipient receiver (db w) false x
                Hkey Hx) as Hmark.
  pose proof (id_in_confirmed gamespace recipient_class recipient receiver (db w) true x
                Hkey Hx) as Hrem.
  set (mark := id_in gamespace (confirmed_ids REMOVE_DELIVERED receiver false _)) in *.
  set (rem := id_in gamespace (confirmed_ids REMOVE_DELIVERED receiver true _)) in *.
  assert (Hsame : rem (messages_t.set_delivered x) = rem x) by reflexivity.
  destruct (for_recipient recipient_class recipient gamespace x
            && (messages_t.message_delivered x =? 0))%bool eqn:EU.
  - destruct (receiver (MessageAdapter.init x)) eqn:Erecv.
    + destruct (flags_contain REMOVE_DELIVERED
                  (MessageAdapter.flags (MessageAdapter.init x))) eqn:Eflag.
      * assert (Hr : rem x = true) by (apply Hrem; auto).
        assert (Hm : mark x = false).
        { apply not_true_is_false. intros C. apply Hmark in C.
          destruct C as (_ & _ & C). discriminate C. }
        rewrite Hm, Hr. reflexivity.
      * assert (Hm : mark x = true) by (apply Hmark; auto).
        assert (Hr : rem x = false).
        { apply not_true_is_false. intros C. apply Hrem in C.
          destruct C as (_ & _ & C). discriminate C. }
        rewrite Hm, Hsame, Hr. simpl.
        unfold for_recipient. simpl. rewrite andb_false_r. reflexivity.
    + assert (Hm : mark x = false).
      { apply not_true_is_false. intros C. apply Hmark in C.
        destruct C as (_ & C & _). discriminate C. }
      assert (Hr : rem x = false).
      { apply not_true_is_false. intros C. apply Hrem in C.
        destruct C as (_ & C & _). discriminate C. }
      rewrite Hm, Hr. simpl. rewrite EU. split; reflexivity.
  - assert (Hm : mark x = false).
    { apply not_true_is_false. intros C. apply Hmark in C.
      destruct C as (C & _). discriminate C. }
    assert (Hr : rem x = false).
    { apply not_true_is_false. intros C. apply Hrem in C.
      destruct C as (C & _). discriminate C. }
    rewrite Hm, Hr. simpl. rewrite EU. reflexivity.
Qed.

(** A failing [read_incoming_messages] raises [MessageError] with code
    500 for a storage fault and leaves the tables as they were, whichever
    of its statements failed; the receiver may have been handed the
    batch all the same. *)
Theorem read_incoming_messages_failure :
  forall gamespace recipient_class recipient receiver w e w',
    read_incoming_messages REMOVE_DELIVERED gamespace recipient_class recipient receiver w
      = (Raise e, w') ->
    db w' = db w
    /\ (exists msg,
           e = MessageError 500 ("Failed to read incoming messages: " ++ msg)
           /\ In (Some msg) (firstn 4 (faults w)))
    /\ (received w' = received w
        \/ received w'
           = (received w
              ++ map MessageAdapter.init
                     (select_undelivered recipient_class recipient gamespace (db w)))%list).
Proof.
  intros gamespace recipient_class recipient receiver w e w'.
  set (batch := map MessageAdapter.init
                    (select_undelivered recipient_class recipient gamespace (db w))).
  unfold read_incoming_messages, update_messages, delete_from_messages.
  unfold_storage.
  destruct (faults w) as [|[m1|] f1]; simpl.
  - rewrite deliver_run; simpl; fold batch;
      destruct (truthy_list (confirmed_ids REMOVE_DELIVERED receiver false batch));
      destruct (truthy_list (confirmed_ids REMOVE_DELIVERED receiver true batch));
      simpl; discriminate.
  - intros H; inversion H; subst; simpl.
    split; [reflexivity|]. split; [exists m1; simpl; auto | left; reflexivity].
  - rewrite deliver_run; simpl; fold batch;
      destruct (truthy_list (confirmed_ids REMOVE_DELIVERED receiver false batch));
      destruct (truthy_list (confirmed_ids REMOVE_DELIVERED receiver true batch));
      simpl;
      try (destruct f1 as [|[m2|] f2]; simpl; try discriminate);
      try (destruct f2 as [|[m3|] f3]; simpl; try discriminate);
      try (destruct f3 as [|[m4|] f4]; simpl; try discriminate);
      intros H; inversion H; subst; simpl;
      (split; [reflexivity|]);
      (split; [eexists; split; [reflexivity | simpl; auto 6] | right; reflexivity]).
Qed.

(** [list_incoming_messages] answers most recent first, with at most
    [limit] messages, all addressed to the recipient in the gamespace;
    it changes nothing. *)
Theorem list_incoming_messages_recent_first :
  forall gamespace recipient_class recipient limit w items w',
    list_incoming_messages gamespace recipient_class recipient limit w = (Ok items, w') ->
    StronglySorted Z.ge (map MessageAdapter.time items)
    /\ (List.length items <= Z.to_nat limit)%nat
    /\ Forall (fun a => MessageAdapter.recipient_class a = recipient_class
                        /\ MessageAdapter.recipient a = recipient
                        /\ message_from gamespace (db w) a) items
    /\ db w' = db w.
Proof.
  intros gamespace recipient_class recipient limit w items w' H.
  unfold list_incoming_messages in H.
  apply bind_ok in H. destruct H as (rows & w1 & Hq & Hk).
  apply try_db_select_limit_ok in Hq. destruct Hq as (Hrows & Hdb & _).
  inversion Hk; subst. clear Hk.
  unfold select_incoming, sql_limit. simpl.
  split; [|split; [|split; [|exact Hdb]]].
  - rewrite map_map. simpl.
    change (fun x => messages_t.message_time x) with messages_t.message_time.
    rewrite <- firstn_map. apply sorted_firstn. apply order_by_desc_sorted.
  - rewrite length_map, length_firstn. lia.
  - apply Forall_forall. intros a Ha. apply in_map_iff in Ha.
    destruct Ha as (r & <- & Hr).
    assert (Hin : In r (order_by_desc messages_t.message_time
                          (filter (for_recipient recipient_class recipient gamespace)
                                  (messages (db w))))).
    { rewrite <- (firstn_skipn (Z.to_nat limit)). apply in_or_app. left. exact Hr. }
    apply order_by_desc_in, filter_In in Hin. destruct Hin as [Hin Hc].
    unfold for_recipient in Hc. rewrite !andb_true_iff in Hc.
    destruct Hc as [[Hc1 Hc2] Hc3].
    apply String.eqb_eq in Hc1. apply String.eqb_eq in Hc2. apply Z.eqb_eq in Hc3.
    simpl. split; [exact Hc1|]. split; [exact Hc2|]. exists r. auto.
Qed.

(** ** The feed with its total count *)

(** [list_messages_account_with_count] returns the window of the feed
    together with the size of the whole feed, whatever the window; the
    window is never longer than that count. *)
Theorem list_messages_account_with_count_total :
  forall gamespace account_id limit offset w items count w',
    list_messages_account_with_count CLASS_USER gamespace account_id limit offset w
      = (Ok (items, count), w') ->
    items = map MessageAdapter.init
                (firstn (Z.to_nat limit)
                   (skipn (Z.to_nat offset)
                      (select_account_union CLASS_USER gamespace account_id (db w))))
    /\ count = Z.of_nat (List.length
                           (select_account_union CLASS_USER gamespace account_id (db w)))
    /\ Z.of_nat (List.length items) <= count
    /\ 1 <= limit <= 10000 /\ 0 <= offset <= 10000
    /\ db w' = db w.
Proof.
  intros gamespace account_id limit offset w items count w' H.
  unfold list_messages_account_with_count in H.
  apply with_acquire_ok in H. destruct H as (w0 & Hdb0 & H).
  apply bind_ok in H. destruct H as (ms & w1 & Hl & Hk).
  unfold list_messages_account in Hl.
  destruct ((limit <? 1) || (limit >? 10000) || (offset <? 0) || (offset >? 10000))%bool
    eqn:Ebad; [inversion Hl|].
  rewrite !orb_false_iff, !Z.gtb_ltb, !Z.ltb_ge in Ebad.
  rewrite db_select_limit_accepted in Hl by (apply limit_accepted_true; lia).
  revert Hl Hk. unfold_storage.
  destruct (faults w0) as [|[m1|] [|[m2|] rest]]; simpl; try discriminate;
    intros Hl; inversion Hl; subst; clear Hl; simpl;
    intros Hk; inversion Hk; subst; clear Hk; simpl;
    rewrite Hdb0; unfold sql_limit;
    (split; [reflexivity|]); (split; [reflexivity|]);
    (split; [|split; [lia|split; [lia|reflexivity]]]);
    rewrite length_map, length_firstn, length_skipn; lia.
Qed.

(** ** Account erasure *)

(** [accounts_deleted] removes the participation rows of the accounts, in
    the gamespace only or in every gamespace, and nothing else: the rows
    of other accounts stay in order, and neither groups nor messages are
    touched. *)
Theorem accounts_deleted_effect :
  forall gamespace accounts gamespace_only w w',
    accounts_deleted gamespace accounts gamespace_only w = (Ok tt, w') ->
    group_participants (db w')
      = filter (fun p => negb ((if gamespace_only
                                then participants_t.gamespace_id p =? gamespace
                                else true)
                               && sql_in (participants_t.participation_account p) accounts))
               (group_participants (db w))
    /\ (forall p, In p (group_participants (db w')) ->
                  In (participants_t.participation_account p) accounts ->
                  gamespace_only = true /\ participants_t.gamespace_id p <> gamespace)
    /\ groups (db w') = groups (db w)
    /\ messages (db w') = messages (db w).
Proof.
  intros gamespace accounts gamespace_only w w' H.
  assert (Hrows : group_participants (db w')
      = filter (fun p => negb ((if gamespace_only
                                then participants_t.gamespace_id p =? gamespace
                                else true)
                               && sql_in (participants_t.participation_account p) accounts))
               (group_participants (db w))
      /\ groups (db w') = groups (db w) /\ messages (db w') = messages (db w)).
  { unfold accounts_deleted in H. destruct gamespace_only;
      apply try_execute_ok in H; destruct H as (o & Ho & Hdb);
      inversion Ho; subst o; rewrite Hdb; simpl; repeat split. }
  destruct Hrows as (Hrows & Hg & Hm).
  split; [exact Hrows|]. split; [|split; assumption].
  intros p Hp Hacc. rewrite Hrows in Hp. apply filter_In in Hp. destruct Hp as [_ Hc].
  apply negb_true_iff, andb_false_iff in Hc.
  assert (Hin : sql_in (participants_t.participation_account p) accounts = true)
    by (apply sql_in_spec; exact Hacc).
  destruct Hc as [Hc|Hc]; [|rewrite Hin in Hc; discriminate Hc].
  destruct gamespace_only; [|discriminate Hc].
  split; [reflexivity|]. apply Z.eqb_neq. exact Hc.
Qed.

(** ** Updating and deleting groups *)

(** With the storage answering, [update_group] for an identifier that no
    group of the gamespace has succeeds and leaves every table as it
    was.  Whenever [update_group] succeeds, the participation rows,
    which carry copies of class and key, and the messages are not
    touched, and the group read back by its identifier has the new
    class, key and cluster size and keeps its clustering. *)
Theorem update_group_then_get_group :
  forall gamespace group_id group_class key cluster_size w,
    storage_answers w ->
    ((forall g, In g (groups (db w)) ->
                ~ (groups_t.gamespace_id g = gamespace /\ groups_t.group_id g = group_id)) ->
     exists w',
       update_group gamespace group_id group_class key cluster_size w = (Ok tt, w')
       /\ db w' = db w)
    /\ (forall w',
          update_group gamespace group_id group_class key cluster_size w = (Ok tt, w') ->
          group_participants (db w') = group_participants (db w)
          /\ messages (db w') = messages (db w)
          /\ (forall g,
                 hd_error (filter (fun g => (groups_t.group_id g =? group_id)
                                            && (groups_t.gamespace_id g =? gamespace))%bool
                                  (groups (db w))) = Some g ->
                 storage_answers w' ->
                 exists w'',
                   get_group gamespace group_id w'
                     = (Ok (GroupAdapter.mk group_id group_class key
                              (negb (groups_t.group_clustered g =? 0)) cluster_size), w''))).
Proof.
  intros gamespace group_id group_class key cluster_size w Hans0.
  split.
  - intros Hnone.
    assert (Hcond : forall g, In g (groups (db w)) ->
              ((groups_t.gamespace_id g =? gamespace)
               && (groups_t.group_id g =? group_id))%bool = false).
    { intros g Hg.
      destruct (Z.eqb_spec (groups_t.gamespace_id g) gamespace) as [E1|E1]; [|reflexivity].
      destruct (Z.eqb_spec (groups_t.group_id g) group_id) as [E2|E2]; [|reflexivity].
      exfalso. exact (Hnone g Hg (conj E1 E2)). }
    assert (Hrow : update_group_row group_class key cluster_size gamespace group_id (db w)
                   = Ok (mkOutcome (db w) 0 0)).
    { unfold update_group_row, count_rows.
      rewrite (sql_update_none _ _ _ Hcond), (filter_none _ _ Hcond). simpl.
      unfold set_groups. destruct (db w); reflexivity. }
    unfold update_group. unfold_storage. unfold storage_answers in Hans0.
    destruct (faults w) as [|[msg|] rest]; [|contradiction|]; simpl;
      rewrite Hrow; simpl; eexists; split; reflexivity.
  - intros w' H.
    unfold update_group in H. apply try_execute_ok in H. destruct H as (o & Ho & Hdb).
    unfold update_group_row in Ho.
    destruct (_ || _)%bool; inversion Ho; subst o; clear Ho.
    rewrite Hdb. simpl.
    split; [reflexivity|]. split; [reflexivity|].
    intros g Hhd Hans.
    assert (Hsel : hd_error
              (filter (fun g0 => (groups_t.group_id g0 =? group_id)
                                 && (groups_t.gamespace_id g0 =? gamespace))%bool
                 (sql_update
                    (fun g0 => (groups_t.gamespace_id g0 =? gamespace)
                               && (groups_t.group_id g0 =? group_id))%bool
                    (fun g0 => groups_t.mk (groups_t.gamespace_id g0) (groups_t.group_id g0)
                                 group_class key (groups_t.group_clustered g0) cluster_size)
                    (groups (db w))))
            = Some (groups_t.mk gamespace group_id group_class key
                      (groups_t.group_clustered g) cluster_size)).
    { clear - Hhd. unfold sql_update.
      induction (groups (db w)) as [|x t IH]; simpl in *; [discriminate Hhd|].
      destruct (Z.eqb_spec (groups_t.group_id x) group_id) as [E2|E2];
        destruct (Z.eqb_spec (groups_t.gamespace_id x) gamespace) as [E1|E1];
        simpl in *; rewrite ?E1, ?E2, ?Z.eqb_refl; simpl.
      - inversion Hhd; subst. reflexivity.
      - destruct (Z.eqb_spec (groups_t.group_id x) group_id); [|contradiction].
        destruct (Z.eqb_spec (groups_t.gamespace_id x) gamespace); [contradiction|].
        simpl. apply IH. exact Hhd.
      - destruct (Z.eqb_spec (groups_t.group_id x) group_id); [contradiction|].
        simpl. apply IH. exact Hhd.
      - destruct (Z.eqb_spec (groups_t.group_id x) group_id); [contradiction|].
        simpl. apply IH. exact Hhd. }
    unfold get_group. unfold_storage. unfold storage_answers in Hans.
    destruct (faults w') as [|[msg|] rest]; [|contradiction|]; simpl;
      rewrite Hdb; simpl; rewrite Hsel; simpl; eexists; reflexivity.
Qed.

(** After [delete_group] the group is not found by its identifier; its
    participation rows are left behind. *)
Theorem delete_group_then_get_group :
  forall gamespace group w w',
    delete_group gamespace group w = (Ok tt, w') ->
    group_participants (db w') = group_participants (db w)
    /\ groups (db w')
       = filter (fun g => negb ((groups_t.group_id g =? GroupAdapter.group_id group)
                                && (groups_t.gamespace_id g =? gamespace)))
                (groups (db w))
    /\ (storage_answers w' ->
        exists w'',
          get_group gamespace (GroupAdapter.group_id group) w' = (Raise GroupNotFound, w'')).
Proof.
  intros gamespace group w w' H.
  unfold delete_group in H. apply bind_ok in H. destruct H as ([] & w1 & Hm & Hg).
  assert (Hm' : delete_messages_like gamespace (GroupAdapter.group_class group)
                  (GroupAdapter.key group ++ "-%") w = (Ok tt, w1)).
  { revert Hm. unfold try_except.
    destruct (delete_messages_like _ _ _ w) as [[[]|e] w0]; [auto|].
    destruct e; try discriminate. }
  unfold delete_messages_like in Hm'. apply try_execute_ok in Hm'.
  destruct Hm' as (o1 & Ho1 & Hdb1). inversion Ho1; subst o1; clear Ho1.
  apply try_execute_ok in Hg. destruct Hg as (o2 & Ho2 & Hdb2).
  inversion Ho2; subst o2; clear Ho2.
  assert (Hgroups : groups (db w')
       = filter (fun g => negb ((groups_t.group_id g =? GroupAdapter.group_id group)
                                && (groups_t.gamespace_id g =? gamespace)))
                (groups (db w))).
  { rewrite Hdb2. simpl. rewrite Hdb1. reflexivity. }
  split; [rewrite Hdb2; simpl; rewrite Hdb1; reflexivity|].
  split; [exact Hgroups|].
  intros Hans.
  assert (Hnone : filter (fun g => (groups_t.group_id g =? GroupAdapter.group_id group)
                                   && (groups_t.gamespace_id g =? gamespace))%bool
                         (groups (db w')) = []).
  { rewrite Hgroups. apply filter_none. intros g Hin.
    apply filter_In in Hin. destruct Hin as [_ Hc]. apply negb_true_iff in Hc. exact Hc. }
  unfold get_group. unfold_storage. unfold storage_answers in Hans.
  destruct (faults w') as [|[msg|] rest]; [|contradiction|]; simpl;
    rewrite Hnone; simpl; eexists; reflexivity.
Qed.

(** ** Roles *)

(** After [updated_group_participation] the participation read back by
    its identifier carries the new role and is otherwise the row it was;
    groups and messages are not touched. *)
Theorem updated_group_participation_then_get :
  forall gamespace participation_id role w w',
    updated_group_participation gamespace participation_id role w = (Ok tt, w') ->
    groups (db w') = groups (db w)
    /\ messages (db w') = messages (db w)
    /\ map participants_t.participation_id (group_participants (db w'))
       = map participants_t.participation_id (group_participants (db w))
    /\ (forall p,
           hd_error (filter (fun p => (participants_t.participation_id p =? participation_id)
                                      && (participants_t.gamespace_id p =? gamespace))%bool
                            (group_participants (db w))) = Some p ->
           storage_answers w' ->
           exists w'',
             get_group_participation gamespace participation_id w'
               = (Ok (GroupParticipationAdapter.mk
                        (str participation_id) (str (participants_t.group_id p))
                        (participants_t.group_class p) (participants_t.group_key p)
                        (participants_t.cluster_id p)
                        (PyInt (participants_t.participation_account p))
                        (PyStr role)), w'')).
Proof.
  intros gamespace participation_id role w w' H.
  unfold updated_group_participation in H. apply try_execute_ok in H.
  destruct H as (o & Ho & Hdb). inversion Ho; subst o; clear Ho.
  rewrite Hdb. simpl.
  split; [reflexivity|]. split; [reflexivity|]. split.
  - unfold sql_update. rewrite map_map. apply map_ext. intros p.
    destruct (_ && _)%bool; reflexivity.
  - intros p Hhd Hans.
    assert (Hsel : hd_error
              (filter (fun p0 => (participants_t.participation_id p0 =? participation_id)
                                 && (participants_t.gamespace_id p0 =? gamespace))%bool
                 (sql_update
                    (fun p0 => (participants_t.gamespace_id p0 =? gamespace)
                               && (participants_t.participation_id p0 =? participation_id))%bool
                    (fun p0 => participants_t.mk
                                 (participants_t.gamespace_id p0)
                                 (participants_t.participation_id p0)
                                 (participants_t.group_id p0) (participants_t.group_class p0)
                                 (participants_t.group_key p0)
                                 (participants_t.participation_account p0)
                                 role (participants_t.cluster_id p0))
                    (group_participants (db w))))
            = Some (participants_t.mk gamespace participation_id
                      (participants_t.group_id p) (participants_t.group_class p)
                      (participants_t.group_key p) (participants_t.participation_account p)
                      role (participants_t.cluster_id p))).
    { clear - Hhd. unfold sql_update.
      induction (group_participants (db w)) as [|x t IH]; simpl in *; [discriminate Hhd|].
      destruct (Z.eqb_spec (participants_t.participation_id x) participation_id) as [E2|E2];
        destruct (Z.eqb_spec (participants_t.gamespace_id x) gamespace) as [E1|E1];
        simpl in *; rewrite ?E1, ?E2, ?Z.eqb_refl; simpl.
      - inversion Hhd; subst. reflexivity.
      - destruct (Z.eqb_spec (participants_t.participation_id x) participation_id);
          [|contradiction].
        destruct (Z.eqb_spec (participants_t.gamespace_id x) gamespace); [contradiction|].
        simpl. apply IH. exact Hhd.
      - destruct (Z.eqb_spec (participants_t.participation_id x) participation_id);
          [contradiction|].
        simpl. apply IH. exact Hhd.
      - destruct (Z.eqb_spec (participants_t.participation_id x) participation_id);
          [contradiction|].
        simpl. apply IH. exact Hhd. }
    unfold get_group_participation, adapt_participation. unfold_storage.
    unfold storage_answers in Hans.
    destruct (faults w') as [|[msg|] rest]; [|contradiction|]; simpl;
      rewrite Hdb; simpl; rewrite Hsel; simpl; eexists; reflexivity.
Qed.

(** ** A group with the participation of an account *)

(** [find_group_with_participation] tells a missing group from a missing
    participation: no group of that class and key in the gamespace is
    [GroupNotFound]; a group in which the account has no participation
    row of the same gamespace is [GroupParticipantNotFound]; otherwise,
    when the participation row's copies of the group's class and key are
    those of the group's row (so that the joined row has one value for
    each column name), the group and the participation come back
    together, with one class and one key. *)
Theorem find_group_with_participation_cases :
  forall gamespace group_class key account_id w,
    storage_answers w ->
    exists r w',
      find_group_with_participation gamespace group_class key account_id w = (r, w')
      /\ db w' = db w
      /\ match hd_error (filter (group_named gamespace group_class key) (groups (db w))) with
         | None => r = Raise GroupNotFound
         | Some g =>
             match hd_error
                     (filter (fun p => (groups_t.group_id g =? participants_t.group_id p)
                                       && (groups_t.gamespace_id g
                                           =? participants_t.gamespace_id p)
                                       && (participants_t.participation_account p
                                           =? account_id))%bool
                             (group_participants (db w))) with
             | None => r = Raise GroupParticipantNotFound
             | Some p =>
                 if participants_t.participation_id p =? 0
                 then r = Raise GroupParticipantNotFound
                 else participants_t.group_class p = groups_t.group_class g ->
                      participants_t.group_key p = groups_t.group_key g ->
                      exists a,
                        r = Ok a
                        /\ GroupAndParticipationAdapter.group a = GroupAdapter.init g
                        /\ GroupAndParticipationAdapter.participation a
                           = GroupParticipationAdapter.mk
                               (str (participants_t.participation_id p))
                               (str (groups_t.group_id g))
                               (groups_t.group_class g)
                               (groups_t.group_key g)
                               (participants_t.cluster_id p)
                               (PyInt (participants_t.participation_account p))
                               (PyStr (participants_t.participation_role p))
                        /\ GroupParticipationAdapter.group_key
                             (GroupAndParticipationAdapter.participation a)
                           = GroupAdapter.key (GroupAndParticipationAdapter.group a)
                        /\ GroupParticipationAdapter.group_class
                             (GroupAndParticipationAdapter.participation a)
                           = GroupAdapter.group_class (GroupAndParticipationAdapter.group a)
             end
         end.
Proof.
  intros gamespace group_class key account_id w Hans.
  unfold find_group_with_participation, select_group_left_join_participation.
  unfold_storage. unfold storage_answers in Hans.
  destruct (faults w) as [|[msg|] rest]; [|contradiction|]; simpl;
    (destruct (filter (group_named gamespace group_class key) (groups (db w)))
       as [|g gs]; simpl;
     [ eexists; eexists; split; [reflexivity|]; split; reflexivity |]);
    (destruct (filter _ (group_participants (db w))) as [|p ps] eqn:Ep; simpl;
     [ eexists; eexists; split; [reflexivity|]; split; reflexivity |]);
    (assert (Hid : participants_t.group_id p = groups_t.group_id g)
       by (assert (Hp : In p (p :: ps)) by (left; reflexivity);
           rewrite <- Ep in Hp; apply filter_In in Hp; destruct Hp as [_ Hp];
           rewrite !andb_true_iff in Hp; destruct Hp as [[Hp _] _];
           apply Z.eqb_eq in Hp; symmetry; exact Hp));
    destruct (participants_t.participation_id p =? 0); simpl;
    eexists; eexists; (split; [reflexivity|]); (split; [reflexivity|]);
    try reflexivity;
    intros Hclass Hkey; eexists; (split; [reflexivity|]); simpl;
    rewrite Hid, Hclass, Hkey; repeat split; reflexivity.
Qed.

(** ** The filters of the query builder *)

Lemma sender_filter_spec (o : option Z) (r : messages_t.row) :
  forallb (fun c => holds c r)
          (if truthy_int o
           then match o with Some v => [message_sender_eq v] | None => [] end
           else []) = true
  <-> (forall v, o = Some v -> v <> 0 -> messages_t.message_sender r = v).
Proof.
  destruct o as [v|]; simpl.
  - destruct (Z.eqb_spec v 0) as [E|E]; simpl.
    + split; [|reflexivity]. intros _ v' Hv Hne. inversion Hv; subst. contradiction.
    + rewrite andb_true_r, Z.eqb_eq. split.
      * intros H v' Hv _. injection Hv as <-. exact H.
      * intros H. apply (H v eq_refl E).
  - split; [|reflexivity]. intros _ v Hv. discriminate Hv.
Qed.

Lemma text_filter_spec (make : string -> Condition) (P : string -> Prop)
    (o : option string) (r : messages_t.row) :
  (forall v, holds (make v) r = true <-> P v) ->
  forallb (fun c => holds c r)
          (if truthy_str o
           then match o with Some v => [make v] | None => [] end
           else []) = true
  <-> (forall v, o = Some v -> v <> "" -> P v).
Proof.
  intros Hmake. destruct o as [[|c s]|]; simpl.
  - split; [|reflexivity]. intros _ v Hv Hne. inversion Hv; subst. contradiction.
  - rewrite andb_true_r, Hmake. split.
    + intros H v Hv _. injection Hv as <-. exact H.
    + intros H. apply (H _ eq_refl). discriminate.
  - split; [|reflexivity]. intros _ v Hv. discriminate Hv.
Qed.

Lemma delivered_filter_spec (o : option bool) (r : messages_t.row) :
  forallb (fun c => holds c r)
          (match o with
           | Some b => [message_delivered_eq (if b then 1 else 0)]
           | None => []
           end) = true
  <-> (forall b, o = Some b -> messages_t.message_delivered r = if b then 1 else 0).
Proof.
  destruct o as [b|]; simpl.
  - rewrite andb_true_r, Z.eqb_eq. split.
    + intros H b' Hb. injection Hb as <-. exact H.
    + intros H. apply (H b eq_refl).
  - split; [|reflexivity]. intros _ b Hb. discriminate Hb.
Qed.

(** A query with no limit set returns, most recent first, exactly the
    messages of its gamespace that pass every filter that is set: a
    sender of 0 and an empty text count as not set, a delivered flag of
    [False] does count; the recipient filter is a LIKE pattern. *)
Theorem MessagesQuery_query_filters :
  forall (q : MessagesQuery) w,
    limit q = 0 ->
    storage_answers w ->
    exists rows w',
      MessagesQuery_query q false false w
        = (Ok (QueryItems (map MessageAdapter.init rows)), w')
      /\ db w' = db w
      /\ StronglySorted Z.ge (map messages_t.message_time rows)
      /\ forall r,
           In r rows
           <-> In r (messages (db w))
               /\ messages_t.gamespace_id r = gamespace_id q
               /\ (forall v, message_sender q = Some v -> v <> 0 ->
                             messages_t.message_sender r = v)
               /\ (forall v, message_recipient_class q = Some v -> v <> "" ->
                             messages_t.message_recipient_class r = v)
               /\ (forall v, message_recipient q = Some v -> v <> "" ->
                             sql_like v (messages_t.message_recipient r) = true)
               /\ (forall v, message_type q = Some v -> v <> "" ->
                             messages_t.message_type r = v)
               /\ (forall b, message_delivered q = Some b ->
                             messages_t.message_delivered r = if b then 1 else 0).
Proof.
  intros q w Hlimit Hans.
  exists (MessagesQuery_matching q (db w)).
  assert (Hsel : MessagesQuery_select q (db w) = MessagesQuery_matching q (db w)).
  { unfold MessagesQuery_select. rewrite Hlimit. reflexivity. }
  assert (Hrun : exists w',
             MessagesQuery_query q false false w
               = (Ok (QueryItems (map MessageAdapter.init (MessagesQuery_matching q (db w)))),
                  w')
             /\ db w' = db w).
  { unfold MessagesQuery_query, MessagesQuery_statement.
    rewrite Hlimit. change (negb (0 =? 0)) with false. cbv iota zeta.
    unfold_storage. unfold storage_answers in Hans.
    destruct (faults w) as [|[msg|] rest]; [|contradiction|]; simpl; rewrite ?Hsel;
      eexists; split; reflexivity. }
  destruct Hrun as (w' & Hrun & Hdb). exists w'.
  split; [exact Hrun|]. split; [exact Hdb|]. split.
  - apply order_by_desc_sorted.
  - intros r. unfold MessagesQuery_matching.
    rewrite order_by_desc_in, filter_In.
    unfold where_all, MessagesQuery_values. rewrite !forallb_app.
    rewrite !andb_true_iff.
    rewrite sender_filter_spec.
    rewrite (text_filter_spec message_recipient_class_eq
               (fun v => messages_t.message_recipient_class r = v))
      by (intros v; simpl; apply String.eqb_eq).
    rewrite (text_filter_spec message_recipient_like
               (fun v => sql_like v (messages_t.message_recipient r) = true))
      by (intros v; simpl; reflexivity).
    rewrite (text_filter_spec message_type_eq
               (fun v => messages_t.message_type r = v))
      by (intros v; simpl; apply String.eqb_eq).
    rewrite delivered_filter_spec.
    simpl. rewrite andb_true_r, Z.eqb_eq.
    clear. tauto.
Qed.

(** A query for one message, with no limit set, returns the most recent
    message that passes the filters, and [None] exactly when none does. *)
Theorem MessagesQuery_query_one :
  forall (q : MessagesQuery) count w,
    limit q = 0 ->
    storage_answers w ->
    exists item w',
      MessagesQuery_query q true count w = (Ok (QueryOne item), w')
      /\ match item with
         | None =>
             forall r, In r (messages (db w)) ->
                       where_all (MessagesQuery_values q) r = false
         | Some a =>
             exists r,
               a = MessageAdapter.init r
               /\ In r (messages (db w))
               /\ where_all (MessagesQuery_values q) r = true
               /\ forall r', In r' (messages (db w)) ->
                             where_all (MessagesQuery_values q) r' = true ->
                             messages_t.message_time r' <= messages_t.message_time r
         end.
Proof.
  intros q count w Hlimit Hans.
  assert (Hsel : MessagesQuery_select q (db w) = MessagesQuery_matching q (db w)).
  { unfold MessagesQuery_select. rewrite Hlimit. reflexivity. }
  assert (Hsorted := order_by_desc_sorted messages_t.message_time
                       (filter (where_all (MessagesQuery_values q)) (messages (db w)))).
  assert (Hin := fun r => order_by_desc_in messages_t.message_time
                       (filter (where_all (MessagesQuery_values q)) (messages (db w))) r).
  unfold MessagesQuery_query, MessagesQuery_statement.
  rewrite Hlimit. change (negb (0 =? 0)) with false. cbv iota zeta.
  unfold_storage. unfold storage_answers in Hans.
  destruct (faults w) as [|[msg|] rest]; [|contradiction|]; simpl; rewrite ?Hsel;
    unfold MessagesQuery_matching;
    (destruct (order_by_desc messages_t.message_time
                 (filter (where_all (MessagesQuery_values q)) (messages (db w))))
       as [|r rows] eqn:E; simpl;
     [ exists None; eexists; split; [reflexivity|];
       intros x Hx; apply not_true_is_false; intros Hc;
       apply (proj2 (Hin x)); apply filter_In; split; assumption
     | exists (Some (MessageAdapter.init r)); eexists; split; [reflexivity|];
       exists r; split; [reflexivity|];
       destruct (proj1 (filter_In _ _ _) (proj1 (Hin r) (or_introl eq_refl))) as [Hr Hc];
       split; [exact Hr|]; split; [exact Hc|];
       intros r' Hr' Hc';
       assert (Hmem : In r' (r :: rows))
         by (apply (proj2 (Hin r')); apply filter_In; split; assumption);
       simpl in Hsorted; apply StronglySorted_inv in Hsorted;
       destruct Hsorted as [_ Hall]; destruct Hmem as [<-|Hmem]; [lia|];
       rewrite Forall_forall in Hall;
       specialize (Hall (messages_t.message_time r') (in_map _ _ _ Hmem)); lia ]).
Qed.

(** ** Storage faults *)


(** ** Listings after a join *)

Lemma adapt_all_rows (rows : list participants_t.row) w :
  adapt_all (fun p => adapt_participation (participants_t.columns p)) rows w
  = (Ok (map row_participation rows), w).
Proof.
  induction rows as [|r rows IH]; simpl; [reflexivity|].
  unfold bind at 1. unfold adapt_participation at 1. rewrite participation_of_row.
  unfold ret at 1. unfold bind at 1. rewrite IH. reflexivity.
Qed.

(** After a successful [join_group] the new participation closes the
    list of the group's participants and the list of the account's
    participations in the gamespace, after the rows listed before. *)
Theorem join_group_then_listed :
  forall gamespace group account role notify authoritative w p w',
    join_group cluster_get_cluster gamespace group account role notify authoritative w
      = (Ok p, w') ->
    storage_answers w' ->
    let row := participants_t.mk gamespace (next_participation_id (db w))
                 (GroupAdapter.group_id group) (GroupAdapter.group_class group)
                 (GroupAdapter.key group) account role
                 (GroupParticipationAdapter.cluster_id p) in
    (exists w'',
        list_group_participants gamespace (GroupAdapter.group_id group) w'
        = (Ok (map row_participation
                   (filter (fun r => (participants_t.group_id r =? GroupAdapter.group_id group)
                                     && (participants_t.gamespace_id r =? gamespace))%bool
                           (group_participants (db w)))
               ++ [row_participation row])%list, w''))
    /\ (exists w'',
           list_participants_by_account gamespace account w'
           = (Ok (map row_participation
                      (filter (fun r => (participants_t.participation_account r =? account)
                                        && (participants_t.gamespace_id r =? gamespace))%bool
                              (group_participants (db w)))
                  ++ [row_participation row])%list, w'')).
Proof.
  intros gamespace group account role notify authoritative w p w' Hjoin Hans.
  destruct (join_group_returns _ _ _ _ _ _ _ _ _ Hjoin)
    as (c & _ & _ & Hrows & _ & _ & Hp & _).
  assert (Hc : GroupParticipationAdapter.cluster_id p = c) by (subst p; reflexivity).
  rewrite Hc. clear Hp Hc. simpl.
  unfold list_group_participants, list_participants_by_account.
  unfold storage_answers in Hans.
  split.
  - unfold bind at 1. unfold_storage.
    destruct (faults w') as [|[msg|] rest]; [|contradiction|]; simpl;
      rewrite adapt_all_rows; rewrite Hrows, filter_app; simpl;
      rewrite !Z.eqb_refl; simpl; rewrite map_app; eexists; reflexivity.
  - unfold bind at 1. unfold_storage.
    destruct (faults w') as [|[msg|] rest]; [|contradiction|]; simpl;
      rewrite adapt_all_rows; rewrite Hrows, filter_app; simpl;
      rewrite !Z.eqb_refl; simpl; rewrite map_app; eexists; reflexivity.
Qed.

End Properties.

(* ================================================================== *)
(** * The properties on sample data *)
(* ================================================================== *)

(** The four windows named in the specification, on the sample tables. *)
Lemma list_messages_account_bad_window_witness :
  (0 < 1 \/ 0 > 10000 \/ 0 < 0 \/ 0 > 10000)
  /\ list_messages_account "user" 1 5 0 0 (sample_world guild_database [])
     = (Raise (MessageError 400 "Bad limit/offset"), sample_world guild_database [])
  /\ list_messages_account "user" 1 5 10001 0 (sample_world guild_database [])
     = (Raise (MessageError 400 "Bad limit/offset"), sample_world guild_database [])
  /\ list_messages_account "user" 1 5 100 (-1) (sample_world guild_database [])
     = (Raise (MessageError 400 "Bad limit/offset"), sample_world guild_database [])
  /\ list_messages_account "user" 1 5 100 10001 (sample_world guild_database [])
     = (Raise (MessageError 400 "Bad limit/offset"), sample_world guild_database []).
Proof.
  split; [left; reflexivity|].
  split; [|split; [|split]].
  - apply list_messages_account_bad_window. left. reflexivity.
  - apply list_messages_account_bad_window. right. left. reflexivity.
  - apply list_messages_account_bad_window. right. right. left. reflexivity.
  - apply list_messages_account_bad_window. right. right. right. reflexivity.
Defined.

(** The storage faults on the DELETE of the group's messages. *)
Lemma delete_group_cleanup_failure_witness :
  delete_messages_like 1 "guild_class" ("guild" ++ "-%")
      (sample_world guild_database [Some "server has gone away"])
    = (Raise (MessageError 500 "Failed to delete messages: server has gone away"),
       mkWorld guild_database 0 [] 1 0 tt [] [] [])
  /\ exists message,
       delete_group 1 (GroupAdapter.init guild)
           (sample_world guild_database [Some "server has gone away"])
         = (Raise (GroupError 500 message), mkWorld guild_database 0 [] 1 0 tt [] [] [])
       /\ groups (db (mkWorld guild_database 0 [] 1 0 tt [] [] []))
          = groups (db (sample_world guild_database [Some "server has gone away"]))
       /\ calls (mkWorld guild_database 0 [] 1 0 tt [] [] [])
          = S (calls (sample_world guild_database [Some "server has gone away"])).
Proof.
  split; [reflexivity|].
  apply (delete_group_cleanup_failure 1 (GroupAdapter.init guild)
           (sample_world guild_database [Some "server has gone away"])
           (MessageError 500 "Failed to delete messages: server has gone away")).
  reflexivity.
Defined.

(** Account 6 never joined [guild]. *)
Lemma leave_group_not_joined_witness :
  (forall p, In p (group_participants (db (sample_world guild_database []))) ->
             ~ (participants_t.group_id p = GroupAdapter.group_id (GroupAdapter.init guild)
                /\ participants_t.participation_account p = 6))
  /\ exists e w',
       leave_group sample_leave_cluster 1 (GroupAdapter.init guild) 6
                   (Some [("reason", PyStr "bye")]) false (sample_world guild_database [])
         = (Raise e, w')
       /\ match faults (sample_world guild_database []) with
          | Some msg :: _ => e = GroupError 500 ("Failed to get group participant: " ++ msg)
          | _ => e = GroupParticipantNotFound
          end
       /\ db w' = db (sample_world guild_database [])
       /\ cluster w' = cluster (sample_world guild_database [])
       /\ outbox w' = outbox (sample_world guild_database [])
       /\ bindings w' = bindings (sample_world guild_database [])
       /\ calls w' = S (calls (sample_world guild_database [])).
Proof.
  assert (H : forall p, In p (group_participants (db (sample_world guild_database []))) ->
             ~ (participants_t.group_id p = GroupAdapter.group_id (GroupAdapter.init guild)
                /\ participants_t.participation_account p = 6)).
  { simpl. intros p [<-|[]] [_ E]. discriminate E. }
  split; [exact H|].
  exact (leave_group_not_joined sample_leave_cluster 1 (GroupAdapter.init guild) 6
           (Some [("reason", PyStr "bye")]) false (sample_world guild_database []) H).
Defined.

(** C1 on the sample tables.  [delete_group] succeeds and removes the row
    of [guild], but the messages addressed to its clusters "guild-1" and
    "guild-7" and to its key "guild" are all still there: the DELETE
    matches the class with LIKE and the recipient with [=], so the only
    message removed is the one whose recipient is literally "guild-%". *)
Theorem delete_group_keeps_cluster_messages :
  exists w',
    delete_group 1 (GroupAdapter.init guild) (sample_world guild_database [])
      = (Ok tt, w')
    /\ groups (db w') = []
    /\ messages (db w')
       = [ sample_message 1 "guild_class" "guild-1" 0 "";
           sample_message 2 "guild_class" "guild-7" 0 "";
           sample_message 3 "guild_class" "guild" 0 "" ]
    /\ addressed_to_group (GroupAdapter.init guild)
                          (sample_message 1 "guild_class" "guild-1" 0 "")
    /\ addressed_to_group (GroupAdapter.init guild)
                          (sample_message 2 "guild_class" "guild-7" 0 "")
    /\ addressed_to_group (GroupAdapter.init guild)
                          (sample_message 3 "guild_class" "guild" 0 "").
Proof.
  eexists. split; [reflexivity|]. split; [reflexivity|]. split; [reflexivity|].
  unfold addressed_to_group. simpl. repeat split.
  - right. exists 1. split; [discriminate | reflexivity].
  - right. exists 7. split; [discriminate | reflexivity].
  - left. reflexivity.
Qed.

(** C5 on the sample tables.  Account 6 joins [guild] as "officer": the
    row inserted has the generated identifier 2, account 6 and that role,
    but the participation returned carries the text "1" (the number of
    rows the INSERT affected, which is the identifier of another
    account's row) and [None] for both account and role. *)
Theorem join_group_returns_unpopulated :
  exists w',
    join_group sample_get_cluster 1 (GroupAdapter.init guild) 6 "officer" None false
               (sample_world guild_database [])
      = (Ok (GroupParticipationAdapter.mk "1" "1" "guild_class" "guild" 7 PyNone PyNone), w')
    /\ group_participants (db w')
       = [ guild_member;
           participants_t.mk 1 2 1 "guild_class" "guild" 6 "officer" 7 ]
    /\ participants_t.participation_id guild_member = 1
    /\ participants_t.participation_account guild_member = 5.
Proof.
  eexists. repeat split.
Qed.


(** A query with offset -1 and limit 2 is not checked either: the read
    is sent, and it is the storage that refuses the negative offset. *)
Lemma MessagesQuery_query_negative_offset :
  fst (MessagesQuery_query (mkMessagesQuery 1 None None None None None (-1) 2)
                           false false (sample_world guild_database []))
    = Raise (MessageQueryError ("Failed to add message: " ++ limit_syntax_error))
  /\ calls (snd (MessagesQuery_query (mkMessagesQuery 1 None None None None None (-1) 2)
                                     false false (sample_world guild_database [])))
     = 1%nat.
Proof.
  split; vm_compute; reflexivity.
Qed.




(** The tables of [crossed_database] arise from the operations
    themselves: a group is created in gamespace 2, read back, and joined
    under gamespace 1. *)
Lemma crossed_database_reached :
  db (snd (bind (new_group 2 "clan_class" "clan" false 1000)
                (fun id =>
                   bind (get_group 2 id)
                        (fun g => join_group sample_get_cluster 1 g 5 "member" None false))
                (sample_world seed_database [])))
  = crossed_database.
Proof. vm_compute. reflexivity. Qed.

(** Listing the groups of account 5 in gamespace 1 returns the group of
    gamespace 2 its participation row points at. *)
Lemma tenant_isolation_crossed :
  ~ tenant_isolated sample_get_cluster sample_leave_cluster "user" "remove_delivered"
      1 (call_list_groups_account_participates 5) (sample_world crossed_database []).
Proof.
  intros H.
  destruct (H (Ok (some_groups_and_participations
                     [ GroupAndParticipationAdapter.mk
                         (GroupAdapter.mk 7 "clan_class" "clan" false 1000)
                         (GroupParticipationAdapter.mk "1" "7" "clan_class" "clan" 0
                                                       (PyInt 5) (PyStr "member")) ]))
              (mkWorld crossed_database 1 [] 1 0 tt [] [] []) eq_refl)
    as [_ Ha].
  specialize (Ha _ eq_refl). simpl in Ha.
  inversion Ha as [|gp gps [(r & Hr & Hgs & _) _] _]; subst.
  simpl in Hr. destruct Hr as [<-|[]]. discriminate Hgs.
Qed.

(* ================================================================== *)
(** * The further properties on sample data *)
(* ================================================================== *)

(** The group "hall" is created beside [lobby] and found again. *)
Lemma new_group_then_find_group_witness :
  new_group 1 "room" "hall" true 20 rooms_world
    = (Ok 4, snd (new_group 1 "room" "hall" true 20 rooms_world))
  /\ storage_answers (snd (new_group 1 "room" "hall" true 20 rooms_world))
  /\ exists w'',
       find_group 1 "room" "hall" (snd (new_group 1 "room" "hall" true 20 rooms_world))
         = (Ok (GroupAdapter.mk 4 "room" "hall" true 20), w'')
       /\ db w'' = db (snd (new_group 1 "room" "hall" true 20 rooms_world)).
Proof.
  assert (H1 : new_group 1 "room" "hall" true 20 rooms_world
               = (Ok 4, snd (new_group 1 "room" "hall" true 20 rooms_world)))
    by (vm_compute; reflexivity).
  assert (H2 : storage_answers (snd (new_group 1 "room" "hall" true 20 rooms_world)))
    by (vm_compute; exact I).
  split; [exact H1|]. split; [exact H2|].
  exact (new_group_then_find_group 1 "room" "hall" true 20 rooms_world 4 _ H1 H2).
Defined.

(** A second "lobby" of class "room" is refused. *)
Lemma new_group_duplicate_witness :
  In lobby (groups (db rooms_world))
  /\ storage_answers rooms_world
  /\ exists w',
       new_group 1 "room" "lobby" false 10 rooms_world = (Raise GroupExistsError, w')
       /\ db w' = db rooms_world.
Proof.
  assert (H1 : In lobby (groups (db rooms_world))) by (left; reflexivity).
  split; [exact H1|]. split; [exact I|].
  exact (new_group_duplicate 1 "room" "lobby" false 10 rooms_world lobby
           H1 eq_refl eq_refl eq_refl I).
Defined.

(** Account 6 joins [lobby] as "host" and is found with that role. *)
Lemma join_group_then_find_group_participant_witness :
  join_group sample_get_cluster 1 (GroupAdapter.init lobby) 6 "host" None false rooms_world
    = (Ok (GroupParticipationAdapter.mk "1" "3" "room" "lobby" 0 PyNone PyNone),
       snd (join_group sample_get_cluster 1 (GroupAdapter.init lobby) 6 "host" None false
                       rooms_world))
  /\ exists w'',
       find_group_participant 1 3 6
           (snd (join_group sample_get_cluster 1 (GroupAdapter.init lobby) 6 "host" None
                            false rooms_world))
         = (Ok (GroupParticipationAdapter.mk
                  (str (next_participation_id (db rooms_world)))
                  (str (GroupAdapter.group_id (GroupAdapter.init lobby)))
                  (GroupAdapter.group_class (GroupAdapter.init lobby))
                  (GroupAdapter.key (GroupAdapter.init lobby))
                  0 (PyInt 6) (PyStr "host")), w'')
       /\ db w''
          = db (snd (join_group sample_get_cluster 1 (GroupAdapter.init lobby) 6 "host" None
                                false rooms_world)).
Proof.
  assert (H1 : join_group sample_get_cluster 1 (GroupAdapter.init lobby) 6 "host" None false
                 rooms_world
               = (Ok (GroupParticipationAdapter.mk "1" "3" "room" "lobby" 0 PyNone PyNone),
                  snd (join_group sample_get_cluster 1 (GroupAdapter.init lobby) 6 "host"
                                  None false rooms_world)))
    by (vm_compute; reflexivity).
  assert (H2 : storage_answers
                 (snd (join_group sample_get_cluster 1 (GroupAdapter.init lobby) 6 "host"
                                  None false rooms_world)))
    by (vm_compute; exact I).
  split; [exact H1|].
  exact (join_group_then_find_group_participant sample_get_cluster 1
           (GroupAdapter.init lobby) 6 "host" None false rooms_world _ _ H1 H2).
Defined.


(** The cluster service refuses account 6 for the clustered [guild]. *)
Lemma join_group_cluster_refused_witness :
  GroupAdapter.clustered (GroupAdapter.init guild) = true
  /\ exists w',
       join_group refusing_get_cluster 1 (GroupAdapter.init guild) 6 "member" None false
                  (sample_world guild_database [])
         = (Raise ClusterError, w')
       /\ db w' = db (sample_world guild_database [])
       /\ calls w' = calls (sample_world guild_database [])
       /\ bindings w' = bindings (sample_world guild_database [])
       /\ outbox w' = outbox (sample_world guild_database []).
Proof.
  split; [reflexivity|].
  exact (join_group_cluster_refused refusing_get_cluster 1 (GroupAdapter.init guild) 6
           "member" None false (sample_world guild_database []) tt eq_refl eq_refl).
Defined.

(** Account 5 leaves cluster 7 of [guild]; the cluster service refuses
    the release and the leave succeeds all the same. *)
Lemma leave_group_joined_witness :
  hd_error (select_participant (GroupAdapter.group_id (GroupAdapter.init guild)) 5 1
              (db (sample_world guild_database [])))
    = Some guild_member
  /\ answers_next 2 (faults (sample_world guild_database []))
  /\ exists w',
       leave_group refusing_leave_cluster 1 (GroupAdapter.init guild) 5
                   (Some [("reason", PyStr "bye")]) false (sample_world guild_database [])
         = (Ok tt, w')
       /\ group_participants (db w') = []
       /\ outbox w'
          = [mkNotification 1 5 "guild_class" "guild-7" MESSAGE_PLAYER_LEFT
                            [("reason", PyStr "bye")] false].
Proof.
  assert (H1 : hd_error (select_participant (GroupAdapter.group_id (GroupAdapter.init guild))
                           5 1 (db (sample_world guild_database [])))
               = Some guild_member) by reflexivity.
  assert (H2 : answers_next 2 (faults (sample_world guild_database []))) by exact I.
  split; [exact H1|]. split; [exact H2|].
  destruct (leave_group_joined refusing_leave_cluster 1 (GroupAdapter.init guild) 5
              (Some [("reason", PyStr "bye")]) false (sample_world guild_database [])
              guild_member H1 H2)
    as (w' & Hrun & Hrows & _ & _ & _ & Hout).
  exists w'. split; [exact Hrun|]. split; [exact Hrows | exact Hout].
Defined.

(** Account 6 joins [lobby] and leaves again. *)
Lemma join_group_then_leave_group_witness :
  (forall r, In r (group_participants (db rooms_world)) ->
             participants_t.participation_id r <> next_participation_id (db rooms_world))
  /\ exists w2,
       leave_group sample_leave_cluster 1 (GroupAdapter.init lobby) 6 None false
           (snd (join_group sample_get_cluster 1 (GroupAdapter.init lobby) 6 "host" None
                            false rooms_world))
         = (Ok tt, w2)
       /\ group_participants (db w2) = group_participants (db rooms_world).
Proof.
  assert (H0 : forall r, In r (group_participants (db rooms_world)) ->
                 participants_t.participation_id r <> next_participation_id (db rooms_world)).
  { intros r [<-|[]]. discriminate. }
  assert (H1 : join_group sample_get_cluster 1 (GroupAdapter.init lobby) 6 "host" None false
                 rooms_world
               = (Ok (GroupParticipationAdapter.mk "1" "3" "room" "lobby" 0 PyNone PyNone),
                  snd (join_group sample_get_cluster 1 (GroupAdapter.init lobby) 6 "host"
                                  None false rooms_world)))
    by (vm_compute; reflexivity).
  assert (H2 : answers_next 2
                 (faults (snd (join_group sample_get_cluster 1 (GroupAdapter.init lobby) 6
                                          "host" None false rooms_world))))
    by (vm_compute; exact I).
  split; [exact H0|].
  exact (join_group_then_leave_group sample_get_cluster sample_leave_cluster 1
           (GroupAdapter.init lobby) 6 "host" None false None false rooms_world _ _
           H0 H1 H2).
Defined.

(** A message to user 7 is added and read back. *)
Lemma add_message_then_get_message_witness :
  (forall m, In m (messages (db rooms_world)) ->
             messages_t.message_id m <> next_message_id (db rooms_world))
  /\ exists w'',
       get_message 1 4
           (snd (add_message 1 5 "u-4" "user" "7" 200 "chat" (PayloadDict "{}")
                             ["remove_delivered"] false rooms_world))
         = (Ok (MessageAdapter.mk 4 "u-4" "user" (str 5) "7" 200 "chat" "{}"
                  (if false then 1 else 0)
                  (split "," (lower (flags_dump ["remove_delivered"])))), w'')
       /\ db w''
          = db (snd (add_message 1 5 "u-4" "user" "7" 200 "chat" (PayloadDict "{}")
                                 ["remove_delivered"] false rooms_world)).
Proof.
  assert (H0 : forall m, In m (messages (db rooms_world)) ->
                 messages_t.message_id m <> next_message_id (db rooms_world)).
  { simpl. intros m [<-|[<-|[<-|[]]]]; discriminate. }
  assert (H1 : add_message 1 5 "u-4" "user" "7" 200 "chat" (PayloadDict "{}")
                 ["remove_delivered"] false rooms_world
               = (Ok 4, snd (add_message 1 5 "u-4" "user" "7" 200 "chat" (PayloadDict "{}")
                                         ["remove_delivered"] false rooms_world)))
    by (vm_compute; reflexivity).
  assert (H2 : storage_answers
                 (snd (add_message 1 5 "u-4" "user" "7" 200 "chat" (PayloadDict "{}")
                                   ["remove_delivered"] false rooms_world)))
    by (vm_compute; exact I).
  split; [exact H0|].
  exact (add_message_then_get_message 1 5 "u-4" "user" "7" 200 "chat" "{}"
           ["remove_delivered"] false rooms_world 4 _ H0 H1 H2).
Defined.

(** Message 3 is deleted and looked for. *)
Lemma delete_message_then_get_message_witness :
  delete_message 1 3 rooms_world = (Ok tt, snd (delete_message 1 3 rooms_world))
  /\ messages (db (snd (delete_message 1 3 rooms_world)))
     = filter (fun r => negb ((messages_t.message_id r =? 3)
                              && (messages_t.gamespace_id r =? 1)))
              (messages (db rooms_world))
  /\ exists w'',
       get_message 1 3 (snd (delete_message 1 3 rooms_world)) = (Raise MessageNotFound, w'')
       /\ db w'' = db (snd (delete_message 1 3 rooms_world)).
Proof.
  assert (H1 : delete_message 1 3 rooms_world = (Ok tt, snd (delete_message 1 3 rooms_world)))
    by (vm_compute; reflexivity).
  assert (H2 : storage_answers (snd (delete_message 1 3 rooms_world)))
    by (vm_compute; exact I).
  split; [exact H1|].
  exact (delete_message_then_get_message 1 3 rooms_world _ H1 H2).
Defined.

(** The mailbox of user 5 is emptied. *)
Lemma delete_messages_then_list_incoming_messages_witness :
  delete_messages 1 "user" "5" rooms_world
    = (Ok tt, snd (delete_messages 1 "user" "5" rooms_world))
  /\ messages (db (snd (delete_messages 1 "user" "5" rooms_world)))
     = filter (fun r => negb (for_recipient "user" "5" 1 r)) (messages (db rooms_world))
  /\ exists w'',
       list_incoming_messages 1 "user" "5" 100 (snd (delete_messages 1 "user" "5" rooms_world))
         = (Ok [], w'')
       /\ db w'' = db (snd (delete_messages 1 "user" "5" rooms_world)).
Proof.
  assert (H1 : delete_messages 1 "user" "5" rooms_world
               = (Ok tt, snd (delete_messages 1 "user" "5" rooms_world)))
    by (vm_compute; reflexivity).
  assert (H2 : storage_answers (snd (delete_messages 1 "user" "5" rooms_world)))
    by (vm_compute; exact I).
  split; [exact H1|].
  assert (H3 : 0 <= 100) by lia.
  exact (delete_messages_then_list_incoming_messages 1 "user" "5" 100 rooms_world _ H1 H2 H3).
Defined.

(** After the mailbox of user 5 is read with a receiver that fails on
    message 3, message 3 is what is left to deliver. *)
Lemma read_incoming_messages_leaves_unconfirmed_witness :
  messages_keyed (db (sample_world mailbox_database []))
  /\ select_undelivered "user" "5" 1
       (db (snd (read_incoming_messages "remove_delivered" 1 "user" "5" sample_receiver
                   (sample_world mailbox_database []))))
     = filter (fun m => negb (sample_receiver (MessageAdapter.init m)))
              (select_undelivered "user" "5" 1 (db (sample_world mailbox_database []))).
Proof.
  assert (Hkey : messages_keyed (db (sample_world mailbox_database []))).
  { unfold messages_keyed. simpl.
    repeat (constructor; [simpl; intuition discriminate|]). constructor. }
  assert (H1 : read_incoming_messages "remove_delivered" 1 "user" "5" sample_receiver
                 (sample_world mailbox_database [])
               = (Ok tt,
                  snd (read_incoming_messages "remove_delivered" 1 "user" "5"
                         sample_receiver (sample_world mailbox_database []))))
    by (vm_compute; reflexivity).
  split; [exact Hkey|].
  exact (read_incoming_messages_leaves_unconfirmed "remove_delivered" 1 "user" "5"
           sample_receiver (sample_world mailbox_database []) _ Hkey H1).
Defined.

(** The storage faults on the UPDATE, after the receiver was asked. *)
Lemma read_incoming_messages_failure_witness :
  db (snd (read_incoming_messages "remove_delivered" 1 "user" "5" sample_receiver
             (sample_world mailbox_database [None; Some "deadlock"])))
  = db (sample_world mailbox_database [None; Some "deadlock"])
  /\ fst (read_incoming_messages "remove_delivered" 1 "user" "5" sample_receiver
            (sample_world mailbox_database [None; Some "deadlock"]))
     = Raise (MessageError 500 "Failed to read incoming messages: deadlock").
Proof.
  assert (H1 : read_incoming_messages "remove_delivered" 1 "user" "5" sample_receiver
                 (sample_world mailbox_database [None; Some "deadlock"])
               = (Raise (MessageError 500 "Failed to read incoming messages: deadlock"),
                  snd (read_incoming_messages "remove_delivered" 1 "user" "5"
                         sample_receiver
                         (sample_world mailbox_database [None; Some "deadlock"]))))
    by (vm_compute; reflexivity).
  split.
  - exact (proj1 (read_incoming_messages_failure "remove_delivered" 1 "user" "5"
                    sample_receiver (sample_world mailbox_database [None; Some "deadlock"])
                    _ _ H1)).
  - rewrite H1. reflexivity.
Defined.

(** The two newest messages of user 5 are asked for. *)
Lemma list_incoming_messages_recent_first_witness :
  list_incoming_messages 1 "user" "5" 2 (sample_world mailbox_database [])
    = (Ok [ MessageAdapter.init (sample_message 4 "user" "5" 1 "");
            MessageAdapter.init (sample_message 3 "user" "5" 0 "") ],
       snd (list_incoming_messages 1 "user" "5" 2 (sample_world mailbox_database [])))
  /\ StronglySorted Z.ge
       (map MessageAdapter.time
            [ MessageAdapter.init (sample_message 4 "user" "5" 1 "");
              MessageAdapter.init (sample_message 3 "user" "5" 0 "") ])
  /\ (List.length [ MessageAdapter.init (sample_message 4 "user" "5" 1 "");
                    MessageAdapter.init (sample_message 3 "user" "5" 0 "") ]
      <= Z.to_nat 2)%nat.
Proof.
  assert (H1 : list_incoming_messages 1 "user" "5" 2 (sample_world mailbox_database [])
    = (Ok [ MessageAdapter.init (sample_message 4 "user" "5" 1 "");
            MessageAdapter.init (sample_message 3 "user" "5" 0 "") ],
       snd (list_incoming_messages 1 "user" "5" 2 (sample_world mailbox_database []))))
    by (vm_compute; reflexivity).
  split; [exact H1|].
  destruct (list_incoming_messages_recent_first 1 "user" "5" 2
              (sample_world mailbox_database []) _ _ H1) as (Hs & Hl & _).
  split; [exact Hs | exact Hl].
Defined.

(** The feed of account 5 in [rooms_database], one message per page. *)
Lemma list_messages_account_with_count_total_witness :
  list_messages_account_with_count "user" 1 5 1 0 rooms_world
    = (Ok ([MessageAdapter.init (sample_message 3 "user" "5" 0 "")], 3),
       snd (list_messages_account_with_count "user" 1 5 1 0 rooms_world))
  /\ 3 = Z.of_nat (List.length (select_account_union "user" 1 5 (db rooms_world))).
Proof.
  assert (H1 : list_messages_account_with_count "user" 1 5 1 0 rooms_world
    = (Ok ([MessageAdapter.init (sample_message 3 "user" "5" 0 "")], 3),
       snd (list_messages_account_with_count "user" 1 5 1 0 rooms_world)))
    by (vm_compute; reflexivity).
  split; [exact H1|].
  exact (proj1 (proj2 (list_messages_account_with_count_total "user" 1 5 1 0 rooms_world
                         _ _ _ H1))).
Defined.

(** Account 5 is erased from gamespace 1. *)
Lemma accounts_deleted_effect_witness :
  accounts_deleted 1 [5] true rooms_world
    = (Ok tt, snd (accounts_deleted 1 [5] true rooms_world))
  /\ group_participants (db (snd (accounts_deleted 1 [5] true rooms_world))) = []
  /\ messages (db (snd (accounts_deleted 1 [5] true rooms_world)))
     = messages (db rooms_world).
Proof.
  assert (H1 : accounts_deleted 1 [5] true rooms_world
               = (Ok tt, snd (accounts_deleted 1 [5] true rooms_world)))
    by (vm_compute; reflexivity).
  split; [exact H1|].
  destruct (accounts_deleted_effect 1 [5] true rooms_world _ H1) as (Hp & _ & _ & Hm).
  split; [exact Hp | exact Hm].
Defined.

(** No group of gamespace 1 has the identifier 99: updating it succeeds
    and changes nothing.  [lobby] is renamed to "foyer" and read back. *)
Lemma update_group_then_get_group_witness :
  storage_answers rooms_world
  /\ (exists w',
        update_group 1 99 "room" "attic" 80 rooms_world = (Ok tt, w')
        /\ db w' = db rooms_world)
  /\ update_group 1 3 "room" "foyer" 80 rooms_world
     = (Ok tt, snd (update_group 1 3 "room" "foyer" 80 rooms_world))
  /\ group_participants (db (snd (update_group 1 3 "room" "foyer" 80 rooms_world)))
     = [lobby_guest]
  /\ exists w'',
       get_group 1 3 (snd (update_group 1 3 "room" "foyer" 80 rooms_world))
         = (Ok (GroupAdapter.mk 3 "room" "foyer"
                  (negb (groups_t.group_clustered lobby =? 0)) 80), w'').
Proof.
  assert (H0 : storage_answers rooms_world) by exact I.
  assert (H1 : update_group 1 3 "room" "foyer" 80 rooms_world
               = (Ok tt, snd (update_group 1 3 "room" "foyer" 80 rooms_world)))
    by (vm_compute; reflexivity).
  assert (H2 : storage_answers (snd (update_group 1 3 "room" "foyer" 80 rooms_world)))
    by (vm_compute; exact I).
  split; [exact H0|]. split.
  - apply (proj1 (update_group_then_get_group 1 99 "room" "attic" 80 rooms_world H0)).
    intros g Hg [_ Hid]. simpl in Hg. destruct Hg as [<-|[]]. discriminate Hid.
  - split; [exact H1|].
    destruct (proj2 (update_group_then_get_group 1 3 "room" "foyer" 80 rooms_world H0) _ H1)
      as (Hp & _ & Hget).
    split; [exact Hp|].
    exact (Hget lobby eq_refl H2).
Defined.

(** [lobby] is deleted; its guest's participation row stays. *)
Lemma delete_group_then_get_group_witness :
  delete_group 1 (GroupAdapter.init lobby) rooms_world
    = (Ok tt, snd (delete_group 1 (GroupAdapter.init lobby) rooms_world))
  /\ group_participants (db (snd (delete_group 1 (GroupAdapter.init lobby) rooms_world)))
     = [lobby_guest]
  /\ exists w'',
       get_group 1 (GroupAdapter.group_id (GroupAdapter.init lobby))
                 (snd (delete_group 1 (GroupAdapter.init lobby) rooms_world))
         = (Raise GroupNotFound, w'').
Proof.
  assert (H1 : delete_group 1 (GroupAdapter.init lobby) rooms_world
               = (Ok tt, snd (delete_group 1 (GroupAdapter.init lobby) rooms_world)))
    by (vm_compute; reflexivity).
  assert (H2 : storage_answers (snd (delete_group 1 (GroupAdapter.init lobby) rooms_world)))
    by (vm_compute; exact I).
  split; [exact H1|].
  destruct (delete_group_then_get_group 1 (GroupAdapter.init lobby) rooms_world _ H1)
    as (Hp & _ & Hget).
  split; [exact Hp|].
  exact (Hget H2).
Defined.

(** The guest of [lobby] is made "host". *)
Lemma updated_group_participation_then_get_witness :
  updated_group_participation 1 4 "host" rooms_world
    = (Ok tt, snd (updated_group_participation 1 4 "host" rooms_world))
  /\ exists w'',
       get_group_participation 1 4 (snd (updated_group_participation 1 4 "host" rooms_world))
         = (Ok (GroupParticipationAdapter.mk
                  (str 4) (str (participants_t.group_id lobby_guest))
                  (participants_t.group_class lobby_guest)
                  (participants_t.group_key lobby_guest)
                  (participants_t.cluster_id lobby_guest)
                  (PyInt (participants_t.participation_account lobby_guest))
                  (PyStr "host")), w'').
Proof.
  assert (H1 : updated_group_participation 1 4 "host" rooms_world
               = (Ok tt, snd (updated_group_participation 1 4 "host" rooms_world)))
    by (vm_compute; reflexivity).
  assert (H2 : storage_answers (snd (updated_group_participation 1 4 "host" rooms_world)))
    by (vm_compute; exact I).
  split; [exact H1|].
  destruct (updated_group_participation_then_get 1 4 "host" rooms_world _ H1)
    as (_ & _ & _ & Hget).
  exact (Hget lobby_guest eq_refl H2).
Defined.

(** Account 5 is a guest of [lobby], and its participation row carries
    the class and key of [lobby]; account 6 has no participation row in
    [lobby]; no group is called "cellar". *)
Lemma find_group_with_participation_cases_witness :
  storage_answers rooms_world
  /\ (exists a,
        fst (find_group_with_participation 1 "room" "lobby" 5 rooms_world) = Ok a
        /\ GroupAndParticipationAdapter.group a = GroupAdapter.init lobby
        /\ GroupAndParticipationAdapter.participation a = row_participation lobby_guest
        /\ GroupParticipationAdapter.group_key (GroupAndParticipationAdapter.participation a)
           = GroupAdapter.key (GroupAndParticipationAdapter.group a)
        /\ GroupParticipationAdapter.group_class (GroupAndParticipationAdapter.participation a)
           = GroupAdapter.group_class (GroupAndParticipationAdapter.group a))
  /\ fst (find_group_with_participation 1 "room" "lobby" 6 rooms_world)
     = Raise GroupParticipantNotFound
  /\ fst (find_group_with_participation 1 "room" "cellar" 6 rooms_world)
     = Raise GroupNotFound.
Proof.
  split; [exact I|]. split; [|split].
  - destruct (find_group_with_participation_cases 1 "room" "lobby" 5 rooms_world I)
      as (r & w' & Hrun & _ & Hr).
    rewrite Hrun. simpl. exact (Hr eq_refl eq_refl).
  - destruct (find_group_with_participation_cases 1 "room" "lobby" 6 rooms_world I)
      as (r & w' & Hrun & _ & Hr).
    rewrite Hrun. exact Hr.
  - destruct (find_group_with_participation_cases 1 "room" "cellar" 6 rooms_world I)
      as (r & w' & Hrun & _ & Hr).
    rewrite Hrun. exact Hr.
Defined.

(** The undelivered messages of gamespace 1, whoever sent them: the
    sender filter 0 does not count. *)
Lemma MessagesQuery_query_filters_witness :
  limit (mkMessagesQuery 1 (Some 0) None None None (Some false) 0 0) = 0
  /\ storage_answers rooms_world
  /\ exists rows w',
       MessagesQuery_query (mkMessagesQuery 1 (Some 0) None None None (Some false) 0 0)
                           false false rooms_world
         = (Ok (QueryItems (map MessageAdapter.init rows)), w')
       /\ (In (sample_message 3 "user" "5" 0 "") rows)
       /\ ~ In (sample_message 2 "user" "5" 1 "") rows.
Proof.
  split; [reflexivity|]. split; [exact I|].
  destruct (MessagesQuery_query_filters
              (mkMessagesQuery 1 (Some 0) None None None (Some false) 0 0)
              rooms_world eq_refl I) as (rows & w' & Hrun & _ & _ & Hin).
  exists rows, w'. split; [exact Hrun|]. split.
  - apply Hin. simpl. split; [auto|]. split; [reflexivity|].
    repeat split; intros v Hv; try discriminate Hv.
    + injection Hv as <-. intros Hne. exfalso. apply Hne. reflexivity.
    + injection Hv as <-. reflexivity.
  - intros H. apply Hin in H. destruct H as (_ & _ & _ & _ & _ & _ & Hd).
    specialize (Hd false eq_refl). discriminate Hd.
Defined.

(** The newest message addressed to user 5. *)
Lemma MessagesQuery_query_one_witness :
  limit (mkMessagesQuery 1 None (Some "user") (Some "5") None None 0 0) = 0
  /\ storage_answers rooms_world
  /\ fst (MessagesQuery_query (mkMessagesQuery 1 None (Some "user") (Some "5") None None 0 0)
                              true false rooms_world)
     = Ok (QueryOne (Some (MessageAdapter.init (sample_message 3 "user" "5" 0 "")))).
Proof.
  split; [reflexivity|]. split; [exact I|].
  destruct (MessagesQuery_query_one
              (mkMessagesQuery 1 None (Some "user") (Some "5") None None 0 0)
              false rooms_world eq_refl I) as (item & w' & Hrun & _).
  rewrite Hrun. simpl.
  assert (E : fst (MessagesQuery_query
                     (mkMessagesQuery 1 None (Some "user") (Some "5") None None 0 0)
                     true false rooms_world)
              = Ok (QueryOne (Some (MessageAdapter.init (sample_message 3 "user" "5" 0 "")))))
    by (vm_compute; reflexivity).
  rewrite Hrun in E. exact E.
Defined.


(** Account 6 joins [lobby] beside its guest and both are listed. *)
Lemma join_group_then_listed_witness :
  join_group sample_get_cluster 1 (GroupAdapter.init lobby) 6 "host" None false rooms_world
    = (Ok (GroupParticipationAdapter.mk "1" "3" "room" "lobby" 0 PyNone PyNone),
       snd (join_group sample_get_cluster 1 (GroupAdapter.init lobby) 6 "host" None false
                       rooms_world))
  /\ fst (list_group_participants 1 (GroupAdapter.group_id (GroupAdapter.init lobby))
            (snd (join_group sample_get_cluster 1 (GroupAdapter.init lobby) 6 "host" None
                             false rooms_world)))
     = Ok [ row_participation lobby_guest;
            row_participation (participants_t.mk 1 5 3 "room" "lobby" 6 "host" 0) ].
Proof.
  assert (H1 : join_group sample_get_cluster 1 (GroupAdapter.init lobby) 6 "host" None false
                 rooms_world
               = (Ok (GroupParticipationAdapter.mk "1" "3" "room" "lobby" 0 PyNone PyNone),
                  snd (join_group sample_get_cluster 1 (GroupAdapter.init lobby) 6 "host"
                                  None false rooms_world)))
    by (vm_compute; reflexivity).
  assert (H2 : storage_answers
                 (snd (join_group sample_get_cluster 1 (GroupAdapter.init lobby) 6 "host"
                                  None false rooms_world)))
    by (vm_compute; exact I).
  split; [exact H1|].
  destruct (join_group_then_listed sample_get_cluster 1 (GroupAdapter.init lobby) 6 "host"
              None false rooms_world _ _ H1 H2) as [(w'' & Hlist) _].
  rewrite Hlist. reflexivity.
Defined.
